(** * bizgptai: the analytics core, embedded from the TypeScript sources

    The development follows the three source files that carry the
    algorithms of the dashboard:

    - [src/utils/dataProcessor.ts]   cleaning, deduplication, imputation,
                                     column statistics            ([DataProcessor])
    - [src/services/nlqService.ts]   the pattern-matching query executor
                                     (client and backend copies)  ([NlqService])
    - [src/services/voiceService.ts] anomaly detection, forecasting, KPIs
                                                                  ([VoiceService])

    JavaScript numbers are IEEE-754 binary64 values; they are modelled by
    Rocq's primitive [float], so every arithmetic step below rounds exactly
    as it does in the engine.  The built-ins of the language that the code
    calls ([Number], [toFixed], [parseFloat], [Date], [Array.prototype.sort],
    ...) are written out in the first modules, following ECMA-262. *)

From Stdlib Require Import Floats ZArith List String Ascii Bool Lia Sorted.
From Stdlib Require Import DecimalString.
From Stdlib Require Import Permutation.
Import ListNotations.

(** A decimal literal such as [0.3] denotes the nearest binary64 value, as
    it does in JavaScript. *)
Set Warnings "-inexact-float".

Local Open Scope bool_scope.
Local Open Scope Z_scope.

(** ** Completions: a call either returns or throws *)

Inductive JsError : Type :=
| RangeError
| Error (message : string).

Inductive Completion (A : Type) : Type :=
| Return (a : A)
| Throw (e : JsError).

Arguments Return {A} a.
Arguments Throw {A} e.

Definition bind {A B : Type} (c : Completion A) (k : A -> Completion B) : Completion B :=
  match c with
  | Return a => k a
  | Throw e => Throw e
  end.

Notation "x <- c ;; k" := (bind c (fun x => k))
  (at level 61, c at next level, right associativity).

(** [arr.map(f)] where the callback may throw: the first exception, in
    index order, aborts the whole call. *)
Fixpoint mapM {A B : Type} (f : A -> Completion B) (l : list A) : Completion (list B) :=
  match l with
  | [] => Return []
  | a :: t => b <- f a ;; bs <- mapM f t ;; Return (b :: bs)
  end.

(** ** Strings

    A JavaScript string is a sequence of UTF-16 code units.  The model uses
    Rocq's [string], one [ascii] per code unit, and therefore covers the
    strings whose code units are below 256 (Latin-1). *)

Module JsString.

Local Open Scope string_scope.
Local Open Scope Z_scope.

Definition code (c : ascii) : Z := Z.of_N (N_of_ascii c).

Definition isDigit (c : ascii) : bool := (48 <=? code c) && (code c <=? 57).
Definition isUpper (c : ascii) : bool := (65 <=? code c) && (code c <=? 90).
Definition isLower (c : ascii) : bool := (97 <=? code c) && (code c <=? 122).

(** The regular-expression class [\w]: [A-Za-z0-9_]. *)
Definition isWordChar (c : ascii) : bool :=
  isDigit c || isUpper c || isLower c || (code c =? 95).

(** WhiteSpace and LineTerminator code units below 256:
    TAB, LF, VT, FF, CR, SP and NBSP. *)
Definition isWhiteSpace (c : ascii) : bool :=
  ((9 <=? code c) && (code c <=? 13)) || (code c =? 32) || (code c =? 160).

Definition ofCode (z : Z) : ascii := ascii_of_N (Z.to_N z).

(** [String.prototype.toLowerCase] on one Latin-1 code unit: [A-Z] and the
    accented capitals U+00C0..U+00DE (without the multiplication sign
    U+00D7) move 32 places up. *)
Definition lowerChar (c : ascii) : ascii :=
  if isUpper c then ofCode (code c + 32)
  else if (192 <=? code c) && (code c <=? 222) && negb (code c =? 215)
       then ofCode (code c + 32)
       else c.

(** [toUpperCase] of a single [\w] character, as used by [calculateKPIs]. *)
Definition upperWordChar (c : ascii) : ascii :=
  if isLower c then ofCode (code c - 32) else c.

Fixpoint toLowerCase (s : string) : string :=
  match s with
  | EmptyString => EmptyString
  | String c t => String (lowerChar c) (toLowerCase t)
  end.

(** [pre] is a prefix of [s]; on success the rest of [s] is returned. *)
Fixpoint stripPrefix (pre s : string) : option string :=
  match pre, s with
  | EmptyString, _ => Some s
  | String a p, String b t => if Ascii.eqb a b then stripPrefix p t else None
  | String _ _, EmptyString => None
  end.

(** Same, comparing case-insensitively (the [i] flag of a regular
    expression whose literal part is written in lower case). *)
Fixpoint stripPrefixCI (pre s : string) : option string :=
  match pre, s with
  | EmptyString, _ => Some s
  | String a p, String b t =>
      if Ascii.eqb a (lowerChar b) && (code b <? 128) then stripPrefixCI p t else None
  | String _ _, EmptyString => None
  end.

(** [s.includes(sub)]. *)
Fixpoint includes (s sub : string) : bool :=
  match stripPrefix sub s with
  | Some _ => true
  | None => match s with
            | EmptyString => false
            | String _ t => includes t sub
            end
  end.

Fixpoint span (p : ascii -> bool) (s : string) : string * string :=
  match s with
  | EmptyString => (EmptyString, EmptyString)
  | String c t => if p c then let (a, b) := span p t in (String c a, b)
                  else (EmptyString, s)
  end.

Fixpoint dropWhile (p : ascii -> bool) (s : string) : string :=
  match s with
  | EmptyString => EmptyString
  | String c t => if p c then dropWhile p t else s
  end.

Fixpoint rev_append (s acc : string) : string :=
  match s with
  | EmptyString => acc
  | String c t => rev_append t (String c acc)
  end.

Definition rev (s : string) : string := rev_append s EmptyString.

Definition trimStart (s : string) : string := dropWhile isWhiteSpace s.
Definition trim (s : string) : string := rev (trimStart (rev (trimStart s))).

(** Decimal digits of a natural number, ["0"] for zero. *)
Definition ofN (n : N) : string := NilZero.string_of_uint (N.to_uint n).
Definition ofNonNeg (z : Z) : string := ofN (Z.to_N z).

Fixpoint repeat (c : ascii) (n : nat) : string :=
  match n with
  | O => EmptyString
  | S k => String c (repeat c k)
  end.

(** [s.padStart(n, "0")]. *)
Definition padZeros (n : nat) (s : string) : string :=
  (repeat "0"%char (n - String.length s)%nat ++ s)%string.

Definition take (n : nat) (s : string) : string := substring 0 n s.
Definition drop (n : nat) (s : string) : string := substring n (String.length s - n)%nat s.

(** [s.split(sep)] for a separator of one code unit: the pieces between
    the separators, a single empty piece for the empty string. *)
Fixpoint split (sep : ascii) (s : string) : list string :=
  match s with
  | EmptyString => [EmptyString]
  | String c t =>
      if Ascii.eqb c sep then EmptyString :: split sep t
      else match split sep t with
           | h :: r => String c h :: r
           | [] => [String c EmptyString]
           end
  end.

End JsString.

(** ** Numbers

    [float] is binary64.  [Prim2SF] exposes sign, mantissa and exponent of a
    value, from which the exact decimal conversions of ECMA-262 are
    computed with integer arithmetic. *)

Module JsNumber.

Import JsString.

Definition NaN : float := nan.
Definition Infinity : float := infinity.

(** The global [isNaN] on a Number. *)
Definition isNaN (x : float) : bool := negb (x =? x)%float.

(** The Number nearest to the integer [z] (ties to even). *)
Definition ofZ (z : Z) : float := SF2Prim (binary_normalize prec emax z 0 false).
Definition ofNat (n : nat) : float := ofZ (Z.of_nat n).

(** The Number nearest to [m * 10 ^ e], with the sign [neg] (which is kept
    on a zero result). *)
Definition ofDecimal (neg : bool) (m : Z) (e : Z) : float :=
  match m with
  | Zpos p =>
      if 0 <=? e
      then SF2Prim (binary_normalize prec emax (cond_Zopp neg (m * 10 ^ e)) 0 false)
      else SF2Prim (SFdiv prec emax (S754_finite neg p 0)
                                    (S754_finite false (Z.to_pos (10 ^ (- e))) 0))
  | _ => if neg then neg_zero else 0%float
  end.

(** Truncation toward zero of a finite Number ([None] for NaN and the
    infinities). *)
Definition truncate (x : float) : option Z :=
  match Prim2SF x with
  | S754_zero _ => Some 0
  | S754_finite s m e =>
      Some (cond_Zopp s (if 0 <=? e then Zpos m * 2 ^ e else Zpos m / 2 ^ (- e)))
  | _ => None
  end.

(** [x || 0] on Numbers: a falsy Number is [+0], [-0] or [NaN]. *)
Definition truthy (x : float) : bool := negb ((x =? 0)%float || isNaN x).
Definition orZero (x : float) : float := if truthy x then x else 0%float.

(** [Math.max(0, x)]: NaN if [x] is NaN, [+0] for either zero. *)
Definition max0 (x : float) : float :=
  if isNaN x then NaN else if (0 <? x)%float then x else 0%float.

(** [Math.min(1, x)]. *)
Definition min1 (x : float) : float :=
  if isNaN x then NaN else if (x <? 1)%float then x else 1%float.

(** [Math.pow(x, 2)], the correctly rounded square. *)
Definition square (x : float) : float := (x * x)%float.

(** [Math.min(a, b)] and [Math.max(a, b)]: NaN is contagious and [-0] is
    below [+0]. *)
Definition min2 (a b : float) : float :=
  if isNaN a || isNaN b then NaN
  else if (a <? b)%float then a
  else if (b <? a)%float then b
  else if get_sign a then a else b.

Definition max2 (a b : float) : float :=
  if isNaN a || isNaN b then NaN
  else if (a <? b)%float then b
  else if (b <? a)%float then a
  else if get_sign a then b else a.

(** [Math.min(...values)] and [Math.max(...values)]. *)
Definition minOf (l : list float) : float := fold_left min2 l infinity.
Definition maxOf (l : list float) : float := fold_left max2 l neg_infinity.

(** [values.reduce((a, b) => a + b, 0)]. *)
Definition sum (l : list float) : float := fold_left add l 0%float.

(** *** Scanning numeric literals *)

Fixpoint digitsValue (s : string) (acc : Z) : Z :=
  match s with
  | EmptyString => acc
  | String c t => digitsValue t (10 * acc + (code c - 48))
  end.

(** [ExponentPart]: [e] or [E], an optional sign and at least one digit.
    Returns the exponent and the text after it. *)
Definition scanExponent (s : string) : option (Z * string) :=
  match s with
  | String c t =>
      if (code c =? 101) || (code c =? 69) then
        let '(neg, t') :=
          match t with
          | String d u => if code d =? 45 then (true, u)
                          else if code d =? 43 then (false, u) else (false, t)
          | EmptyString => (false, t)
          end in
        let '(ds, rest) := span isDigit t' in
        match ds with
        | EmptyString => None
        | _ => Some (cond_Zopp neg (digitsValue ds 0), rest)
        end
      else None
  | EmptyString => None
  end.

(** The longest prefix of [s] that is a [StrUnsignedDecimalLiteral] other
    than [Infinity]: mantissa, decimal exponent and the text that follows. *)
Definition scanUnsignedDecimal (s : string) : option (Z * Z * string) :=
  let '(ip, r1) := span isDigit s in
  let '(fp, r2) :=
    match r1 with
    | String c t => if code c =? 46 then span isDigit t else (EmptyString, r1)
    | EmptyString => (EmptyString, r1)
    end in
  match ip, fp with
  | EmptyString, EmptyString => None
  | _, _ =>
      let m := digitsValue fp (digitsValue ip 0) in
      let shift := Z.of_nat (String.length fp) in
      match scanExponent r2 with
      | Some (e, r3) => Some (m, e - shift, r3)
      | None => Some (m, - shift, r2)
      end
  end.

Definition scanSign (s : string) : bool * string :=
  match s with
  | String c t => if code c =? 45 then (true, t)
                  else if code c =? 43 then (false, t) else (false, s)
  | EmptyString => (false, s)
  end.

(** The longest prefix that is a [StrDecimalLiteral]. *)
Definition scanDecimal (s : string) : option (float * string) :=
  let '(neg, t) := scanSign s in
  match stripPrefix "Infinity" t with
  | Some rest => Some (if neg then neg_infinity else infinity, rest)
  | None =>
      match scanUnsignedDecimal t with
      | Some (m, e, rest) => Some (ofDecimal neg m e, rest)
      | None => None
      end
  end.

Definition digitOfBase (base : Z) (c : ascii) : option Z :=
  let v := if isDigit c then code c - 48
           else if isLower c then code c - 87
           else if isUpper c then code c - 55
           else 99 in
  if v <? base then Some v else None.

Fixpoint scanRadix (base : Z) (s : string) (acc : Z) : option Z :=
  match s with
  | EmptyString => Some acc
  | String c t => match digitOfBase base c with
                  | Some v => scanRadix base t (base * acc + v)
                  | None => None
                  end
  end.

(** [NonDecimalIntegerLiteral]: [0x], [0o] or [0b] and at least one digit. *)
Definition scanNonDecimal (s : string) : option float :=
  match s with
  | String z (String k (String d t)) =>
      if code z =? 48 then
        let base := if (code k =? 120) || (code k =? 88) then 16
                    else if (code k =? 111) || (code k =? 79) then 8
                    else if (code k =? 98) || (code k =? 66) then 2
                    else 0 in
        if base =? 0 then None
        else match scanRadix base (String d t) 0 with
             | Some v => Some (ofZ v)
             | None => None
             end
      else None
  | _ => None
  end.

(** [StringToNumber]: the conversion behind [Number(s)]. *)
Definition StringToNumber (s : string) : float :=
  let t := trim s in
  match t with
  | EmptyString => 0%float
  | _ =>
      match scanNonDecimal t with
      | Some x => x
      | None =>
          match scanDecimal t with
          | Some (x, EmptyString) => x
          | _ => NaN
          end
      end
  end.

(** The global [parseFloat]. *)
Definition parseFloat (s : string) : float :=
  match scanDecimal (trimStart s) with
  | Some (x, _) => x
  | None => NaN
  end.

(** *** Printing Numbers *)

Local Open Scope string_scope.
Local Open Scope Z_scope.

(** The exact value of a finite non-zero Number, as a fraction. *)
Definition exactRatio (m : positive) (e : Z) : Z * Z :=
  if 0 <=? e then (Zpos m * 2 ^ e, 1) else (Zpos m, 2 ^ (- e)).

Definition numDigits (z : Z) : Z := Z.of_nat (String.length (ofNonNeg z)).

(** The integer [n] with [10^(n-1) <= N/D < 10^n], for positive [N], [D]. *)
Definition magnitude (N D : Z) : Z :=
  if D <=? N then numDigits (N / D)
  else let d := numDigits (D / N) in
       if N * 10 ^ (d - 1) =? D then 2 - d else 1 - d.

(** One round of the search of Number::toString: a [k]-digit integer [s]
    with [s * 10^(n-k)] converting back to [x], the closest to [x] if
    there are two. *)
Definition shortestAt (x : float) (N D n k : Z) : option (Z * Z) :=
  let a := k - n in
  let num := if 0 <=? a then N * 10 ^ a else N in
  let den := if 0 <=? a then D else D * 10 ^ (- a) in
  let lo := num / den in
  let r := num mod den in
  let hi := lo + 1 in
  let okLo := (ofDecimal false lo (n - k) =? x)%float in
  let okHi := (ofDecimal false hi (n - k) =? x)%float in
  let pick (s : Z) := if s =? 10 ^ k then Some (10 ^ (k - 1), n + 1) else Some (s, n) in
  match okLo, okHi with
  | true, true => if 2 * r <? den then pick lo
                  else if den <? 2 * r then pick hi
                  else if Z.even lo then pick lo else pick hi
  | true, false => pick lo
  | false, true => pick hi
  | false, false => None
  end.

Fixpoint shortestFrom (fuel : nat) (x : float) (N D n k : Z) : Z * Z * Z :=
  match fuel with
  | O => (0, k, n)
  | S f => match shortestAt x N D n k with
           | Some (s, n') => (s, k, n')
           | None => shortestFrom f x N D n (k + 1)
           end
  end.

Definition formatShortest (s k n : Z) : string :=
  let ds := ofNonNeg s in
  if (k <=? n) && (n <=? 21) then ds ++ repeat "0"%char (Z.to_nat (n - k))
  else if (0 <? n) && (n <=? 21) then take (Z.to_nat n) ds ++ "." ++ drop (Z.to_nat n) ds
  else if (-6 <? n) && (n <=? 0) then "0." ++ repeat "0"%char (Z.to_nat (- n)) ++ ds
  else
    let e := n - 1 in
    let es := (if e <? 0 then "-" else "+") ++ ofNonNeg (Z.abs e) in
    if k =? 1 then ds ++ "e" ++ es
    else take 1 ds ++ "." ++ drop 1 ds ++ "e" ++ es.

(** Number::toString(x), radix 10. *)
Definition toString (x : float) : string :=
  match Prim2SF x with
  | S754_nan => "NaN"
  | S754_zero _ => "0"
  | S754_infinity s => if s then "-Infinity" else "Infinity"
  | S754_finite s m e =>
      let '(N, D) := exactRatio m e in
      let '(d, k, n) := shortestFrom 17 (abs x) N D (magnitude N D) 1 in
      (if s then "-" else EmptyString) ++ formatShortest d k n
  end.

(** [x.toFixed(2)]: the decimal with two fraction digits nearest to [x],
    the larger one on a tie; Number::toString from [1e21] on. *)
Definition toFixed2 (x : float) : string :=
  match Prim2SF x with
  | S754_nan => "NaN"
  | S754_zero _ => "0.00"
  | S754_infinity s => if s then "-Infinity" else "Infinity"
  | S754_finite s m e =>
      let sign := if s then "-" else EmptyString in
      if (1e21 <=? abs x)%float then sign ++ toString (abs x)
      else
        let '(N, D) := exactRatio m e in
        let ds := padZeros 3 (ofNonNeg ((200 * N + D) / (2 * D))) in
        let k := (String.length ds - 2)%nat in
        sign ++ take k ds ++ "." ++ drop k ds
  end.

(** [x.toFixed(3)], used for the accuracy score. *)
Definition toFixed3 (x : float) : string :=
  match Prim2SF x with
  | S754_nan => "NaN"
  | S754_zero _ => "0.000"
  | S754_infinity s => if s then "-Infinity" else "Infinity"
  | S754_finite s m e =>
      let sign := if s then "-" else EmptyString in
      if (1e21 <=? abs x)%float then sign ++ toString (abs x)
      else
        let '(N, D) := exactRatio m e in
        let ds := padZeros 4 (ofNonNeg ((2000 * N + D) / (2 * D))) in
        let k := (String.length ds - 3)%nat in
        sign ++ take k ds ++ "." ++ drop k ds
  end.

(** [parseFloat(x.toFixed(2))] and [parseFloat(x.toFixed(3))]. *)
Definition round2 (x : float) : float := parseFloat (toFixed2 x).
Definition round3 (x : float) : float := parseFloat (toFixed3 x).

(** [x.toFixed(1)], used in the recommendation texts. *)
Definition toFixed1 (x : float) : string :=
  match Prim2SF x with
  | S754_nan => "NaN"
  | S754_zero _ => "0.0"
  | S754_infinity s => if s then "-Infinity" else "Infinity"
  | S754_finite s m e =>
      let sign := if s then "-" else EmptyString in
      if (1e21 <=? abs x)%float then sign ++ toString (abs x)
      else
        let '(N, D) := exactRatio m e in
        let ds := padZeros 2 (ofNonNeg ((20 * N + D) / (2 * D))) in
        let k := (String.length ds - 1)%nat in
        sign ++ take k ds ++ "." ++ drop k ds
  end.

End JsNumber.

(** ** Dates

    A time value is a number of milliseconds since the epoch, or NaN for an
    invalid date; it is modelled by [option Z].  What ECMA-262 leaves to the
    implementation — the parsing of strings outside the ISO format and the
    local time zone — is collected in a [Host]. *)

Module JsDate.

Import JsString.
Local Open Scope string_scope.
Local Open Scope Z_scope.

Record Host : Type := {
  (** [Date.parse] on a string that is not in the Date Time String Format *)
  legacyDateParse : string -> option Z;
  (** LocalTZA(t, isUTC): the offset of local time, in milliseconds *)
  LocalTZA : Z -> bool -> Z
}.

Definition msPerDay : Z := 86400000.

Definition TimeClip (t : Z) : option Z :=
  if Z.abs t <=? 8640000000000000 then Some t else None.

(** The time value as a Number ([getTime()]). *)
Definition timeNumber (t : option Z) : float :=
  match t with
  | Some z => JsNumber.ofZ z
  | None => JsNumber.NaN
  end.

(** [new Date(x)] for a Number [x]. *)
Definition ofNumber (x : float) : option Z :=
  match JsNumber.truncate x with
  | Some z => TimeClip z
  | None => None
  end.

(** Days since the epoch of a proleptic Gregorian date, and back. *)
Definition daysFromCivil (y m d : Z) : Z :=
  let y' := if m <=? 2 then y - 1 else y in
  let era := y' / 400 in
  let yoe := y' - era * 400 in
  let mp := if 2 <? m then m - 3 else m + 9 in
  let doy := (153 * mp + 2) / 5 + d - 1 in
  let doe := yoe * 365 + yoe / 4 - yoe / 100 + doy in
  era * 146097 + doe - 719468.

Definition civilFromDays (days : Z) : Z * Z * Z :=
  let z := days + 719468 in
  let era := z / 146097 in
  let doe := z - era * 146097 in
  let yoe := (doe - doe / 1460 + doe / 36524 - doe / 146096) / 365 in
  let doy := doe - (365 * yoe + yoe / 4 - yoe / 100) in
  let mp := (5 * doy + 2) / 153 in
  let d := doy - (153 * mp + 2) / 5 + 1 in
  let m := if mp <? 10 then mp + 3 else mp - 9 in
  let y := yoe + era * 400 in
  (if m <=? 2 then y + 1 else y, m, d).

Definition isLeap (y : Z) : bool :=
  ((y mod 4 =? 0) && negb (y mod 100 =? 0)) || (y mod 400 =? 0).

Definition daysInMonth (y m : Z) : Z :=
  if m =? 2 then (if isLeap y then 29 else 28)
  else if (m =? 4) || (m =? 6) || (m =? 9) || (m =? 11) then 30 else 31.

Definition pad (n : nat) (z : Z) : string := padZeros n (ofNonNeg z).

(** The date part of [toISOString()]: [YYYY-MM-DD], with a sign and six
    digits for years outside 0..9999. *)
Definition isoDate (days : Z) : string :=
  let '(y, m, d) := civilFromDays days in
  let ys := if (0 <=? y) && (y <=? 9999) then pad 4 y
            else (if y <? 0 then "-" else "+") ++ pad 6 (Z.abs y) in
  ys ++ "-" ++ pad 2 m ++ "-" ++ pad 2 d.

Definition isoTime (ms : Z) : string :=
  pad 2 (ms / 3600000) ++ ":" ++ pad 2 (ms / 60000 mod 60) ++ ":" ++
  pad 2 (ms / 1000 mod 60) ++ "." ++ pad 3 (ms mod 1000).

(** [d.toISOString()]; a RangeError on an invalid date. *)
Definition toISOString (t : option Z) : Completion string :=
  match t with
  | Some z => Return (isoDate (z / msPerDay) ++ "T" ++ isoTime (z mod msPerDay) ++ "Z")
  | None => Throw RangeError
  end.

(** [d.toISOString().split('T')[0]]. *)
Definition toISODate (t : option Z) : Completion string :=
  match t with
  | Some z => Return (isoDate (z / msPerDay))
  | None => Throw RangeError
  end.

(** *** The Date Time String Format *)

(** Exactly [n] digits at the head of [s]. *)
Fixpoint digitsN (n : nat) (s : string) (acc : Z) : option (Z * string) :=
  match n with
  | O => Some (acc, s)
  | S k => match s with
           | String c t => if isDigit c then digitsN k t (10 * acc + (code c - 48)) else None
           | EmptyString => None
           end
  end.

Definition expect (c : ascii) (s : string) : option string :=
  match s with
  | String d t => if Ascii.eqb c d then Some t else None
  | EmptyString => None
  end.

(** [YYYY] or the expanded [+YYYYYY] / [-YYYYYY] ([-000000] is excluded). *)
Definition scanYear (s : string) : option (Z * string) :=
  match s with
  | String c t =>
      if (code c =? 43) || (code c =? 45) then
        match digitsN 6 t 0 with
        | Some (y, r) => if code c =? 45
                         then (if y =? 0 then None else Some (- y, r))
                         else Some (y, r)
        | None => None
        end
      else digitsN 4 s 0
  | EmptyString => None
  end.

(** An optional [-NN] group; absent groups read as [dflt]. *)
Definition scanDashed (dflt : Z) (s : string) : option (Z * string * bool) :=
  match expect "-" s with
  | Some t => match digitsN 2 t 0 with
              | Some (v, r) => Some (v, r, true)
              | None => None
              end
  | None => Some (dflt, s, false)
  end.

(** [HH:mm], [HH:mm:ss] or [HH:mm:ss.sss], in milliseconds. *)
Definition scanTime (s : string) : option (Z * string) :=
  match digitsN 2 s 0 with
  | Some (h, r1) =>
      match expect ":" r1 with
      | Some r2 =>
          match digitsN 2 r2 0 with
          | Some (mi, r3) =>
              let '(sec, ms, r) :=
                match expect ":" r3 with
                | Some r4 =>
                    match digitsN 2 r4 0 with
                    | Some (sv, r5) =>
                        match expect "." r5 with
                        | Some r6 => match digitsN 3 r6 0 with
                                     | Some (f, r7) => (sv, f, r7)
                                     | None => (sv, 0, r5)
                                     end
                        | None => (sv, 0, r5)
                        end
                    | None => (0, 0, r3)
                    end
                | None => (0, 0, r3)
                end in
              if ((h <=? 23) && (mi <=? 59) && (sec <=? 59))
                 || ((h =? 24) && (mi =? 0) && (sec =? 0) && (ms =? 0))
              then Some (h * 3600000 + mi * 60000 + sec * 1000 + ms, r)
              else None
          | None => None
          end
      | None => None
      end
  | None => None
  end.

(** The UTC offset [Z] or [+HH:mm] / [-HH:mm]; [None] inside when absent. *)
Definition scanOffset (s : string) : option (option Z * string) :=
  match s with
  | EmptyString => Some (None, s)
  | String c t =>
      if code c =? 90 then Some (Some 0, t)
      else if (code c =? 43) || (code c =? 45) then
        match digitsN 2 t 0 with
        | Some (h, r1) =>
            match expect ":" r1 with
            | Some r2 =>
                match digitsN 2 r2 0 with
                | Some (mi, r3) =>
                    if (h <=? 23) && (mi <=? 59)
                    then Some (Some ((if code c =? 45 then -1 else 1)
                                     * (h * 3600000 + mi * 60000)), r3)
                    else None
                | None => None
                end
            | None => None
            end
        | None => None
        end
      else None
  end.

(** A string of the format with legal element values: its time value
    before clipping.  Date-only forms are UTC; a date-time form without
    offset is local time. *)
Definition parseISO (host : Host) (s : string) : option Z :=
  match scanYear s with
  | Some (y, r1) =>
      match scanDashed 1 r1 with
      | Some (m, r2, hasMonth) =>
          match (if hasMonth then scanDashed 1 r2 else Some (1, r2, false)) with
          | Some (d, r3, _) =>
              if (1 <=? m) && (m <=? 12) && (1 <=? d) && (d <=? daysInMonth y m) then
                let day := daysFromCivil y m d * msPerDay in
                match r3 with
                | EmptyString => Some day
                | String c r4 =>
                    if code c =? 84 then
                      match scanTime r4 with
                      | Some (ms, r5) =>
                          match scanOffset r5 with
                          | Some (Some off, EmptyString) => Some (day + ms - off)
                          | Some (None, EmptyString) =>
                              let tl := day + ms in
                              Some (tl - LocalTZA host tl false)
                          | _ => None
                          end
                      | None => None
                      end
                    else None
                end
              else None
          | None => None
          end
      | None => None
      end
  | None => None
  end.

(** [Date.parse(s)] / [new Date(s)] for a string. *)
Definition parse (host : Host) (s : string) : option Z :=
  match parseISO host s with
  | Some t => TimeClip t
  | None => legacyDateParse host s
  end.

(** [d.setDate(d.getDate() + i)]: [i] days later, at the same local time
    of day. *)
Definition addLocalDays (host : Host) (t : option Z) (i : Z) : option Z :=
  match t with
  | Some z =>
      let tl := z + LocalTZA host z true in
      let nl := tl + i * msPerDay in
      TimeClip (nl - LocalTZA host nl false)
  | None => None
  end.

(** A host in the UTC time zone that rejects every string outside the
    Date Time String Format. *)
Definition utcHost : Host :=
  {| legacyDateParse := fun _ => None; LocalTZA := fun _ _ => 0 |}.

End JsDate.

(** ** Values, objects and arrays *)

Module Js.

Import JsString.
Local Open Scope string_scope.
Local Open Scope Z_scope.

(** The scalar values a cell of a row can hold. *)
Inductive value : Type :=
| Undefined
| Null
| Bool (b : bool)
| Num (x : float)
| Str (s : string).

Definition ToNumber (v : value) : float :=
  match v with
  | Undefined => JsNumber.NaN
  | Null => 0%float
  | Bool b => if b then 1%float else 0%float
  | Num x => x
  | Str s => JsNumber.StringToNumber s
  end.

Definition ToString (v : value) : string :=
  match v with
  | Undefined => "undefined"
  | Null => "null"
  | Bool b => if b then "true" else "false"
  | Num x => JsNumber.toString x
  | Str s => s
  end.

Definition ToBoolean (v : value) : bool :=
  match v with
  | Undefined | Null => false
  | Bool b => b
  | Num x => JsNumber.truthy x
  | Str s => negb (String.eqb s EmptyString)
  end.

(** [a || b]. *)
Definition or (a b : value) : value := if ToBoolean a then a else b.

(** [a === b]. *)
Definition strictEq (a b : value) : bool :=
  match a, b with
  | Undefined, Undefined | Null, Null => true
  | Bool x, Bool y => Bool.eqb x y
  | Num x, Num y => (x =? y)%float
  | Str x, Str y => String.eqb x y
  | _, _ => false
  end.

(** SameValueZero, the equality of [Set]. *)
Definition sameValueZero (a b : value) : bool :=
  match a, b with
  | Num x, Num y => (x =? y)%float || (JsNumber.isNaN x && JsNumber.isNaN y)
  | _, _ => strictEq a b
  end.

(** [v === null || v === undefined]. *)
Definition isMissing (v : value) : bool :=
  match v with
  | Undefined | Null => true
  | _ => false
  end.

(** [v === null || v === undefined || v === '']. *)
Definition isBlank (v : value) : bool := isMissing v || strictEq v (Str EmptyString).

(** [new Date(v)] for a scalar: strings are parsed, everything else is
    converted to a Number of milliseconds. *)
Definition toDate (host : JsDate.Host) (v : value) : option Z :=
  match v with
  | Str s => JsDate.parse host s
  | _ => JsDate.ofNumber (ToNumber v)
  end.

(** *** Objects

    An object is the list of its own properties in property order: array
    indices first, ascending, then the other keys in creation order.  The
    rows are plain data objects; keys that name a member of
    [Object.prototype] (such as [constructor] or [__proto__]) are outside
    the model. *)

Definition Obj (A : Type) : Type := list (string * A).

(** The array index a key denotes: a canonical numeral up to 2^32 - 2. *)
Definition arrayIndex (k : string) : option Z :=
  match k with
  | EmptyString => None
  | String c t =>
      let '(ds, rest) := span isDigit k in
      if String.eqb rest EmptyString && (negb (code c =? 48) || String.eqb t EmptyString)
      then let v := JsNumber.digitsValue ds 0 in
           if v <=? 4294967294 then Some v else None
      else None
  end.

Fixpoint lookup {A : Type} (o : Obj A) (k : string) : option A :=
  match o with
  | [] => None
  | (k', a) :: t => if String.eqb k' k then Some a else lookup t k
  end.

Definition has {A : Type} (o : Obj A) (k : string) : bool :=
  match lookup o k with Some _ => true | None => false end.

Fixpoint replace {A : Type} (o : Obj A) (k : string) (a : A) : Obj A :=
  match o with
  | [] => []
  | (k', a') :: t => if String.eqb k' k then (k', a) :: t else (k', a') :: replace t k a
  end.

(** Position of a new array-index key: before the first key that is not an
    index or is a larger index. *)
Fixpoint insertIndex {A : Type} (o : Obj A) (i : Z) (k : string) (a : A) : Obj A :=
  match o with
  | [] => [(k, a)]
  | (k', a') :: t =>
      match arrayIndex k' with
      | Some j => if j <? i then (k', a') :: insertIndex t i k a else (k, a) :: o
      | None => (k, a) :: o
      end
  end.

(** [o[k] = a]. *)
Definition set {A : Type} (o : Obj A) (k : string) (a : A) : Obj A :=
  if has o k then replace o k a
  else match arrayIndex k with
       | Some i => insertIndex o i k a
       | None => (o ++ [(k, a)])%list
       end.

(** [Object.keys(o)]. *)
Definition keys {A : Type} (o : Obj A) : list string := map fst o.

(** A row of a dataset, [Record<string, any>] in the sources. *)
Definition Row : Type := Obj value.

(** [row[k]]. *)
Definition get (row : Row) (k : string) : value :=
  match lookup row k with
  | Some v => v
  | None => Undefined
  end.

(** *** JSON.stringify *)

Definition hexDigit (z : Z) : ascii :=
  if z <? 10 then ofCode (48 + z) else ofCode (87 + z).

Fixpoint quoteChars (s : string) : string :=
  match s with
  | EmptyString => EmptyString
  | String c t =>
      let n := code c in
      (if n =? 8 then "\b"
       else if n =? 9 then "\t"
       else if n =? 10 then "\n"
       else if n =? 12 then "\f"
       else if n =? 13 then "\r"
       else if n =? 34 then String (ofCode 92) (String (ofCode 34) EmptyString)
       else if n =? 92 then "\\"
       else if n <? 32 then "\u00" ++ String (hexDigit (n / 16)) (String (hexDigit (n mod 16)) EmptyString)
       else String c EmptyString) ++ quoteChars t
  end.

Definition quote (s : string) : string :=
  String (ofCode 34) (quoteChars s ++ String (ofCode 34) EmptyString).

(** The JSON text of a scalar; [None] for [undefined], whose property is
    left out.  Non-finite Numbers are written [null]. *)
Definition stringifyValue (v : value) : option string :=
  match v with
  | Undefined => None
  | Null => Some "null"
  | Bool b => Some (if b then "true" else "false")
  | Num x => Some (if JsNumber.isNaN x || (abs x =? infinity)%float
                   then "null" else JsNumber.toString x)
  | Str s => Some (quote s)
  end.

Fixpoint stringifyProps (row : Row) : list string :=
  match row with
  | [] => []
  | (k, v) :: t =>
      match stringifyValue v with
      | Some j => (quote k ++ ":" ++ j) :: stringifyProps t
      | None => stringifyProps t
      end
  end.

(** [JSON.stringify(row)]. *)
Definition stringify (row : Row) : string :=
  "{" ++ String.concat "," (stringifyProps row) ++ "}".

(** *** Array.prototype.sort

    The sort is stable, and [a] goes before [b] when the comparator returns
    a negative Number for [(a, b)].  For a consistent comparator every
    stable sort returns the list below; ECMA-262 leaves the order to the
    implementation otherwise. *)

Fixpoint insertSorted {A : Type} (cmp : A -> A -> float) (x : A) (l : list A) : list A :=
  match l with
  | [] => [x]
  | y :: t => if (cmp x y <? 0)%float then x :: l else y :: insertSorted cmp x t
  end.

Definition sort {A : Type} (cmp : A -> A -> float) (l : list A) : list A :=
  fold_left (fun acc x => insertSorted cmp x acc) l [].

(** [arr.slice(0, n)]. *)
Definition slice0 {A : Type} (n : nat) (l : list A) : list A := firstn n l.

End Js.

(** ** src/utils/dataProcessor.ts *)

Module DataProcessor.

Import Js.
Local Open Scope string_scope.
Local Open Scope Z_scope.

Inductive ColumnType : Type := TString | TNumber | TDate | TBoolean.

Definition ColumnType_eqb (a b : ColumnType) : bool :=
  match a, b with
  | TString, TString | TNumber, TNumber | TDate, TDate | TBoolean, TBoolean => true
  | _, _ => false
  end.

(** [DataColumn] of the shared type declarations. *)
Record DataColumn : Type := {
  name : string;
  type : ColumnType;
  nullable : bool;
  unique_count : nat
}.

Record Summary : Type := {
  total_rows : nat;
  total_columns : nat;
  missing_values : Obj nat;
  duplicates : nat
}.

Record ProcessedData : Type := {
  columns : list DataColumn;
  rows : list Row;
  summary : Summary
}.

(** [v === true || v === false || v === 'true' || v === 'false' ||
     v === '0' || v === '1'] *)
Definition isBooleanLike (v : value) : bool :=
  strictEq v (Bool true) || strictEq v (Bool false) ||
  strictEq v (Str "true") || strictEq v (Str "false") ||
  strictEq v (Str "0") || strictEq v (Str "1").

Definition detectColumnType (host : JsDate.Host) (values : list value) : ColumnType :=
  let nonNullValues := filter (fun v => negb (isBlank v)) values in
  match nonNullValues with
  | [] => TString
  | _ =>
      if forallb (fun v => negb (JsNumber.isNaN (ToNumber v))) nonNullValues then TNumber
      else if forallb isBooleanLike nonNullValues then TBoolean
      else if forallb (fun v => negb (JsNumber.isNaN
                         (JsDate.timeNumber (JsDate.parse host (ToString v)))))
                      nonNullValues then TDate
      else TString
  end.

(** Each row is rebuilt from [Object.entries(row)], so the keys keep their
    order; blank cells become [null]. *)
Definition cleanData (data : list Row) : list Row :=
  map (fun row => map (fun '(key, v) => (key, if isBlank v then Null else v)) row) data.

(** The loop of [removeDuplicates], with the set [seen] of the JSON texts
    met so far. *)
Fixpoint removeDuplicatesFrom (seen : list string) (data : list Row) : list Row :=
  match data with
  | [] => []
  | row :: rest =>
      let rowString := stringify row in
      if existsb (String.eqb rowString) seen
      then removeDuplicatesFrom seen rest
      else row :: removeDuplicatesFrom (rowString :: seen) rest
  end.

Definition removeDuplicates (data : list Row) : list Row :=
  removeDuplicatesFrom [] data.

(** [values.filter(v => v === a).length] *)
Definition occurrences (values : list value) (a : value) : nat :=
  List.length (filter (fun v => strictEq v a) values).

(** [values.sort((a, b) => count(a) - count(b)).pop()]: the sort works on
    a copy that is written back at the end, so the counts are taken on the
    array as it was. *)
Definition mode (values : list value) : value :=
  last (sort (fun a b => (JsNumber.ofNat (occurrences values a)
                          - JsNumber.ofNat (occurrences values b))%float) values)
       Undefined.

(** One round of the loop over the columns in [fillMissingValues]. *)
Definition fillColumn (filled : list Row) (column : DataColumn) : list Row :=
  let values := filter (fun v => negb (isMissing v))
                       (map (fun row => get row (name column)) filled) in
  match values with
  | [] => filled
  | _ =>
      match type column with
      | TNumber =>
          let avg := (fold_left (fun sum v => sum + ToNumber v) values 0
                      / JsNumber.ofNat (List.length values))%float in
          map (fun row => if isMissing (get row (name column))
                          then set row (name column) (Num avg) else row) filled
      | TString =>
          let m := mode values in
          map (fun row => if isMissing (get row (name column))
                          then set row (name column) (or m (Str EmptyString)) else row) filled
      | _ => filled
      end
  end.

(** [filled] starts as a copy of the rows ([{ ...row }] keeps keys and
    order) and is updated column by column. *)
Definition fillMissingValues (data : list Row) (columns : list DataColumn) : list Row :=
  fold_left fillColumn columns data.

(** [new Set(values).size] *)
Fixpoint setSize (values : list value) : nat :=
  match values with
  | [] => O
  | v :: t => if existsb (sameValueZero v) t then setSize t else S (setSize t)
  end.

(** [cleaned.filter(row => row[c] === null || row[c] === undefined).length] *)
Definition nullCount (data : list Row) (column : string) : nat :=
  List.length (filter (fun row => isMissing (get row column)) data).

Definition describeColumn (host : JsDate.Host) (unique : list Row) (name : string) : DataColumn :=
  let values := map (fun row => get row name) unique in
  let nonNullValues := filter (fun v => negb (isMissing v)) values in
  {| name := name;
     type := detectColumnType host values;
     nullable := (List.length nonNullValues <? List.length unique)%nat;
     unique_count := setSize nonNullValues |}.

Definition countMissing (cleaned : list Row) (columns : list DataColumn) : Obj nat :=
  fold_left (fun missingValues column =>
               let n := nullCount cleaned (name column) in
               if (0 <? n)%nat then set missingValues (name column) n else missingValues)
            columns [].

Definition processDataset (host : JsDate.Host) (rawData : list Row) : Completion ProcessedData :=
  match rawData with
  | [] => Throw (Error "No data to process")
  | _ =>
      let cleaned := cleanData rawData in
      let unique := removeDuplicates cleaned in
      let columnNames := keys (hd [] unique) in
      let columns := map (describeColumn host unique) columnNames in
      let filled := fillMissingValues unique columns in
      let missingValues := countMissing cleaned columns in
      Return {| columns := columns;
                rows := filled;
                summary := {| total_rows := List.length filled;
                              total_columns := List.length columns;
                              missing_values := missingValues;
                              duplicates := List.length rawData - List.length unique |} |}
  end.

(** The entry of [generateStatistics] for one column. *)
Record Stats : Type := {
  count : nat;
  mean : string;
  median : string;
  std_dev : string;
  min : float;
  max : float;
  q1 : float;
  q3 : float
}.

(** [data.map(row => Number(row[c])).filter(v => !isNaN(v))] *)
Definition numericValues (data : list Row) (column : string) : list float :=
  filter (fun v => negb (JsNumber.isNaN v)) (map (fun row => ToNumber (get row column)) data).

(** [values.reduce((sum, val) => sum + Math.pow(val - mean, 2), 0) / values.length] *)
Definition variance (values : list float) (mean : float) : float :=
  (fold_left (fun sum val => sum + JsNumber.square (val - mean)) values 0
   / JsNumber.ofNat (List.length values))%float.

(** [[...values].sort((a, b) => a - b)] *)
Definition sortAscending (values : list float) : list float :=
  sort (fun a b => (a - b)%float) values.

(** [sorted[i]]; the indices used below are within bounds.  For lengths
    below 2^32 the products [n * 0.25] and [n * 0.75] are exact, so
    [Math.floor] of them is the integer quotient. *)
Definition at_ (sorted : list float) (i : nat) : float := nth i sorted JsNumber.NaN.

Definition columnStats (values : list float) : Stats :=
  let sorted := sortAscending values in
  let n := List.length sorted in
  let sum := JsNumber.sum values in
  let mean := (sum / JsNumber.ofNat (List.length values))%float in
  let median := at_ sorted (n / 2) in
  let stdDev := sqrt (variance values mean) in
  {| count := List.length values;
     mean := JsNumber.toFixed2 mean;
     median := JsNumber.toFixed2 median;
     std_dev := JsNumber.toFixed2 stdDev;
     min := JsNumber.minOf values;
     max := JsNumber.maxOf values;
     q1 := at_ sorted (n / 4);
     q3 := at_ sorted (3 * n / 4) |}.

Definition generateStatistics (data : list Row) (columns : list DataColumn) : Obj Stats :=
  fold_left (fun stats column =>
               match type column with
               | TNumber =>
                   let values := numericValues data (name column) in
                   if (0 <? List.length values)%nat
                   then set stats (name column) (columnStats values)
                   else stats
               | _ => stats
               end)
            columns [].

(** [s.replace(/^"|"$/g, '')]: a double quote at the start is removed, and
    one at the end of what is left. *)
Definition unquote (s : string) : string :=
  let t := match s with
           | String c r => if JsString.code c =? 34 then r else s
           | EmptyString => s
           end in
  match JsString.rev t with
  | String c r => if JsString.code c =? 34 then JsString.rev r else t
  | EmptyString => t
  end.

(** [line.split(',').map(v => v.trim().replace(/^"|"$/g, ''))] *)
Definition cells (line : string) : list string :=
  map (fun v => unquote (JsString.trim v)) (JsString.split ","%char line).

(** The row built by [headers.forEach((header, index) =>
    row[header] = values[index] || null)]. *)
Definition csvRow (headers values : list string) : Row :=
  fold_left (fun row '(index, header) =>
               set row header (or (nth index (map Str values) Undefined) Null))
            (combine (seq 0 (List.length headers)) headers) [].

Definition parseCSV (content : string) : list Row :=
  let lines := filter (fun line => negb (String.eqb (JsString.trim line) EmptyString))
                      (JsString.split (JsString.ofCode 10) content) in
  match lines with
  | [] => []
  | first :: rest =>
      let headers := cells first in
      map (fun line => csvRow headers (cells line)) rest
  end.

(** One round of the loop over the columns in [normalizeData]. *)
Definition normalizeColumn (normalized : list Row) (column : DataColumn) : list Row :=
  match type column with
  | TNumber =>
      let values := numericValues normalized (name column) in
      let lowest := JsNumber.minOf values in
      let highest := JsNumber.maxOf values in
      if (lowest <? highest)%float
      then map (fun row =>
                  let value := ToNumber (get row (name column)) in
                  if negb (JsNumber.isNaN value)
                  then set row (name column ++ "_normalized")
                           (Num ((value - lowest) / (highest - lowest))%float)
                  else row) normalized
      else normalized
  | _ => normalized
  end.

Definition normalizeData (data : list Row) (columns : list DataColumn) : list Row :=
  fold_left normalizeColumn columns data.

End DataProcessor.

(** ** src/services/nlqService.ts  (and backend/src/services/nlqService.ts)

    The two copies of [executeQuery] differ only in the number of rows of
    the fallback sample: 100 in the client, 10 in the backend copy. *)

Module NlqService.

Import Js JsString.
Local Open Scope string_scope.
Local Open Scope Z_scope.

(** [sql.match(/pre(\w+)post/i)]: the first position where the literal
    [pre], a non-empty run of word characters and the literal [post] follow
    one another; the result is the captured run.  The run is maximal: a
    shorter one would be followed by a word character, which neither
    literal [post] used below starts with. *)
Fixpoint matchWord (pre post : string) (sql : string) : option string :=
  let here :=
    match stripPrefixCI pre sql with
    | Some t =>
        let '(w, r) := span isWordChar t in
        match w with
        | EmptyString => None
        | _ => match stripPrefixCI post r with
               | Some _ => Some w
               | None => None
               end
        end
    | None => None
    end in
  match here with
  | Some w => Some w
  | None => match sql with
            | EmptyString => None
            | String _ t => matchWord pre post t
            end
  end.

(** [Number(row[column]) || 0] *)
Definition numberOrZero (row : Row) (column : string) : float :=
  JsNumber.orZero (ToNumber (get row column)).

(** [grouped[key] = (grouped[key] || 0) + (Number(row[sumCol]) || 0)],
    where the key is converted to a property name. *)
Definition addToGroup (groupCol sumCol : string) (grouped : Obj float) (row : Row) : Obj float :=
  let key := ToString (get row groupCol) in
  let old := match lookup grouped key with
             | Some x => JsNumber.orZero x
             | None => 0%float
             end in
  set grouped key (old + numberOrZero row sumCol)%float.

(** [({ [groupCol]: key, total: value })] *)
Definition groupRow (groupCol : string) (entry : string * float) : Row :=
  set (set [] groupCol (Str (fst entry))) "total" (Num (snd entry)).

(** Each shape is tried in the order of the source; a shape whose keyword
    test or pattern fails falls through to the next one.  No statement
    inside the [try] block can throw on rows of scalars, so the [catch]
    branch is never taken. *)
Definition executeQueryWith (sample : nat) (sql : string) (data : list Row) : list Row :=
  let lowerSQL := toLowerCase sql in
  if includes lowerSQL "select count(*)"
  then [ set [] "total_count" (Num (JsNumber.ofNat (List.length data))) ]
  else
  match (if includes lowerSQL "avg(" || includes lowerSQL "average"
         then matchWord "avg(" ")" sql else None) with
  | Some column =>
      let values := DataProcessor.numericValues data column in
      let avg := (JsNumber.sum values / JsNumber.ofNat (List.length values))%float in
      [ set [] ("average_" ++ column) (Str (JsNumber.toFixed2 avg)) ]
  | None =>
  match (if includes lowerSQL "sum(" then matchWord "sum(" ")" sql else None) with
  | Some column =>
      let sum := fold_left (fun total row => (total + numberOrZero row column)%float)
                           data 0%float in
      [ set [] ("total_" ++ column) (Num sum) ]
  | None =>
  match (if includes lowerSQL "group by"
         then match matchWord "group by " EmptyString sql, matchWord "sum(" ")" sql with
              | Some groupCol, Some sumCol => Some (groupCol, sumCol)
              | _, _ => None
              end
         else None) with
  | Some (groupCol, sumCol) =>
      let grouped := fold_left (addToGroup groupCol sumCol) data [] in
      slice0 20 (sort (fun a b => (ToNumber (get b "total") - ToNumber (get a "total"))%float)
                      (map (groupRow groupCol) grouped))
  | None =>
  match (if includes lowerSQL "order by" && includes lowerSQL "desc"
         then matchWord "order by " " desc" sql else None) with
  | Some column =>
      slice0 10 (sort (fun a b => (numberOrZero b column - numberOrZero a column)%float) data)
  | None =>
  match (if includes lowerSQL "order by" && includes lowerSQL "asc"
         then matchWord "order by " " asc" sql else None) with
  | Some column =>
      slice0 10 (sort (fun a b => (numberOrZero a column - numberOrZero b column)%float) data)
  | None => slice0 sample data
  end end end end end.

(** [src/services/nlqService.ts] *)
Definition executeQuery : string -> list Row -> list Row := executeQueryWith 100.

(** [backend/src/services/nlqService.ts] *)
Definition executeQueryBackend : string -> list Row -> list Row := executeQueryWith 10.

(** *** The fallback planner

    [simulateNLQResponse] writes the plan text from keywords of the
    question.  [columns[0].name] throws a TypeError when the schema is
    empty. *)

Inductive Visualization : Type := table | line | bar | pie | scatter.

(** [sql] is optional in the interface; the planner always sets it. *)
Record NLQResult : Type := {
  nlq_sql : string;
  explanation : string;
  confidence : float;
  visualization_type : Visualization
}.

Inductive Planned (A : Type) : Type :=
| Plan (a : A)
| TypeError.

Arguments Plan {A} a.
Arguments TypeError {A}.

(** [a || b] on optional strings: [undefined] and the empty string are
    falsy. *)
Definition orElse {A : Type} (a : option string) (b : A) (k : string -> A) : A :=
  match a with
  | Some s => if String.eqb s EmptyString then b else k s
  | None => b
  end.

(** [columns[0].name] *)
Definition firstName (columns : list DataProcessor.DataColumn) : Planned string :=
  match columns with
  | c :: _ => Plan (DataProcessor.name c)
  | [] => TypeError
  end.

(** [columns.filter(c => c.type === t).map(c => c.name)] *)
Definition namesOfType (t : DataProcessor.ColumnType) (columns : list DataProcessor.DataColumn)
  : list string :=
  map DataProcessor.name
      (filter (fun c => DataProcessor.ColumnType_eqb (DataProcessor.type c) t) columns).

(** [candidate || columns[0].name] *)
Definition orFirstName (candidate : option string) (columns : list DataProcessor.DataColumn)
  : Planned string :=
  orElse candidate (firstName columns) Plan.

(** [candidate || columns[1]?.name || columns[0].name] *)
Definition orSecondName (candidate : option string) (columns : list DataProcessor.DataColumn)
  : Planned string :=
  orElse candidate
         (orFirstName (option_map DataProcessor.name (nth_error columns 1)) columns)
         Plan.

Definition withColumn (c : Planned string) (k : string -> Planned NLQResult) : Planned NLQResult :=
  match c with
  | Plan column => k column
  | TypeError => TypeError
  end.

Definition plan (sql explanation : string) (visualization_type : Visualization) : Planned NLQResult :=
  Plan {| nlq_sql := sql;
          explanation := explanation;
          confidence := 0.8;
          visualization_type := visualization_type |}.

(** [src/services/nlqService.ts] *)
Definition simulateNLQResponse (query : string) (columns : list DataProcessor.DataColumn)
           (tableName : string) : Planned NLQResult :=
  let lowerQuery := toLowerCase query in
  let numericColumns := namesOfType DataProcessor.TNumber columns in
  let dateColumns := namesOfType DataProcessor.TDate columns in
  if includes lowerQuery "average" || includes lowerQuery "avg" || includes lowerQuery "mean"
  then withColumn (orFirstName (nth_error numericColumns 0) columns) (fun column =>
         plan ("SELECT AVG(" ++ column ++ ") as average_" ++ column ++ " FROM " ++ tableName)
              ("Calculates the average of " ++ column) table)
  else if includes lowerQuery "sum" || includes lowerQuery "total"
  then withColumn (orFirstName (nth_error numericColumns 0) columns) (fun column =>
         plan ("SELECT SUM(" ++ column ++ ") as total_" ++ column ++ " FROM " ++ tableName)
              ("Calculates the total sum of " ++ column) table)
  else if includes lowerQuery "count" || includes lowerQuery "how many"
  then plan ("SELECT COUNT(*) as total_count FROM " ++ tableName)
            "Counts the total number of records" table
  else if includes lowerQuery "trend" || includes lowerQuery "over time"
  then withColumn (orFirstName (nth_error dateColumns 0) columns) (fun dateCol =>
       withColumn (orSecondName (nth_error numericColumns 0) columns) (fun valueCol =>
         plan ("SELECT " ++ dateCol ++ ", " ++ valueCol ++ " FROM " ++ tableName
               ++ " ORDER BY " ++ dateCol ++ " LIMIT 1000")
              ("Shows trends of " ++ valueCol ++ " over " ++ dateCol) line))
  else if includes lowerQuery "group by" || includes lowerQuery "breakdown"
          || includes lowerQuery "by category"
  then withColumn (orFirstName (nth_error (namesOfType DataProcessor.TString columns) 0) columns)
                  (fun groupCol =>
       withColumn (orSecondName (nth_error numericColumns 0) columns) (fun valueCol =>
         plan ("SELECT " ++ groupCol ++ ", SUM(" ++ valueCol ++ ") as total FROM " ++ tableName
               ++ " GROUP BY " ++ groupCol ++ " LIMIT 20")
              ("Groups data by " ++ groupCol ++ " and shows totals") bar))
  else if includes lowerQuery "top" || includes lowerQuery "highest" || includes lowerQuery "best"
  then withColumn (orFirstName (nth_error numericColumns 0) columns) (fun valueCol =>
         plan ("SELECT * FROM " ++ tableName ++ " ORDER BY " ++ valueCol ++ " DESC LIMIT 10")
              ("Shows top 10 records by " ++ valueCol) bar)
  else if includes lowerQuery "bottom" || includes lowerQuery "lowest" || includes lowerQuery "worst"
  then withColumn (orFirstName (nth_error numericColumns 0) columns) (fun valueCol =>
         plan ("SELECT * FROM " ++ tableName ++ " ORDER BY " ++ valueCol ++ " ASC LIMIT 10")
              ("Shows bottom 10 records by " ++ valueCol) bar)
  else plan ("SELECT * FROM " ++ tableName ++ " LIMIT 100") "Shows a sample of the data" table.

(** [backend/src/services/nlqService.ts]: fewer question shapes, other
    column choices for trends, and always the [bar] visualization. *)
Definition simulateNLQResponseBackend (query : string) (columns : list DataProcessor.DataColumn)
           (tableName : string) : Planned NLQResult :=
  let lowerQuery := toLowerCase query in
  let numericColumns := namesOfType DataProcessor.TNumber columns in
  if includes lowerQuery "average" || includes lowerQuery "avg" || includes lowerQuery "mean"
  then withColumn (orFirstName (nth_error numericColumns 0) columns) (fun column =>
         plan ("SELECT AVG(" ++ column ++ ") as average_" ++ column ++ " FROM " ++ tableName)
              ("Calculates the average of " ++ column) bar)
  else if includes lowerQuery "sum" || includes lowerQuery "total"
  then withColumn (orFirstName (nth_error numericColumns 0) columns) (fun column =>
         plan ("SELECT SUM(" ++ column ++ ") as total_" ++ column ++ " FROM " ++ tableName)
              ("Calculates the total sum of " ++ column) bar)
  else if includes lowerQuery "count" || includes lowerQuery "how many"
  then plan ("SELECT COUNT(*) as total_count FROM " ++ tableName)
            "Counts the total number of records" bar
  else if includes lowerQuery "trend" || includes lowerQuery "over time"
  then withColumn (orFirstName (nth_error (namesOfType DataProcessor.TDate columns) 0) columns)
                  (fun dateCol =>
       let revenue := namesOfType DataProcessor.TNumber
                        (filter (fun c => includes (toLowerCase (DataProcessor.name c)) "revenue")
                                columns) in
       withColumn (orElse (nth_error revenue 0)
                          (orSecondName (nth_error numericColumns 0) columns) Plan)
                  (fun valueCol =>
         plan ("SELECT " ++ dateCol ++ ", " ++ valueCol ++ " FROM " ++ tableName
               ++ " ORDER BY " ++ dateCol ++ " LIMIT 1000")
              ("Shows trends of " ++ valueCol ++ " over " ++ dateCol) bar))
  else plan ("SELECT * FROM " ++ tableName ++ " LIMIT 100") "Shows a sample of the data" bar.

End NlqService.

(** ** src/services/voiceService.ts

    [Date.now()] is read inside the [map] callback, once for every row that
    has neither a [date] nor a [timestamp]; [clock i] is the reading taken
    while row [i] is mapped. *)

Module VoiceService.

Import Js JsString.
Local Open Scope string_scope.
Local Open Scope Z_scope.

Definition Clock : Type := nat -> Z.

(** An element of the mapped array: [{timestamp, value}] in
    [detectAnomalies], [{date, value}] in [predictTimeSeries]. *)
Record Point : Type := {
  date : value;
  value : float
}.

Inductive Severity : Type := low | medium | high.

(** [AnomalyResult] of the shared type declarations. *)
Record AnomalyResult : Type := {
  timestamp : Js.value;
  an_metric : string;
  an_value : float;
  expected_value : float;
  deviation : float;
  is_anomaly : bool;
  severity : Severity
}.

Record Prediction : Type := {
  pr_date : string;
  pr_value : float;
  confidence_lower : float;
  confidence_upper : float
}.

(** [PredictionResult] of the shared type declarations. *)
Record PredictionResult : Type := {
  metric : string;
  predictions : list Prediction;
  accuracy_score : option float;
  model_type : string
}.

Inductive Trend : Type := up | down | stable.

Record KPI : Type := {
  id : string;
  kpi_name : string;
  kpi_value : float;
  change : float;
  trend : Trend;
  unit : string
}.

(** The rows with their indices, as a [map] callback sees them. *)
Definition indexed {A : Type} (l : list A) : list (nat * A) :=
  combine (seq 0 (List.length l)) l.

(** [row.date || row.timestamp ||
     new Date(Date.now() - (data.length - index) * 86400000).toISOString()].
    The subtraction is exact on every value that passes [TimeClip]. *)
Definition stamp (clock : Clock) (len : nat) (index : nat) (row : Row) : Completion Js.value :=
  let given := or (get row "date") (get row "timestamp") in
  if ToBoolean given then Return given
  else
    s <- JsDate.toISOString
           (JsDate.TimeClip (clock index - (Z.of_nat len - Z.of_nat index) * JsDate.msPerDay)) ;;
    Return (Str s).

(** [data.map((row, index) => ({date: ..., value: Number(row[metric]) || 0}))
         .filter(v => !isNaN(v.value))] *)
Definition points (clock : Clock) (data : list Row) (metric : string) : Completion (list Point) :=
  mapped <- mapM (fun '(index, row) =>
                    d <- stamp clock (List.length data) index row ;;
                    Return {| date := d;
                              value := JsNumber.orZero (ToNumber (get row metric)) |})
                 (indexed data) ;;
  Return (filter (fun v => negb (JsNumber.isNaN (value v))) mapped).

Definition threshold : float := 2.

(** The callback of the final [map] in [detectAnomalies]. *)
Definition assess (metric : string) (mean stdDev : float) (point : Point) : AnomalyResult :=
  let zScore := abs ((value point - mean) / stdDev) in
  let isAnomaly := (threshold <? zScore)%float in
  let deviation := ((value point - mean) / mean * 100)%float in
  let severity := if (3 <? zScore)%float then high
                  else if (2.5 <? zScore)%float then medium
                  else low in
  {| timestamp := date point;
     an_metric := metric;
     an_value := value point;
     expected_value := mean;
     deviation := JsNumber.round2 deviation;
     is_anomaly := isAnomaly;
     severity := severity |}.

Definition seriesMean (values : list Point) : float :=
  (fold_left (fun sum v => sum + value v) values 0 / JsNumber.ofNat (List.length values))%float.

Definition seriesVariance (values : list Point) (mean : float) : float :=
  (fold_left (fun sum v => sum + JsNumber.square (value v - mean)) values 0
   / JsNumber.ofNat (List.length values))%float.

Definition detectAnomalies (clock : Clock) (data : list Row) (metric : string)
  : Completion (list AnomalyResult) :=
  values <- points clock data metric ;;
  if (List.length values <? 3)%nat then Return []
  else
    let mean := seriesMean values in
    let variance := seriesVariance values mean in
    let stdDev := sqrt variance in
    Return (filter is_anomaly (map (assess metric mean stdDev) values)).

(** The loop of [exponentialSmoothing] after the first element. *)
Fixpoint smoothFrom (alpha : float) (previous : float) (rest : list float) : list float :=
  match rest with
  | [] => []
  | v :: t => let s := (alpha * v + (1 - alpha) * previous)%float in
              s :: smoothFrom alpha s t
  end.

(** On an empty array the source yields [[undefined]]; the callers below
    never pass one. *)
Definition exponentialSmoothing (values : list float) (alpha : float) : list float :=
  match values with
  | [] => [JsNumber.NaN]
  | v0 :: rest => v0 :: smoothFrom alpha v0 rest
  end.

(** [linearRegression(x, y)]; [y[i]] beyond the end of [y] is [undefined],
    which multiplies to NaN. *)
Definition linearRegression (x y : list float) : float * float :=
  let n := JsNumber.ofNat (List.length x) in
  let sumX := JsNumber.sum x in
  let sumY := JsNumber.sum y in
  let sumXY := fold_left (fun sum '(i, xi) => (sum + xi * nth i y JsNumber.NaN)%float)
                         (indexed x) 0%float in
  let sumXX := fold_left (fun sum xi => (sum + xi * xi)%float) x 0%float in
  let slope := ((n * sumXY - sumX * sumY) / (n * sumXX - sumX * sumX))%float in
  let intercept := ((sumY - slope * sumX) / n)%float in
  (slope, intercept).

(** [arr.map((_, i) => i)] *)
Definition indices {A : Type} (l : list A) : list float :=
  map JsNumber.ofNat (seq 0 (List.length l)).

(** The time series of [predictTimeSeries]: the points, sorted by
    [new Date(a.date).getTime() - new Date(b.date).getTime()]. *)
Definition timeSeries (host : JsDate.Host) (clock : Clock) (data : list Row) (metric : string)
  : Completion (list Point) :=
  pts <- points clock data metric ;;
  Return (sort (fun a b => (JsDate.timeNumber (toDate host (date a))
                            - JsDate.timeNumber (toDate host (date b)))%float) pts).

(** The body of the [for] loop, for one [i]. *)
Definition forecast (host : JsDate.Host) (n : nat) (slope intercept confidenceInterval : float)
           (lastDate : option Z) (i : nat) : Completion Prediction :=
  let futureIndex := JsNumber.ofNat (n + i) in
  let predictedValue := (slope * futureIndex + intercept)%float in
  let trendAdjustment := (slope * JsNumber.ofNat i * 0.1)%float in
  let adjustedValue := (predictedValue + trendAdjustment)%float in
  let futureDate := JsDate.addLocalDays host lastDate (Z.of_nat i) in
  d <- JsDate.toISODate futureDate ;;
  Return {| pr_date := d;
            pr_value := JsNumber.round2 (JsNumber.max0 adjustedValue);
            confidence_lower := JsNumber.round2 (JsNumber.max0 (adjustedValue - confidenceInterval));
            confidence_upper := JsNumber.round2 (adjustedValue + confidenceInterval) |}.

(** [values.reduce((a, b) => a + b)], without initial value. *)
Definition reduce1 (values : list float) : float :=
  match values with
  | [] => JsNumber.NaN
  | v :: t => fold_left add t v
  end.

(** [periods] counts the iterations of the loop [for (i = 1; i <= periods; i++)]. *)
Definition predictTimeSeries (host : JsDate.Host) (clock : Clock)
           (data : list Row) (metric : string) (periods : nat)
  : Completion PredictionResult :=
  timeSeriesData <- timeSeries host clock data metric ;;
  if (List.length timeSeriesData <? 2)%nat then
    Return {| metric := metric;
              predictions := [];
              accuracy_score := None;
              model_type := "insufficient_data" |}
  else
    let values := map value timeSeriesData in
    let smoothed := exponentialSmoothing values 0.3 in
    let '(slope, intercept) := linearRegression (indices timeSeriesData) smoothed in
    let lastDate := toDate host (date (last timeSeriesData {| date := Undefined; value := 0 |})) in
    let residuals := map (fun '(i, pred) => abs (nth i values JsNumber.NaN - pred))
                         (indexed smoothed) in
    let mae := (JsNumber.sum residuals / JsNumber.ofNat (List.length residuals))%float in
    let confidenceInterval := (mae * 1.96)%float in
    predictions <- mapM (forecast host (List.length timeSeriesData) slope intercept
                                  confidenceInterval lastDate)
                        (seq 1 periods) ;;
    let mse := (fold_left (fun sum r => sum + r * r) residuals 0
                / JsNumber.ofNat (List.length residuals))%float in
    let variance :=
      (fold_left (fun sum v => sum + JsNumber.square
                                       (v - reduce1 values / JsNumber.ofNat (List.length values)))
                 values 0
       / JsNumber.ofNat (List.length values))%float in
    let r2 := (1 - mse / variance)%float in
    Return {| metric := metric;
              predictions := predictions;
              accuracy_score := Some (JsNumber.round3 (JsNumber.max0 (JsNumber.min1 r2)));
              model_type := "linear_regression_with_exponential_smoothing" |}.

Definition detectTrend (values : list float) : Trend :=
  if (List.length values <? 2)%nat then stable
  else
    let '(slope, _) := linearRegression (indices values) values in
    let avgValue := (JsNumber.sum values / JsNumber.ofNat (List.length values))%float in
    let relativeSlopeThreshold := (avgValue * 0.01)%float in
    if (relativeSlopeThreshold <? slope)%float then up
    else if (slope <? - relativeSlopeThreshold)%float then down
    else stable.

(** [column.replace(/_/g, ' ').replace(/\b\w/g, l => l.toUpperCase())]:
    [prevWord] tells whether the character before is a word character. *)
Fixpoint capitalize (prevWord : bool) (s : string) : string :=
  match s with
  | EmptyString => EmptyString
  | String c t =>
      let c' := if isWordChar c && negb prevWord then upperWordChar c else c in
      String c' (capitalize (isWordChar c) t)
  end.

Fixpoint underscoresToSpaces (s : string) : string :=
  match s with
  | EmptyString => EmptyString
  | String c t => String (if code c =? 95 then " "%char else c) (underscoresToSpaces t)
  end.

Definition displayName (column : string) : string :=
  capitalize false (underscoresToSpaces column).

(** [values.slice(-10)] *)
Definition lastTen {A : Type} (l : list A) : list A := skipn (List.length l - 10) l.

(** The body of the loop of [calculateKPIs]; [None] stands for [continue]. *)
Definition kpiOf (data : list Row) (column : string) : option KPI :=
  let values := DataProcessor.numericValues data column in
  match values with
  | [] => None
  | _ =>
      let currentValue := last values JsNumber.NaN in
      let previousValue := if (1 <? List.length values)%nat
                           then nth (List.length values - 2) values JsNumber.NaN
                           else currentValue in
      let change := if negb (previousValue =? 0)%float
                    then ((currentValue - previousValue) / previousValue * 100)%float
                    else 0%float in
      Some {| id := column;
              kpi_name := displayName column;
              kpi_value := JsNumber.round2 currentValue;
              change := JsNumber.round2 change;
              trend := detectTrend (lastTen values);
              unit := if includes (toLowerCase column) "revenue"
                         || includes (toLowerCase column) "sales"
                      then "$" else EmptyString |}
  end.

Definition calculateKPIs (data : list Row) (columns : list string) : list KPI :=
  flat_map (fun column => match kpiOf data column with
                          | Some k => [k]
                          | None => []
                          end) columns.

(** [window] is a non-negative integer.  From index [window - 1] on, the
    slice [values.slice(i - window + 1, i + 1)] holds the [window] values
    that end at [i]. *)
Definition simpleMovingAverage (values : list float) (window : nat) : list float :=
  map (fun i =>
         if (i <? window - 1)%nat then nth i values JsNumber.NaN
         else (JsNumber.sum (firstn window (skipn (i + 1 - window) values))
               / JsNumber.ofNat window)%float)
      (seq 0 (List.length values)).

(** [idx % period === seasonIndex] for a non-negative integer [period];
    [i % 0] is NaN, which equals nothing. *)
Definition sameSeason (period idx i : nat) : bool :=
  match period with
  | O => false
  | _ => (idx mod period =? i mod period)%nat
  end.

Definition calculateSeasonality (values : list float) (period : nat) : list float :=
  map (fun i =>
         let seasonValues :=
           map snd (filter (fun '(idx, _) => sameSeason period idx i) (indexed values)) in
         (JsNumber.sum seasonValues / JsNumber.ofNat (List.length seasonValues))%float)
      (seq 0 (List.length values)).

Definition Severity_eqb (a b : Severity) : bool :=
  match a, b with
  | low, low | medium, medium | high, high => true
  | _, _ => false
  end.

(** [`${n}`] for an array length. *)
Definition lengthText (n : nat) : string := ofN (N.of_nat n).

(** The message on the forecast, if any: the change from the first
    prediction to the last, in percent. *)
Definition forecastMessage (predictions : PredictionResult) : list string :=
  match VoiceService.predictions predictions with
  | [] => []
  | firstPrediction :: _ =>
      let lastPrediction := last (VoiceService.predictions predictions) firstPrediction in
      let percentChange :=
        ((pr_value lastPrediction - pr_value firstPrediction)
         / pr_value firstPrediction * 100)%float in
      if (20 <? percentChange)%float then
        [ "Opportunity: " ++ metric predictions ++ " projected to increase by "
          ++ JsNumber.toFixed1 percentChange ++ "% over the next period." ]
      else if (percentChange <? -20)%float then
        [ "Warning: " ++ metric predictions ++ " projected to decrease by "
          ++ JsNumber.toFixed1 (abs percentChange)
          ++ "%. Consider intervention strategies." ]
      else []
  end.

(** The messages are pushed in this order; the last one only when nothing
    was pushed before. *)
Definition generateRecommendations (anomalies : list AnomalyResult)
           (predictions : PredictionResult) : list string :=
  let highAnomalies := filter (fun a => Severity_eqb (severity a) high) anomalies in
  let critical :=
    if (0 <? List.length highAnomalies)%nat
    then [ "Critical: " ++ lengthText (List.length highAnomalies)
           ++ " high-severity anomalies detected. Immediate investigation recommended." ]
    else [] in
  let mediumAnomalies := filter (fun a => Severity_eqb (severity a) medium) anomalies in
  let monitor :=
    if (2 <? List.length mediumAnomalies)%nat
    then [ "Monitor: " ++ lengthText (List.length mediumAnomalies)
           ++ " moderate anomalies detected. Trend analysis recommended." ]
    else [] in
  let note :=
    match accuracy_score predictions with
    | Some score =>
        if JsNumber.truthy score && (score <? 0.6)%float
        then [ "Note: Prediction accuracy is moderate. Consider collecting more data for improved forecasting." ]
        else []
    | None => []
    end in
  let recommendations := (critical ++ forecastMessage predictions ++ monitor ++ note)%list in
  match recommendations with
  | [] => [ "All metrics within normal ranges. Continue monitoring key performance indicators." ]
  | _ => recommendations
  end.

End VoiceService.

(** * Properties *)

(** ** The built-ins on known values *)

Module BuiltinExamples.

Import JsNumber.
Local Open Scope string_scope.

Example number_of_decimal : StringToNumber " 12.50 " = 12.5%float.
Proof. vm_compute. reflexivity. Qed.

Example number_of_text : isNaN (StringToNumber "n/a") = true.
Proof. vm_compute. reflexivity. Qed.

Example number_of_empty : StringToNumber EmptyString = 0%float.
Proof. vm_compute. reflexivity. Qed.

Example number_of_hex : StringToNumber "0x1F" = 31%float.
Proof. vm_compute. reflexivity. Qed.

Example toFixed_rounds_binary_value : toFixed2 1.005 = "1.00".
Proof. vm_compute. reflexivity. Qed.

Example toFixed_tie_goes_up : toFixed2 0.125 = "0.13".
Proof. vm_compute. reflexivity. Qed.

Example toFixed_negative_zero : toFixed2 (-0.001) = "-0.00".
Proof. vm_compute. reflexivity. Qed.

Example toFixed_large : toFixed2 1e21 = "1e+21".
Proof. vm_compute. reflexivity. Qed.

Example toString_shortest : toString (0.1 + 0.2) = "0.30000000000000004".
Proof. vm_compute. reflexivity. Qed.

Example toString_exponent : toString 1.5e-7 = "1.5e-7".
Proof. vm_compute. reflexivity. Qed.

Example parseFloat_prefix : parseFloat "12.5px" = 12.5%float.
Proof. vm_compute. reflexivity. Qed.

Example iso_of_time :
  JsDate.toISOString (Some 1704067200000%Z) = Return "2024-01-01T00:00:00.000Z".
Proof. vm_compute. reflexivity. Qed.

Example time_of_date_only : JsDate.parse JsDate.utcHost "2024-02-29" = Some 1709164800000%Z.
Proof. vm_compute. reflexivity. Qed.

Example time_of_illegal_day : JsDate.parse JsDate.utcHost "2023-02-29" = None.
Proof. vm_compute. reflexivity. Qed.

Example json_of_row :
  Js.stringify [("id", Js.Num 7); ("note", Js.Null); ("ok", Js.Bool true); ("gap", Js.Undefined)]
  = String.concat (String (JsString.ofCode 34) EmptyString)
                  ["{"; "id"; ":7,"; "note"; ":null,"; "ok"; ":true}"].
Proof. vm_compute. reflexivity. Qed.

Example sort_is_stable :
  map fst (Js.sort (fun a b => (snd a - snd b)%float)
                   [("c", 2); ("a", 1); ("d", 2); ("b", 1)]%float)
  = ["a"; "b"; "c"; "d"].
Proof. vm_compute. reflexivity. Qed.

End BuiltinExamples.

(** ** Binary64 arithmetic

    Facts about the primitive operations, obtained from their
    specification on [spec_float] ([FloatAxioms]): the rounding of a
    non-zero result keeps its sign, comparison is comparison of values, and
    a difference is negative exactly when its first operand is the
    smaller one. *)

Module FloatFacts.

(** *** Digits and shifts *)

Lemma digits2_size (m : positive) : Pos.to_nat (digits2_pos m) = Pos.size_nat m.
Proof. induction m; simpl; rewrite ?Pos2Nat.inj_succ, ?IHm; reflexivity. Qed.

Lemma digits2_bounds (m : positive) :
  2 ^ (Zpos (digits2_pos m) - 1) <= Zpos m < 2 ^ Zpos (digits2_pos m).
Proof.
  induction m as [m IH|m IH|]; cbn [digits2_pos].
  - rewrite Pos2Z.inj_succ. replace (Z.succ (Zpos (digits2_pos m)) - 1) with (Z.succ (Zpos (digits2_pos m) - 1)) by lia.
    rewrite !Z.pow_succ_r by lia. lia.
  - rewrite Pos2Z.inj_succ. replace (Z.succ (Zpos (digits2_pos m)) - 1) with (Z.succ (Zpos (digits2_pos m) - 1)) by lia.
    rewrite !Z.pow_succ_r by lia. lia.
  - simpl. lia.
Qed.

Lemma iter_pos_nat {A} (f : A -> A) (p : positive) : forall x, SpecFloat.iter_pos f p x = Nat.iter (Pos.to_nat p) f x.
Proof.
  induction p as [p IH|p IH|]; intros x; cbn [SpecFloat.iter_pos].
  - rewrite !IH. rewrite Pos2Nat.inj_xI. rewrite <- Nat.iter_add.
    replace (S (2 * Pos.to_nat p)) with (Pos.to_nat p + Pos.to_nat p + 1)%nat by lia.
    rewrite (Nat.iter_add _ 1). reflexivity.
  - rewrite !IH. rewrite Pos2Nat.inj_xO. rewrite <- Nat.iter_add. f_equal. lia.
  - reflexivity.
Qed.

(** Shifting right by fewer places than the mantissa has digits leaves a
    positive mantissa. *)
Lemma shr_nat_positive (n : nat) : forall q r s, (n < Pos.size_nat q)%nat ->
  exists q' r' s', Nat.iter n shr_1 (Build_shr_record (Zpos q) r s) = Build_shr_record (Zpos q') r' s'
                   /\ Pos.size_nat q' = (Pos.size_nat q - n)%nat.
Proof.
  induction n as [|n IH]; intros q r s Hn.
  - exists q, r, s. split; [reflexivity | lia].
  - destruct (IH q r s ltac:(lia)) as [q' [r' [s' [E Hs]]]].
    cbn [Nat.iter nat_rect]. change (nat_rect _ _ _ n) with (Nat.iter n shr_1 {| shr_m := Zpos q; shr_r := r; shr_s := s |}).
    rewrite E.
    destruct q' as [p|p|]; cbn [shr_1 Pos.size_nat] in *.
    + do 3 eexists. split; [reflexivity | lia].
    + do 3 eexists. split; [reflexivity | lia].
    + lia.
Qed.

Lemma shr_record_of_loc_m m l : shr_m (shr_record_of_loc m l) = m.
Proof. destruct l as [|[]]; reflexivity. Qed.

Definition emin64 : Z := -1074.

Lemma fexp_eq e : fexp prec emax e = Z.max (e - 53) emin64.
Proof. reflexivity. Qed.

Lemma shr_fexp_positive (m : positive) (e : Z) (l : location) :
  emin64 <= e ->
  exists mrs m' e', shr_fexp prec emax (Zpos m) e l = (mrs, e') /\ shr_m mrs = Zpos m' /\ emin64 <= e'.
Proof.
  intros He. unfold shr_fexp, shr. rewrite fexp_eq. cbn [Zdigits2].
  destruct (Z.max (Zpos (digits2_pos m) + e - 53) emin64 - e) as [|k|k] eqn:Ek.
  - do 3 eexists. split; [reflexivity|]. split; [apply shr_record_of_loc_m | exact He].
  - rewrite iter_pos_nat.
    assert (Hk : (Pos.to_nat k < Pos.size_nat m)%nat).
    { rewrite <- digits2_size. apply Pos2Nat.inj_lt. unfold emin64 in *. lia. }
    pose proof (shr_record_of_loc_m (Zpos m) l) as Hm.
    destruct (shr_record_of_loc (Zpos m) l) as [q r s]. cbn [shr_m] in Hm. subst q.
    destruct (shr_nat_positive _ m r s Hk) as [q' [r' [s' [E _]]]].
    rewrite E. do 3 eexists. split; [reflexivity|]. split; [reflexivity | lia].
  - do 3 eexists. split; [reflexivity|]. split; [apply shr_record_of_loc_m | exact He].
Qed.

Lemma round_nearest_even_positive (m : positive) l : exists m', round_nearest_even (Zpos m) l = Zpos m'.
Proof.
  destruct l as [|[]]; cbn [round_nearest_even];
    try destruct (Z.even (Zpos m)); eexists; reflexivity.
Qed.

(** Rounding a non-zero mantissa keeps the sign and never gives zero. *)
Lemma binary_round_aux_sign (sx : bool) (m : positive) (e : Z) (l : location) :
  emin64 <= e ->
  (exists m' e', binary_round_aux prec emax sx (Zpos m) e l = S754_finite sx m' e')
  \/ binary_round_aux prec emax sx (Zpos m) e l = S754_infinity sx.
Proof.
  intros He. unfold binary_round_aux.
  destruct (shr_fexp_positive m e l He) as [mrs1 [m1 [e1 [E1 [Hm1 He1]]]]].
  rewrite E1, Hm1.
  destruct (round_nearest_even_positive m1 (loc_of_shr_record mrs1)) as [m2 E2]. rewrite E2.
  destruct (shr_fexp_positive m2 e1 loc_Exact He1) as [mrs3 [m3 [e3 [E3 [Hm3 He3]]]]].
  rewrite E3, Hm3.
  destruct (e3 <=? emax - prec); [left; eauto | right; reflexivity].
Qed.

Lemma shl_align_exponent m e e' : emin64 <= e -> emin64 <= e' -> emin64 <= snd (shl_align m e e').
Proof. intros. unfold shl_align. destruct (e' - e); assumption. Qed.

Lemma binary_round_sign (sx : bool) (m : positive) (e : Z) :
  emin64 <= e ->
  (exists m' e', binary_round prec emax sx m e = S754_finite sx m' e')
  \/ binary_round prec emax sx m e = S754_infinity sx.
Proof.
  intros He. unfold binary_round.
  pose proof (shl_align_exponent m e (fexp prec emax (Zpos (digits2_pos m) + e)) He) as H.
  destruct (shl_align m e _) as [mz ez]. cbn [snd] in H.
  apply binary_round_aux_sign. apply H. rewrite fexp_eq. lia.
Qed.

(** *** The value of a binary64 number

    Scaled by 2^1074 every finite value is an integer; the infinities are
    placed beyond all of them. *)

Definition huge : Z := 2 ^ 2100.

Definition val (x : spec_float) : Z :=
  match x with
  | S754_zero _ => 0
  | S754_infinity s => cond_Zopp s huge
  | S754_nan => 0
  | S754_finite s m e => cond_Zopp s (Zpos m * 2 ^ (e + 1074))
  end.

Lemma bounded_facts m e :
  bounded prec emax m e = true ->
  emin64 <= e <= 971 /\ Zpos (digits2_pos m) <= 53 /\ (emin64 < e -> Zpos (digits2_pos m) = 53).
Proof.
  unfold bounded, canonical_mantissa. rewrite fexp_eq. intros H.
  apply andb_prop in H as [H1 H2]. apply Z.eqb_eq in H1. apply Z.leb_le in H2.
  change (emax - prec) with 971 in H2. unfold emin64 in *. lia.
Qed.

Lemma finite_positive m e : emin64 <= e -> 0 < Zpos m * 2 ^ (e + 1074).
Proof. intros H. unfold emin64 in H. apply Z.mul_pos_pos; [lia | apply Z.pow_pos_nonneg; lia]. Qed.

Lemma finite_below_huge m e : bounded prec emax m e = true -> Zpos m * 2 ^ (e + 1074) < huge.
Proof.
  intros H. destruct (bounded_facts m e H) as [[He1 He2] [Hd _]].
  pose proof (digits2_bounds m) as [_ Hm].
  assert (Hm53 : Zpos m < 2 ^ 53).
  { eapply Z.lt_le_trans; [exact Hm|]. apply Z.pow_le_mono_r; lia. }
  assert (Hp : 2 ^ (e + 1074) <= 2 ^ 2045) by (apply Z.pow_le_mono_r; unfold emin64 in *; lia).
  assert (Hpos : 0 < 2 ^ (e + 1074)) by (apply Z.pow_pos_nonneg; unfold emin64 in *; lia).
  unfold huge. replace 2100 with (53 + 2047) by lia. rewrite (Z.pow_add_r 2 53 2047) by lia.
  assert (2 ^ 2045 < 2 ^ 2047) by (apply Z.pow_lt_mono_r; lia).
  assert (0 < 2 ^ 53) by (apply Z.pow_pos_nonneg; lia).
  nia.
Qed.

Lemma huge_positive : 0 < huge.
Proof. unfold huge. apply Z.pow_pos_nonneg; lia. Qed.

(** Canonical mantissas are ordered by their exponents first. *)
Lemma exponent_orders m1 e1 m2 e2 :
  bounded prec emax m1 e1 = true -> bounded prec emax m2 e2 = true ->
  e1 < e2 -> Zpos m1 * 2 ^ (e1 + 1074) < Zpos m2 * 2 ^ (e2 + 1074).
Proof.
  intros H1 H2 Hlt.
  destruct (bounded_facts m1 e1 H1) as [[He1 _] [Hd1 _]].
  destruct (bounded_facts m2 e2 H2) as [[He2 _] [_ Hd2]].
  specialize (Hd2 ltac:(lia)).
  pose proof (digits2_bounds m1) as [_ Hm1].
  pose proof (digits2_bounds m2) as [Hm2 _]. rewrite Hd2 in Hm2.
  assert (Hm53 : Zpos m1 < 2 ^ 53).
  { eapply Z.lt_le_trans; [exact Hm1|]. apply Z.pow_le_mono_r; lia. }
  replace (e2 + 1074) with ((e2 - e1) + (e1 + 1074)) by lia.
  unfold emin64 in *.
  rewrite (Z.pow_add_r 2 (e2 - e1) (e1 + 1074)) by lia.
  assert (Hstep : 2 ^ 1 <= 2 ^ (e2 - e1)) by (apply Z.pow_le_mono_r; lia).
  assert (Hpos : 0 < 2 ^ (e1 + 1074)) by (apply Z.pow_pos_nonneg; lia).
  change (2 ^ 53) with (2 ^ 52 * 2) in Hm53. change (53 - 1) with 52 in Hm2. change (2 ^ 1) with 2 in Hstep.
  assert (Hs : Zpos m1 < Zpos m2 * 2 ^ (e2 - e1)) by nia.
  rewrite Z.mul_assoc. apply Z.mul_lt_mono_pos_r; assumption.
Qed.

Lemma same_exponent_compare m1 m2 e :
  emin64 <= e ->
  (Zpos m1 * 2 ^ (e + 1074) ?= Zpos m2 * 2 ^ (e + 1074)) = Pos.compare_cont Eq m1 m2.
Proof.
  intros He. change (Pos.compare_cont Eq m1 m2) with (Zpos m1 ?= Zpos m2).
  symmetry. apply Zmult_compare_compat_r. apply Z.lt_gt. apply Z.pow_pos_nonneg; unfold emin64 in *; lia.
Qed.

Lemma compare_lt a b : a < b -> Some Lt = Some (a ?= b).
Proof. intros H. apply Z.compare_lt_iff in H. now rewrite H. Qed.

Lemma compare_gt a b : b < a -> Some Gt = Some (a ?= b).
Proof. intros H. apply Z.compare_gt_iff in H. now rewrite H. Qed.

(** [SFcompare] compares values. *)
Lemma SFcompare_val (x y : spec_float) :
  valid_binary x = true -> valid_binary y = true ->
  x <> S754_nan -> y <> S754_nan ->
  SFcompare x y = Some (val x ?= val y).
Proof.
  intros Vx Vy Nx Ny. pose proof huge_positive as Hh.
  destruct x as [sx|sx| |sx mx ex]; [| |congruence|];
  destruct y as [sy|sy| |sy my ey]; try congruence; cbn [SpecFloat.valid_binary] in *;
    cbn [SFcompare val].
  - reflexivity.
  - destruct sy; cbn [cond_Zopp]; [apply compare_gt | apply compare_lt]; lia.
  - pose proof (finite_positive my ey (proj1 (proj1 (bounded_facts _ _ Vy)))).
    destruct sy; cbn [cond_Zopp]; [apply compare_gt | apply compare_lt]; lia.
  - destruct sx; cbn [cond_Zopp]; [apply compare_lt | apply compare_gt]; lia.
  - destruct sx, sy; cbn [cond_Zopp];
      [now rewrite Z.compare_refl | apply compare_lt | apply compare_gt | now rewrite Z.compare_refl]; lia.
  - pose proof (finite_below_huge my ey Vy).
    pose proof (finite_positive my ey (proj1 (proj1 (bounded_facts _ _ Vy)))).
    destruct sx, sy; cbn [cond_Zopp]; [apply compare_lt | apply compare_lt | apply compare_gt | apply compare_gt]; lia.
  - pose proof (finite_positive mx ex (proj1 (proj1 (bounded_facts _ _ Vx)))).
    destruct sx; cbn [cond_Zopp]; [apply compare_lt | apply compare_gt]; lia.
  - pose proof (finite_below_huge mx ex Vx).
    pose proof (finite_positive mx ex (proj1 (proj1 (bounded_facts _ _ Vx)))).
    destruct sx, sy; cbn [cond_Zopp]; [apply compare_gt | apply compare_lt | apply compare_gt | apply compare_lt]; lia.
  - pose proof (finite_positive mx ex (proj1 (proj1 (bounded_facts _ _ Vx)))) as Px.
    pose proof (finite_positive my ey (proj1 (proj1 (bounded_facts _ _ Vy)))) as Py.
    destruct sx, sy; cbn [cond_Zopp].
    + destruct (Z.compare_spec ex ey) as [E|E|E].
      * subst ey. rewrite Z.compare_opp.
        rewrite (same_exponent_compare my mx ex) by apply (bounded_facts _ _ Vx).
        change (Pos.compare_cont Eq mx my) with (Pos.compare mx my).
        change (Pos.compare_cont Eq my mx) with (Pos.compare my mx).
        now rewrite (Pos.compare_antisym mx my).
      * apply compare_gt. pose proof (exponent_orders _ _ _ _ Vx Vy E). lia.
      * apply compare_lt. pose proof (exponent_orders _ _ _ _ Vy Vx E). lia.
    + apply compare_lt. lia.
    + apply compare_gt. lia.
    + destruct (Z.compare_spec ex ey) as [E|E|E].
      * subst ey. now rewrite same_exponent_compare by apply (bounded_facts _ _ Vx).
      * apply compare_lt. apply (exponent_orders _ _ _ _ Vx Vy E).
      * apply compare_gt. apply (exponent_orders _ _ _ _ Vy Vx E).
Qed.

(** *** Primitive floats *)

Local Open Scope float_scope.

Definition fval (x : float) : Z := val (Prim2SF x).

Lemma not_nan (x : float) : JsNumber.isNaN x = false -> Prim2SF x <> S754_nan.
Proof.
  unfold JsNumber.isNaN. rewrite FloatAxioms.eqb_spec. unfold SFeqb. intros H E. rewrite E in H. discriminate.
Qed.

Lemma ltb_val (x y : float) :
  JsNumber.isNaN x = false -> JsNumber.isNaN y = false -> (x <? y) = (fval x <? fval y)%Z.
Proof.
  intros Hx Hy. rewrite ltb_spec. unfold SFltb, fval.
  rewrite (SFcompare_val _ _ (Prim2SF_valid x) (Prim2SF_valid y) (not_nan x Hx) (not_nan y Hy)).
  unfold Z.ltb. now destruct (val (Prim2SF x) ?= val (Prim2SF y))%Z.
Qed.

Lemma leb_val (x y : float) :
  JsNumber.isNaN x = false -> JsNumber.isNaN y = false -> (x <=? y) = (fval x <=? fval y)%Z.
Proof.
  intros Hx Hy. rewrite leb_spec. unfold SFleb, fval.
  rewrite (SFcompare_val _ _ (Prim2SF_valid x) (Prim2SF_valid y) (not_nan x Hx) (not_nan y Hy)).
  unfold Z.leb. now destruct (val (Prim2SF x) ?= val (Prim2SF y))%Z.
Qed.

Lemma shl_align_value m e e' :
  (e' <= e)%Z -> Zpos (fst (shl_align m e e')) = (Zpos m * 2 ^ (e - e'))%Z.
Proof.
  intros H. unfold shl_align.
  destruct (e' - e)%Z as [|d|d] eqn:E; cbn [fst].
  - replace (e - e')%Z with 0%Z by lia. now rewrite Z.mul_1_r.
  - lia.
  - change (Pos.iter xO m d) with (shift_pos d m).
    rewrite shift_pos_correct. replace (e - e')%Z with (Zpos d) by lia.
    rewrite Z.mul_comm. reflexivity.
Qed.

Lemma ltb_zero_spec (r : spec_float) :
  SFltb r (S754_zero false) =
  match r with
  | S754_finite s _ _ | S754_infinity s => s
  | _ => false
  end.
Proof. destruct r as [s|s| |s m e]; try reflexivity; now destruct s. Qed.

Lemma binary_normalize_sign (D e : Z) :
  (emin64 <= e)%Z ->
  SFltb (binary_normalize prec emax D e false) (S754_zero false) = (D <? 0)%Z.
Proof.
  intros He. rewrite ltb_zero_spec. destruct D as [|p|p]; cbn [binary_normalize].
  - reflexivity.
  - destruct (binary_round_sign false p e He) as [[m' [e' ->]] | ->]; reflexivity.
  - destruct (binary_round_sign true p e He) as [[m' [e' ->]] | ->]; reflexivity.
Qed.

Lemma cond_Zopp_mul s a b : (cond_Zopp s a * b = cond_Zopp s (a * b))%Z.
Proof. destruct s; cbn [cond_Zopp]; lia. Qed.

(** The sign of a difference: [x - y < 0] exactly when [x < y]. *)
Lemma SFsub_sign (x y : spec_float) :
  valid_binary x = true -> valid_binary y = true ->
  x <> S754_nan -> y <> S754_nan ->
  SFltb (SF64sub x y) (S754_zero false) = (val x <? val y)%Z.
Proof.
  intros Vx Vy Nx Ny. pose proof huge_positive as Hh. rewrite ltb_zero_spec.
  destruct x as [sx|sx| |sx mx ex]; [| |congruence|];
  destruct y as [sy|sy| |sy my ey]; try congruence; cbn [SpecFloat.valid_binary] in *;
    unfold SF64sub; cbn [SFsub val].
  - destruct sx, sy; reflexivity.
  - destruct sy; cbn [negb cond_Zopp]; symmetry; [apply Z.ltb_ge | apply Z.ltb_lt]; lia.
  - pose proof (finite_positive my ey (proj1 (proj1 (bounded_facts _ _ Vy)))).
    destruct sy; cbn [negb cond_Zopp]; symmetry; [apply Z.ltb_ge | apply Z.ltb_lt]; lia.
  - destruct sx; cbn [cond_Zopp]; symmetry; [apply Z.ltb_lt | apply Z.ltb_ge]; lia.
  - destruct sx, sy; cbn [cond_Zopp]; symmetry;
      [apply Z.ltb_ge | apply Z.ltb_lt | apply Z.ltb_ge | apply Z.ltb_ge]; lia.
  - pose proof (finite_below_huge my ey Vy).
    pose proof (finite_positive my ey (proj1 (proj1 (bounded_facts _ _ Vy)))).
    destruct sx, sy; cbn [cond_Zopp]; symmetry;
      [apply Z.ltb_lt | apply Z.ltb_lt | apply Z.ltb_ge | apply Z.ltb_ge]; lia.
  - pose proof (finite_positive mx ex (proj1 (proj1 (bounded_facts _ _ Vx)))).
    destruct sx; cbn [cond_Zopp]; symmetry; [apply Z.ltb_lt | apply Z.ltb_ge]; lia.
  - pose proof (finite_below_huge mx ex Vx).
    pose proof (finite_positive mx ex (proj1 (proj1 (bounded_facts _ _ Vx)))).
    destruct sx, sy; cbn [negb cond_Zopp]; symmetry;
      [apply Z.ltb_ge | apply Z.ltb_lt | apply Z.ltb_ge | apply Z.ltb_lt]; lia.
  - destruct (bounded_facts _ _ Vx) as [[Hex _] _].
    destruct (bounded_facts _ _ Vy) as [[Hey _] _].
    set (ez := Z.min ex ey).
    assert (Hez : (emin64 <= ez)%Z) by (subst ez; lia).
    rewrite <- ltb_zero_spec, (binary_normalize_sign _ ez Hez).
    rewrite !shl_align_value by (subst ez; lia).
    set (K := (2 ^ (ez + 1074))%Z).
    assert (HK : (0 < K)%Z) by (apply Z.pow_pos_nonneg; unfold emin64 in *; lia).
    assert (Ex : (Zpos mx * 2 ^ (ex + 1074) = Zpos mx * 2 ^ (ex - ez) * K)%Z).
    { subst K. rewrite <- Z.mul_assoc, <- Z.pow_add_r by (unfold emin64 in *; subst ez; lia).
      do 2 f_equal. lia. }
    assert (Ey : (Zpos my * 2 ^ (ey + 1074) = Zpos my * 2 ^ (ey - ez) * K)%Z).
    { subst K. rewrite <- Z.mul_assoc, <- Z.pow_add_r by (unfold emin64 in *; subst ez; lia).
      do 2 f_equal. lia. }
    set (a := cond_Zopp sx (Zpos mx * 2 ^ (ex - ez))%Z).
    set (b := cond_Zopp sy (Zpos my * 2 ^ (ey - ez))%Z).
    assert (Ea : (cond_Zopp sx (Zpos mx * 2 ^ (ex + 1074)) = a * K)%Z)
      by (subst a; rewrite Ex; destruct sx; cbn [cond_Zopp]; lia).
    assert (Eb : (cond_Zopp sy (Zpos my * 2 ^ (ey + 1074)) = b * K)%Z)
      by (subst b; rewrite Ey; destruct sy; cbn [cond_Zopp]; lia).
    rewrite Ea, Eb.
    destruct (Z.ltb_spec (a - b) 0); destruct (Z.ltb_spec (a * K) (b * K));
      try reflexivity; nia.
Qed.

Lemma sub_ltb_zero (x y : float) :
  JsNumber.isNaN x = false -> JsNumber.isNaN y = false -> (x - y <? 0) = (x <? y).
Proof.
  intros Hx Hy. rewrite (ltb_val x y Hx Hy).
  rewrite ltb_spec, sub_spec. change (Prim2SF 0) with (S754_zero false).
  apply SFsub_sign; auto using Prim2SF_valid, not_nan.
Qed.

Lemma leb_of_val (x y : float) :
  JsNumber.isNaN x = false -> JsNumber.isNaN y = false -> (fval x <= fval y)%Z -> (x <=? y) = true.
Proof. intros Hx Hy H. rewrite (leb_val x y Hx Hy). now apply Z.leb_le. Qed.

(** A list of Numbers without NaN. *)
Definition numeric (l : list float) : Prop := forall x, In x l -> JsNumber.isNaN x = false.

Lemma SF_zero : Prim2SF 0 = S754_zero false.
Proof. reflexivity. Qed.

Lemma SF_nan : Prim2SF nan = S754_nan.
Proof. reflexivity. Qed.

Lemma of_SF_zero (x : float) : Prim2SF x = S754_zero false -> x = 0.
Proof. intros H. apply Prim2SF_inj. now rewrite H. Qed.

Lemma of_SF_neg_zero (x : float) : Prim2SF x = S754_zero true -> x = neg_zero.
Proof. intros H. apply Prim2SF_inj. now rewrite H. Qed.

Lemma of_SF_nan (x : float) : Prim2SF x = S754_nan -> x = nan.
Proof. intros H. apply Prim2SF_inj. now rewrite H. Qed.

(** [x - x] is [+0], or NaN when [x] is infinite or NaN. *)
Lemma sub_diag (x : float) : x - x = 0 \/ x - x = nan.
Proof.
  pose proof (sub_spec x x) as H. unfold SF64sub, SFsub in H.
  destruct (Prim2SF x) as [s|s| |s m e].
  - left. apply of_SF_zero. rewrite H. now destruct s.
  - right. apply of_SF_nan. rewrite H. now destruct s.
  - right. apply of_SF_nan. exact H.
  - left. apply of_SF_zero. rewrite H. now rewrite Z.sub_diag.
Qed.

Lemma nan_div (y : float) : nan / y = nan.
Proof.
  apply of_SF_nan. rewrite div_spec, SF_nan. reflexivity.
Qed.

(** [0 / y] is a zero or NaN. *)
Lemma zero_div (y : float) : 0 / y = 0 \/ 0 / y = neg_zero \/ 0 / y = nan.
Proof.
  pose proof (div_spec 0 y) as H. rewrite SF_zero in H. unfold SF64div, SFdiv in H.
  destruct (Prim2SF y) as [s|s| |s m e].
  - right. right. now apply of_SF_nan.
  - destruct s; [right; left; now apply of_SF_neg_zero | left; now apply of_SF_zero].
  - right. right. now apply of_SF_nan.
  - destruct s; [right; left; now apply of_SF_neg_zero | left; now apply of_SF_zero].
Qed.

(** *** Math.min and Math.max *)

Import JsNumber.

Lemma min2_spec (a b : float) :
  isNaN a = false -> isNaN b = false ->
  isNaN (min2 a b) = false /\ (fval (min2 a b) <= fval a)%Z /\ (fval (min2 a b) <= fval b)%Z.
Proof.
  intros Ha Hb. unfold min2. rewrite Ha, Hb. cbn [orb].
  rewrite (ltb_val a b Ha Hb), (ltb_val b a Hb Ha).
  destruct (Z.ltb_spec (fval a) (fval b)); [repeat split; auto; lia|].
  destruct (Z.ltb_spec (fval b) (fval a)); [repeat split; auto; lia|].
  destruct (get_sign a); repeat split; auto; lia.
Qed.

Lemma max2_spec (a b : float) :
  isNaN a = false -> isNaN b = false ->
  isNaN (max2 a b) = false /\ (fval a <= fval (max2 a b))%Z /\ (fval b <= fval (max2 a b))%Z.
Proof.
  intros Ha Hb. unfold max2. rewrite Ha, Hb. cbn [orb].
  rewrite (ltb_val a b Ha Hb), (ltb_val b a Hb Ha).
  destruct (Z.ltb_spec (fval a) (fval b)); [repeat split; auto; lia|].
  destruct (Z.ltb_spec (fval b) (fval a)); [repeat split; auto; lia|].
  destruct (get_sign a); repeat split; auto; lia.
Qed.

Lemma fold_min2 (l : list float) : forall acc,
  numeric l -> isNaN acc = false ->
  isNaN (fold_left min2 l acc) = false /\
  (fval (fold_left min2 l acc) <= fval acc)%Z /\
  (forall x, In x l -> (fval (fold_left min2 l acc) <= fval x)%Z).
Proof.
  induction l as [|y t IH]; intros acc Hl Ha; cbn [fold_left].
  - repeat split; auto; [lia | intros x []].
  - assert (Hy : isNaN y = false) by (apply Hl; now left).
    destruct (min2_spec acc y Ha Hy) as [Hm [Hma Hmy]].
    destruct (IH (min2 acc y) (fun z Hz => Hl z (or_intror Hz)) Hm) as [Hr [Hra Hrt]].
    repeat split; auto; [lia|].
    intros x [<-|Hx]; [lia | now apply Hrt].
Qed.

Lemma fold_max2 (l : list float) : forall acc,
  numeric l -> isNaN acc = false ->
  isNaN (fold_left max2 l acc) = false /\
  (fval acc <= fval (fold_left max2 l acc))%Z /\
  (forall x, In x l -> (fval x <= fval (fold_left max2 l acc))%Z).
Proof.
  induction l as [|y t IH]; intros acc Hl Ha; cbn [fold_left].
  - repeat split; auto; [lia | intros x []].
  - assert (Hy : isNaN y = false) by (apply Hl; now left).
    destruct (max2_spec acc y Ha Hy) as [Hm [Hma Hmy]].
    destruct (IH (max2 acc y) (fun z Hz => Hl z (or_intror Hz)) Hm) as [Hr [Hra Hrt]].
    repeat split; auto; [lia|].
    intros x [<-|Hx]; [lia | now apply Hrt].
Qed.

Lemma minOf_below (l : list float) (x : float) :
  numeric l -> In x l -> (minOf l <=? x) = true.
Proof.
  intros Hl Hx. destruct (fold_min2 l infinity Hl eq_refl) as [Hr [_ Hall]].
  apply leb_of_val; auto.
Qed.

Lemma maxOf_above (l : list float) (x : float) :
  numeric l -> In x l -> (x <=? maxOf l) = true.
Proof.
  intros Hl Hx. destruct (fold_max2 l neg_infinity Hl eq_refl) as [Hr [_ Hall]].
  apply leb_of_val; auto.
Qed.


End FloatFacts.

(** ** Array.prototype.sort with [(a, b) => a - b] *)

Module SortFacts.

Import FloatFacts.
Local Open Scope float_scope.

Definition ascending (l : list float) : Prop :=
  StronglySorted (fun a b => (fval a <= fval b)%Z) l.

Lemma insertSorted_In {A} (cmp : A -> A -> float) (x : A) (l : list A) (z : A) :
  In z (Js.insertSorted cmp x l) <-> z = x \/ In z l.
Proof.
  induction l as [|y t IH]; cbn [Js.insertSorted].
  - simpl. intuition.
  - destruct (cmp x y <? 0)%float; simpl; [intuition|].
    rewrite IH. intuition.
Qed.

Lemma sort_In_from {A} (cmp : A -> A -> float) (l acc : list A) (z : A) :
  In z (fold_left (fun acc x => Js.insertSorted cmp x acc) l acc) <-> In z l \/ In z acc.
Proof.
  revert acc. induction l as [|x t IH]; intros acc; cbn [fold_left].
  - simpl. intuition.
  - rewrite IH, insertSorted_In. simpl. intuition.
Qed.

Lemma sort_In {A} (cmp : A -> A -> float) (l : list A) (z : A) :
  In z (Js.sort cmp l) <-> In z l.
Proof. unfold Js.sort. rewrite sort_In_from. simpl. intuition. Qed.

Lemma insertSorted_length {A} (cmp : A -> A -> float) (x : A) (l : list A) :
  List.length (Js.insertSorted cmp x l) = S (List.length l).
Proof.
  induction l as [|y t IH]; cbn [Js.insertSorted]; [reflexivity|].
  destruct (cmp x y <? 0)%float; simpl; [reflexivity | now rewrite IH].
Qed.

Lemma sort_length_from {A} (cmp : A -> A -> float) (l acc : list A) :
  List.length (fold_left (fun acc x => Js.insertSorted cmp x acc) l acc) = (List.length l + List.length acc)%nat.
Proof.
  revert acc. induction l as [|x t IH]; intros acc; cbn [fold_left]; [reflexivity|].
  rewrite IH, insertSorted_length. simpl. lia.
Qed.

Lemma sort_length {A} (cmp : A -> A -> float) (l : list A) : List.length (Js.sort cmp l) = List.length l.
Proof. unfold Js.sort. rewrite sort_length_from. simpl. lia. Qed.

Lemma insertSorted_ascending (x : float) (l : list float) :
  JsNumber.isNaN x = false -> numeric l -> ascending l ->
  ascending (Js.insertSorted (fun a b => (a - b)%float) x l).
Proof.
  intros Hx. induction l as [|y t IH]; intros Hn Hs; cbn [Js.insertSorted].
  - repeat constructor.
  - assert (Hy : JsNumber.isNaN y = false) by (apply Hn; now left).
    rewrite (sub_ltb_zero x y Hx Hy), (ltb_val x y Hx Hy).
    inversion Hs as [|? ? Hst Hall]; subst.
    destruct (Z.ltb_spec (fval x) (fval y)).
    + constructor; [assumption|]. constructor; [lia|].
      eapply Forall_impl; [|exact Hall]. cbn beta. intros; lia.
    + constructor.
      * apply IH; [intros z Hz; apply Hn; now right | assumption].
      * apply Forall_forall. intros z Hz. apply insertSorted_In in Hz as [->|Hz]; [lia|].
        rewrite Forall_forall in Hall. now apply Hall.
Qed.

Lemma sort_ascending_from (l acc : list float) :
  numeric l -> numeric acc -> ascending acc ->
  ascending (fold_left (fun acc x => Js.insertSorted (fun a b => (a - b)%float) x acc) l acc).
Proof.
  revert acc. induction l as [|x t IH]; intros acc Hl Ha Hs; cbn [fold_left]; [assumption|].
  apply IH.
  - intros z Hz. apply Hl. now right.
  - intros z Hz. apply insertSorted_In in Hz as [->|Hz]; [apply Hl; now left | now apply Ha].
  - apply insertSorted_ascending; [apply Hl; now left | assumption | assumption].
Qed.

Lemma sortAscending_ascending (values : list float) :
  numeric values -> ascending (DataProcessor.sortAscending values).
Proof.
  intros H. unfold DataProcessor.sortAscending, Js.sort.
  apply sort_ascending_from; [assumption | intros z [] | constructor].
Qed.

Lemma ascending_nth (l : list float) : ascending l ->
  forall i j d, (i <= j < List.length l)%nat -> (fval (nth i l d) <= fval (nth j l d))%Z.
Proof.
  induction 1 as [|a t Hs IH Hall]; intros i j d Hij; [simpl in Hij; lia|].
  destruct i as [|i], j as [|j]; cbn [nth]; simpl in Hij.
  - lia.
  - rewrite Forall_forall in Hall. apply Hall, nth_In. lia.
  - lia.
  - apply IH. lia.
Qed.


End SortFacts.

(** ** Objects: reading back what was assigned *)

Section ObjectFacts.

Context {A : Type}.
Implicit Types (o : Js.Obj A) (k : string) (a : A).

Lemma lookup_app o1 o2 k :
  Js.lookup (o1 ++ o2) k =
  match Js.lookup o1 k with Some a => Some a | None => Js.lookup o2 k end.
Proof.
  induction o1 as [|[k' a'] t IH]; simpl; [reflexivity|].
  destruct (String.eqb k' k); auto.
Qed.

Lemma lookup_replace o k a k' :
  Js.lookup (Js.replace o k a) k' =
  if String.eqb k k' then (if Js.has o k then Some a else None) else Js.lookup o k'.
Proof.
  unfold Js.has.
  induction o as [|[k0 a0] t IH]; simpl.
  - destruct (String.eqb k k'); reflexivity.
  - destruct (String.eqb k0 k) eqn:E0; simpl.
    + apply String.eqb_eq in E0; subst k0.
      destruct (String.eqb k k'); reflexivity.
    + destruct (String.eqb k0 k') eqn:E1.
      * apply String.eqb_eq in E1; subst k0.
        rewrite String.eqb_sym, E0. reflexivity.
      * exact IH.
Qed.

Lemma lookup_insertIndex o i k a k' :
  Js.has o k = false ->
  Js.lookup (Js.insertIndex o i k a) k' =
  if String.eqb k k' then Some a else Js.lookup o k'.
Proof.
  unfold Js.has.
  induction o as [|[k0 a0] t IH]; simpl; intros Hno.
  - destruct (String.eqb k k'); reflexivity.
  - destruct (String.eqb k0 k) eqn:E0; [discriminate|].
    destruct (Js.arrayIndex k0) as [j|]; [destruct (j <? i)|]; simpl;
      try reflexivity.
    destruct (String.eqb k0 k') eqn:E1.
    + apply String.eqb_eq in E1; subst k0.
      rewrite String.eqb_sym, E0. reflexivity.
    + apply IH, Hno.
Qed.

(** [o[k] = a; o[k']] *)
Lemma lookup_set o k a k' :
  Js.lookup (Js.set o k a) k' = if String.eqb k k' then Some a else Js.lookup o k'.
Proof.
  unfold Js.set.
  destruct (Js.has o k) eqn:H.
  - rewrite lookup_replace, H. reflexivity.
  - destruct (Js.arrayIndex k).
    + apply lookup_insertIndex, H.
    + rewrite lookup_app. simpl.
      unfold Js.has in H.
      destruct (String.eqb k k') eqn:E.
      * apply String.eqb_eq in E; subst k'.
        destruct (Js.lookup o k); [discriminate|reflexivity].
      * destruct (Js.lookup o k'); reflexivity.
Qed.

End ObjectFacts.

(** ** dataProcessor.ts *)

Module DataProcessorFacts.

Import Js DataProcessor.
Local Open Scope string_scope.

#[local] Arguments stringify : simpl never.
#[local] Arguments isBlank : simpl never.

(** *** removeDuplicates *)

Lemma seen_spec (k : string) (seen : list string) :
  existsb (String.eqb k) seen = true <-> In k seen.
Proof.
  rewrite existsb_exists. split.
  - intros [x [Hin Heq]]. apply String.eqb_eq in Heq. now subst.
  - intros Hin. exists k. split; [assumption|apply String.eqb_refl].
Qed.

Lemma removeDuplicatesFrom_cons seen row rest :
  removeDuplicatesFrom seen (row :: rest) =
  if existsb (String.eqb (stringify row)) seen
  then removeDuplicatesFrom seen rest
  else row :: removeDuplicatesFrom (stringify row :: seen) rest.
Proof. reflexivity. Qed.

Lemma removeDuplicatesFrom_incl seen data row :
  In row (removeDuplicatesFrom seen data) -> In row data.
Proof.
  revert seen. induction data as [|r rest IH]; intros seen H; [assumption|].
  rewrite removeDuplicatesFrom_cons in H.
  destruct (existsb _ seen).
  - right. eapply IH, H.
  - destruct H as [H|H]; [now left | right; eapply IH, H].
Qed.

Lemma removeDuplicatesFrom_length seen data :
  (List.length (removeDuplicatesFrom seen data) <= List.length data)%nat.
Proof.
  revert seen. induction data as [|r rest IH]; intros seen; [simpl; lia|].
  rewrite removeDuplicatesFrom_cons.
  destruct (existsb _ seen); [specialize (IH seen) | specialize (IH (stringify r :: seen))];
    cbn [List.length]; lia.
Qed.

(** The JSON texts of the rows that are kept are pairwise different and
    were not seen before. *)
Lemma removeDuplicatesFrom_keys data : forall seen,
  NoDup (map stringify (removeDuplicatesFrom seen data)) /\
  (forall k, In k (map stringify (removeDuplicatesFrom seen data)) -> ~ In k seen).
Proof.
  induction data as [|r rest IH]; intros seen.
  - split; [constructor | intros k []].
  - rewrite removeDuplicatesFrom_cons.
    destruct (existsb (String.eqb (stringify r)) seen) eqn:E.
    + apply IH.
    + destruct (IH (stringify r :: seen)) as [Hnd Hfresh]. cbn [map]. split.
      * constructor; [|assumption].
        intros Hin. apply (Hfresh _ Hin). now left.
      * intros k [Hk|Hk].
        -- subst k. intros Hin. apply seen_spec in Hin. congruence.
        -- intros Hin. apply (Hfresh _ Hk). now right.
Qed.

(** A list without repeated texts, none of them seen, is kept whole. *)
Lemma removeDuplicatesFrom_fixed data : forall seen,
  NoDup (map stringify data) ->
  (forall k, In k (map stringify data) -> ~ In k seen) ->
  removeDuplicatesFrom seen data = data.
Proof.
  induction data as [|r rest IH]; intros seen Hnd Hfresh; [reflexivity|].
  rewrite removeDuplicatesFrom_cons. cbn [map] in Hnd, Hfresh.
  inversion Hnd as [|? ? Hnotin Hnd']; subst.
  destruct (existsb (String.eqb (stringify r)) seen) eqn:E.
  - apply seen_spec in E. exfalso. apply (Hfresh (stringify r)); [now left | assumption].
  - f_equal. apply IH; [assumption|].
    intros k Hk [Heq|Hin].
    + subst k. contradiction.
    + apply (Hfresh k); [now right | assumption].
Qed.

Lemma removeDuplicates_idempotent data :
  removeDuplicates (removeDuplicates data) = removeDuplicates data.
Proof.
  unfold removeDuplicates.
  destruct (removeDuplicatesFrom_keys data []) as [Hnd _].
  apply removeDuplicatesFrom_fixed; [assumption | intros k _ []].
Qed.

Lemma removeDuplicates_head row rest :
  removeDuplicates (row :: rest) = row :: removeDuplicatesFrom [stringify row] rest.
Proof. reflexivity. Qed.

(** *** cleanData *)

Definition cleanRow (row : Row) : Row :=
  map (fun '(key, v) => (key, if isBlank v then Null else v)) row.

Lemma cleanData_rows data : cleanData data = map cleanRow data.
Proof. reflexivity. Qed.

Lemma cleanRow_idempotent row : cleanRow (cleanRow row) = cleanRow row.
Proof.
  unfold cleanRow. rewrite map_map. apply map_ext.
  intros [k v]. destruct (isBlank v) eqn:E; simpl; [reflexivity|].
  now rewrite E.
Qed.

Lemma cleanRow_keys row : keys (cleanRow row) = keys row.
Proof.
  unfold keys, cleanRow. rewrite map_map. apply map_ext. now intros [k v].
Qed.

(** A cell is missing after cleaning exactly when it was blank before. *)
Lemma cleanRow_missing row k :
  isMissing (get (cleanRow row) k) = isBlank (get row k).
Proof.
  unfold get. induction row as [|[k0 v0] t IH]; simpl; [reflexivity|].
  destruct (String.eqb k0 k); [|exact IH].
  destruct (isBlank v0) eqn:E; [reflexivity|].
  unfold isBlank in E. apply orb_false_elim in E. tauto.
Qed.

(** *** fillMissingValues *)

Lemma fillColumn_complete (filled : list Row) (column : DataColumn) :
  (forall row, In row filled -> isMissing (get row (name column)) = false) ->
  fillColumn filled column = filled.
Proof.
  intros Hfull. unfold fillColumn.
  destruct (filter _ _); [reflexivity|].
  destruct (type column); try reflexivity;
    (rewrite <- (map_id filled) at 2; apply map_ext_in;
     intros row Hin; now rewrite (Hfull row Hin)).
Qed.

Lemma fillMissingValues_complete (columns : list DataColumn) (data : list Row) :
  (forall column row, In column columns -> In row data ->
                      isMissing (get row (name column)) = false) ->
  fillMissingValues data columns = data.
Proof.
  unfold fillMissingValues.
  induction columns as [|c cs IH]; simpl; intros Hfull; [reflexivity|].
  rewrite fillColumn_complete by (intros; apply Hfull; auto).
  apply IH. intros; apply Hfull; auto.
Qed.

(** *** The missing-value counts *)

Lemma countMissing_lookup cleaned (columns : list DataColumn) : forall (acc : Obj nat) c,
  lookup (fold_left (fun missingValues column =>
                       let n := nullCount cleaned (name column) in
                       if (0 <? n)%nat then set missingValues (name column) n
                       else missingValues) columns acc) c =
  if existsb (fun column => String.eqb (name column) c) columns
     && (0 <? nullCount cleaned c)%nat
  then Some (nullCount cleaned c)
  else lookup acc c.
Proof.
  induction columns as [|col cs IH]; simpl; intros acc c; [reflexivity|].
  rewrite IH.
  destruct (existsb _ cs) eqn:Ecs; simpl.
  - rewrite orb_true_r. simpl.
    destruct (0 <? nullCount cleaned c)%nat eqn:Ec; [reflexivity|].
    destruct (String.eqb (name col) c) eqn:En.
    + apply String.eqb_eq in En. subst c. now rewrite Ec.
    + destruct (0 <? nullCount cleaned (name col))%nat; [|reflexivity].
      rewrite lookup_set, En. reflexivity.
  - rewrite orb_false_r.
    destruct (String.eqb (name col) c) eqn:En; simpl.
    + apply String.eqb_eq in En. subst c.
      destruct (0 <? nullCount cleaned (name col))%nat eqn:Ep; [|reflexivity].
      rewrite lookup_set, String.eqb_refl. reflexivity.
    + destruct (0 <? nullCount cleaned (name col))%nat; [|reflexivity].
      rewrite lookup_set, En. reflexivity.
Qed.

(** *** processDataset, unfolded *)

Lemma processDataset_returns host (rawData : list Row) :
  rawData <> [] ->
  processDataset host rawData =
  let cleaned := cleanData rawData in
  let unique := removeDuplicates cleaned in
  let columns := map (describeColumn host unique) (keys (hd [] unique)) in
  Return {| columns := columns;
            rows := fillMissingValues unique columns;
            summary := {| total_rows := List.length (fillMissingValues unique columns);
                          total_columns := List.length columns;
                          missing_values := countMissing cleaned columns;
                          duplicates := List.length rawData - List.length unique |} |}.
Proof. destruct rawData; [congruence | reflexivity]. Qed.

Lemma processDataset_nonempty host rawData p :
  processDataset host rawData = Return p -> rawData <> [].
Proof. destruct rawData; [discriminate | congruence]. Qed.

(** The rows that survive deduplication are cleaned rows of the input. *)
Lemma unique_rows_cleaned (x : list Row) row :
  In row (removeDuplicates (cleanData x)) -> exists r, In r x /\ row = cleanRow r.
Proof.
  intros H. apply removeDuplicatesFrom_incl in H.
  rewrite cleanData_rows in H. apply in_map_iff in H as [r [Hr Hin]].
  exists r. split; [assumption | now symmetry].
Qed.

Lemma unique_head (x : list Row) :
  hd [] (removeDuplicates (cleanData x)) = cleanRow (hd [] x).
Proof. destruct x; reflexivity. Qed.

Lemma cleanData_unique (x : list Row) :
  cleanData (removeDuplicates (cleanData x)) = removeDuplicates (cleanData x).
Proof.
  rewrite (cleanData_rows (removeDuplicates _)).
  rewrite <- (map_id (removeDuplicates (cleanData x))) at 2.
  apply map_ext_in. intros row Hin.
  apply unique_rows_cleaned in Hin as [r [_ ->]]. apply cleanRow_idempotent.
Qed.

(** ** C2 *)

(** C2, as the code has it.  Deduplication runs before imputation, so the
    second pass finds no duplicate provided imputation had nothing to fill:
    when every row of the raw data has a value (not null, undefined or the
    empty string) in each column of the first row, the rows returned by
    [processDataset] are the deduplicated rows themselves, and processing
    them again reports [duplicates = 0]. *)
Theorem second_pass_without_gaps host (x : list Row) (p : ProcessedData) :
  (forall row k, In row x -> In k (keys (hd [] x)) -> isBlank (get row k) = false) ->
  processDataset host x = Return p ->
  exists p2, processDataset host (rows p) = Return p2 /\
             duplicates (summary p2) = 0%nat.
Proof.
  intros Hfull Hp.
  pose proof (processDataset_nonempty _ _ _ Hp) as Hne.
  rewrite (processDataset_returns host x Hne) in Hp. cbv zeta in Hp.
  injection Hp as <-. cbn [rows].
  set (unique := removeDuplicates (cleanData x)).
  assert (Hfilled : fillMissingValues unique
                      (map (describeColumn host unique) (keys (hd [] unique))) = unique).
  { apply fillMissingValues_complete. intros column row Hc Hr.
    apply in_map_iff in Hc as [nm [<- Hnm]]. cbn [name describeColumn].
    subst unique. rewrite unique_head, cleanRow_keys in Hnm.
    apply unique_rows_cleaned in Hr as [r [Hr ->]].
    rewrite cleanRow_missing. now apply Hfull. }
  rewrite Hfilled.
  assert (Hune : unique <> []).
  { subst unique. destruct x; [congruence|].
    rewrite cleanData_rows. cbn [map]. rewrite removeDuplicates_head. discriminate. }
  rewrite (processDataset_returns host unique Hune). cbv zeta.
  eexists. split; [reflexivity|]. cbn [summary duplicates].
  subst unique. rewrite cleanData_unique, removeDuplicates_idempotent. apply Nat.sub_diag.
Qed.

(** Two complete rows, one of them repeated, cleaned twice. *)
Lemma second_pass_without_gaps_witness :
  exists p2,
    processDataset JsDate.utcHost
      [[("sku", Str "a1"); ("qty", Num 2)]; [("sku", Str "b7"); ("qty", Num 5)]] = Return p2 /\
    duplicates (summary p2) = 0%nat.
Proof.
  apply (second_pass_without_gaps JsDate.utcHost
           [[("sku", Str "a1"); ("qty", Num 2)]; [("sku", Str "b7"); ("qty", Num 5)];
            [("sku", Str "a1"); ("qty", Num 2)]]
           {| columns := [ {| name := "sku"; type := TString; nullable := false; unique_count := 2 |};
                           {| name := "qty"; type := TNumber; nullable := false; unique_count := 2 |} ];
              rows := [[("sku", Str "a1"); ("qty", Num 2)]; [("sku", Str "b7"); ("qty", Num 5)]];
              summary := {| total_rows := 2; total_columns := 2;
                            missing_values := []; duplicates := 1 |} |}).
  - intros row k Hrow Hk. cbn in Hrow, Hk.
    destruct Hrow as [<-|[<-|[<-|[]]]]; destruct Hk as [<-|[<-|[]]]; vm_compute; reflexivity.
  - vm_compute. reflexivity.
Defined.

(** C2 fails as stated: a complete row and a row with a gap are different
    before imputation and equal after it; the second pass counts one
    duplicate. *)
Lemma second_pass_finds_duplicate :
  exists p p2,
    processDataset JsDate.utcHost [[("a", Num 1)]; [("a", Null)]] = Return p /\
    processDataset JsDate.utcHost (rows p) = Return p2 /\
    duplicates (summary p2) = 1%nat.
Proof.
  eexists. eexists. split; [vm_compute; reflexivity|].
  split; vm_compute; reflexivity.
Qed.

(** ** C5 *)

(** C5, as the code has it.  The counts are taken on [cleaned], the
    null-normalised rows before deduplication: for every column of the
    result the entry is the number of rows of [cleanData rawData] whose
    cell is null or undefined, and the entry exists only if that number is
    positive; names that are not columns have no entry. *)
Theorem missing_values_counts_cleaned_rows host (rawData : list Row) (p : ProcessedData) :
  processDataset host rawData = Return p ->
  forall c,
    lookup (missing_values (summary p)) c =
    if existsb (fun column => String.eqb (name column) c) (columns p)
       && (0 <? nullCount (cleanData rawData) c)%nat
    then Some (nullCount (cleanData rawData) c)
    else None.
Proof.
  intros Hp c.
  pose proof (processDataset_nonempty _ _ _ Hp) as Hne.
  rewrite (processDataset_returns host rawData Hne) in Hp. cbv zeta in Hp.
  injection Hp as <-. cbn [summary missing_values columns].
  unfold countMissing. rewrite countMissing_lookup. reflexivity.
Qed.

Definition ordersWithRepeat : list Row :=
  [ [("id", Num 1); ("note", Null)];
    [("id", Num 1); ("note", Null)];
    [("id", Num 2); ("note", Str "rush")] ].

Definition ordersProcessed : ProcessedData :=
  {| columns := [ {| name := "id"; type := TNumber; nullable := false; unique_count := 2 |};
                  {| name := "note"; type := TString; nullable := true; unique_count := 1 |} ];
     rows := [ [("id", Num 1); ("note", Str "rush")]; [("id", Num 2); ("note", Str "rush")] ];
     summary := {| total_rows := 2; total_columns := 2;
                   missing_values := [("note", 2%nat)]; duplicates := 1 |} |}.

Lemma missing_values_counts_cleaned_rows_witness :
  processDataset JsDate.utcHost ordersWithRepeat = Return ordersProcessed /\
  lookup (missing_values (summary ordersProcessed)) "note" = Some 2%nat /\
  lookup (missing_values (summary ordersProcessed)) "id" = None.
Proof.
  assert (H : processDataset JsDate.utcHost ordersWithRepeat = Return ordersProcessed)
    by (vm_compute; reflexivity).
  split; [exact H|]. split.
  - rewrite (missing_values_counts_cleaned_rows JsDate.utcHost ordersWithRepeat _ H "note").
    vm_compute. reflexivity.
  - rewrite (missing_values_counts_cleaned_rows JsDate.utcHost ordersWithRepeat _ H "id").
    vm_compute. reflexivity.
Defined.

(** C5 fails as stated: the repeated order has one null [note] after
    deduplication, and the summary reports two. *)
Lemma missing_values_not_from_unique_rows :
  exists p, processDataset JsDate.utcHost ordersWithRepeat = Return p /\
            lookup (missing_values (summary p)) "note" = Some 2%nat /\
            nullCount (removeDuplicates (cleanData ordersWithRepeat)) "note" = 1%nat.
Proof.
  eexists. split; [vm_compute; reflexivity|].
  split; vm_compute; reflexivity.
Qed.

(** ** C9 *)

Import FloatFacts SortFacts.

Lemma numericValues_numeric data c : numeric (numericValues data c).
Proof.
  intros x Hx. unfold numericValues in Hx. apply filter_In in Hx as [_ Hx].
  now apply negb_true_iff in Hx.
Qed.

Definition isNumberColumn (c : string) (column : DataColumn) : bool :=
  String.eqb (name column) c && ColumnType_eqb (type column) TNumber.

Lemma generateStatistics_lookup data (columns : list DataColumn) : forall (acc : Obj Stats) c,
  lookup (fold_left (fun stats column =>
                       match type column with
                       | TNumber =>
                           let values := numericValues data (name column) in
                           if (0 <? List.length values)%nat
                           then set stats (name column) (columnStats values)
                           else stats
                       | _ => stats
                       end) columns acc) c =
  if existsb (isNumberColumn c) columns && (0 <? List.length (numericValues data c))%nat
  then Some (columnStats (numericValues data c))
  else lookup acc c.
Proof.
  induction columns as [|col cs IH]; intros acc c; cbn [fold_left existsb]; [reflexivity|].
  rewrite IH. unfold isNumberColumn at 2.
  destruct (existsb (isNumberColumn c) cs) eqn:Ecs.
  - rewrite orb_true_r. cbn [andb].
    destruct (0 <? List.length (numericValues data c))%nat eqn:Ec; [reflexivity|].
    destruct (type col); try reflexivity. cbv zeta.
    destruct (0 <? List.length (numericValues data (name col)))%nat eqn:En; [|reflexivity].
    rewrite lookup_set. destruct (String.eqb (name col) c) eqn:E; [|reflexivity].
    apply String.eqb_eq in E. subst c. congruence.
  - rewrite orb_false_r. cbn [andb].
    destruct (type col); cbn [ColumnType_eqb]; rewrite ?andb_false_r; cbn [andb]; try reflexivity.
    rewrite andb_true_r. cbv zeta.
    destruct (String.eqb (name col) c) eqn:E; cbn [andb].
    + apply String.eqb_eq in E. subst c.
      destruct (0 <? List.length (numericValues data (name col)))%nat; [|reflexivity].
      now rewrite lookup_set, String.eqb_refl.
    + destruct (0 <? List.length (numericValues data (name col)))%nat; [|reflexivity].
      now rewrite lookup_set, E.
Qed.

(** C9, as the code has it.  An entry of [generateStatistics] belongs to
    a column with at least one numeric value (a column without any is
    omitted).  Its [q1] and [q3] are [sorted[floor(n/4)]] and
    [sorted[floor(3n/4)]] of the ascending values, and they bracket the
    unrounded median [sorted[floor(n/2)]]: [min <= q1 <= sorted[floor(n/2)]
    <= q3 <= max].  The emitted [median] and [mean] are the two-decimal
    texts ([toFixed(2)]) of that median and of [sum / n]; no order is
    stated for the rounded texts. *)
Theorem quartiles_bracket_unrounded_median data (columns : list DataColumn) (c : string) (st : Stats) :
  lookup (generateStatistics data columns) c = Some st ->
  let values := numericValues data c in
  let sorted := sortAscending values in
  let n := List.length sorted in
  values <> [] /\
  q1 st = at_ sorted (n / 4) /\
  q3 st = at_ sorted (3 * n / 4) /\
  median st = JsNumber.toFixed2 (at_ sorted (n / 2)) /\
  mean st = JsNumber.toFixed2 (JsNumber.sum values / JsNumber.ofNat (List.length values)) /\
  (min st <=? q1 st)%float = true /\
  (q1 st <=? at_ sorted (n / 2))%float = true /\
  (at_ sorted (n / 2) <=? q3 st)%float = true /\
  (q3 st <=? max st)%float = true.
Proof.
  intros H values sorted n.
  unfold generateStatistics in H. rewrite generateStatistics_lookup in H.
  cbn [lookup] in H.
  destruct (existsb (isNumberColumn c) columns
            && (0 <? List.length (numericValues data c))%nat) eqn:E; [|discriminate].
  apply andb_prop in E as [_ E]. apply Nat.ltb_lt in E.
  inversion H; subst st; clear H. cbn [q1 q3 median mean min max columnStats].
  fold values in E |- *. fold sorted. fold n.
  assert (Hn : n = List.length values) by (subst n sorted; apply sort_length).
  assert (Hnum : numeric values) by apply numericValues_numeric.
  assert (Hsorted : numeric sorted).
  { intros x Hx. apply Hnum. subst sorted. now apply sort_In in Hx. }
  assert (Hasc : ascending sorted) by now apply sortAscending_ascending.
  assert (Hin : forall i, (i < n)%nat -> In (at_ sorted i) values).
  { intros i Hi. unfold at_. apply (sort_In (fun a b => (a - b)%float) values).
    apply nth_In. exact Hi. }
  assert (H4 : (n / 4 < n)%nat) by (apply Nat.div_lt; lia).
  assert (H2 : (n / 2 < n)%nat) by (apply Nat.div_lt; lia).
  assert (H34 : (3 * n / 4 < n)%nat) by (apply Nat.Div0.div_lt_upper_bound; lia).
  assert (H42 : (n / 4 <= n / 2)%nat).
  { apply Nat.div_le_lower_bound; [lia|]. pose proof (Nat.Div0.mul_div_le n 4). lia. }
  assert (H23 : (n / 2 <= 3 * n / 4)%nat).
  { apply Nat.div_le_lower_bound; [lia|]. pose proof (Nat.Div0.mul_div_le n 2). lia. }
  repeat split; try reflexivity.
  - intros Hv. rewrite Hv in E. simpl in E. lia.
  - apply minOf_below; auto.
  - apply leb_of_val; [apply Hsorted, nth_In; lia | apply Hsorted, nth_In; lia|].
    apply ascending_nth; auto.
  - apply leb_of_val; [apply Hsorted, nth_In; lia | apply Hsorted, nth_In; lia|].
    apply ascending_nth; auto.
  - apply maxOf_above; auto.
Qed.


Definition basket : list Row :=
  [ [("item", Str "tea"); ("price", Num 5)];
    [("item", Str "salt"); ("price", Num 1)];
    [("item", Str "rice"); ("price", Num 4)];
    [("item", Str "milk"); ("price", Num 2)];
    [("item", Str "eggs"); ("price", Num 3)];
    [("item", Str "oil"); ("price", Num 9)];
    [("item", Str "nuts"); ("price", Num 7)] ].

Definition basketColumns : list DataColumn :=
  [ {| name := "item"; type := TString; nullable := false; unique_count := 7 |};
    {| name := "price"; type := TNumber; nullable := false; unique_count := 7 |} ].

Definition priceStats : Stats :=
  {| count := 7; mean := "4.43"; median := "4.00"; std_dev := "2.61";
     min := 1; max := 9; q1 := 2; q3 := 7 |}.

Lemma quartiles_bracket_unrounded_median_witness :
  lookup (generateStatistics basket basketColumns) "price" = Some priceStats /\
  (q1 priceStats <=? 4)%float = true /\ (4 <=? q3 priceStats)%float = true.
Proof.
  assert (H : lookup (generateStatistics basket basketColumns) "price" = Some priceStats)
    by (vm_compute; reflexivity).
  split; [exact H|].
  pose proof (quartiles_bracket_unrounded_median basket basketColumns "price" priceStats H)
    as [_ [_ [_ [_ [_ [_ [Hlow [Hhigh _]]]]]]]].
  split; [exact Hlow | exact Hhigh].
Defined.

Definition latencies : list Row :=
  [ [("latency", Num 0.004)]; [("latency", Num 0.004)]; [("latency", Num 0.004)] ].

(** C9 fails as stated: [mean] and [median] are emitted as texts rounded
    to two decimals.  Three latencies of 0.004 give [q1 = min = 0.004] with
    [median = mean = "0.00"], so neither [q1 <= median] nor [min <= mean]
    holds for the emitted statistics. *)
Lemma rounded_median_below_q1 :
  exists st,
    lookup (generateStatistics latencies
              [ {| name := "latency"; type := TNumber; nullable := false; unique_count := 1 |} ])
           "latency" = Some st /\
    q1 st = 0.004%float /\ median st = "0.00" /\ min st = 0.004%float /\ mean st = "0.00" /\
    (q1 st <=? ToNumber (Str (median st)))%float = false /\
    (min st <=? ToNumber (Str (mean st)))%float = false.
Proof.
  eexists. split; [vm_compute; reflexivity|].
  repeat split; vm_compute; reflexivity.
Qed.

(** The floating-point mean itself can leave the range of the values:
    [0.1 + 0.1 + 0.1] is rounded up, and a third of it is above [0.1]. *)
Lemma unrounded_mean_above_max :
  (JsNumber.maxOf [0.1; 0.1; 0.1] <? JsNumber.sum [0.1; 0.1; 0.1] / JsNumber.ofNat 3)%float = true.
Proof. vm_compute. reflexivity. Qed.

End DataProcessorFacts.

(** ** nlqService.ts *)

Module NlqServiceFacts.

Import Js JsString NlqService.
Local Open Scope string_scope.

(** A match of a lower-case literal under the [i] flag is a literal match
    in the lower-cased text. *)
Lemma stripPrefixCI_lower pre : forall s r,
  stripPrefixCI pre s = Some r ->
  stripPrefix pre (toLowerCase s) = Some (toLowerCase r).
Proof.
  induction pre as [|a p IH]; intros s r H.
  - destruct s; simpl in *; now inversion H.
  - destruct s as [|b t]; simpl in *; [discriminate|].
    destruct (Ascii.eqb a (lowerChar b)); simpl in *; [|discriminate].
    destruct (code b <? 128)%Z; [|discriminate].
    now apply IH.
Qed.

Lemma includes_tail c s sub : includes s sub = true -> includes (String c s) sub = true.
Proof.
  intros H. cbn [includes].
  destruct (stripPrefix sub (String c s)); [reflexivity | exact H].
Qed.

(** Whatever [/pre(\w+)post/i] matches, the lower-cased text includes [pre]. *)
Lemma matchWord_includes pre post : forall sql w,
  matchWord pre post sql = Some w -> includes (toLowerCase sql) pre = true.
Proof.
  induction sql as [|c t IH]; intros w H.
  - simpl in H. destruct (stripPrefixCI pre EmptyString) as [r|] eqn:E.
    + apply stripPrefixCI_lower in E. simpl in *. now rewrite E.
    + discriminate.
  - cbn [matchWord] in H.
    destruct (stripPrefixCI pre (String c t)) as [r|] eqn:E.
    + apply stripPrefixCI_lower in E.
      cbn [includes toLowerCase] in *. now rewrite E.
    + cbn [toLowerCase]. apply includes_tail. eapply IH, H.
Qed.

(** [executeQuery] without its GROUP BY step. *)
Definition executeQueryNoGrouping (sample : nat) (sql : string) (data : list Row) : list Row :=
  let lowerSQL := toLowerCase sql in
  if includes lowerSQL "select count(*)"
  then [ set [] "total_count" (Num (JsNumber.ofNat (List.length data))) ]
  else
  match (if includes lowerSQL "avg(" || includes lowerSQL "average"
         then matchWord "avg(" ")" sql else None) with
  | Some column =>
      let values := DataProcessor.numericValues data column in
      let avg := (JsNumber.sum values / JsNumber.ofNat (List.length values))%float in
      [ set [] ("average_" ++ column) (Str (JsNumber.toFixed2 avg)) ]
  | None =>
  match (if includes lowerSQL "sum(" then matchWord "sum(" ")" sql else None) with
  | Some column =>
      let sum := fold_left (fun total row => (total + numberOrZero row column)%float)
                           data 0%float in
      [ set [] ("total_" ++ column) (Num sum) ]
  | None =>
  match (if includes lowerSQL "order by" && includes lowerSQL "desc"
         then matchWord "order by " " desc" sql else None) with
  | Some column =>
      slice0 10 (sort (fun a b => (numberOrZero b column - numberOrZero a column)%float) data)
  | None =>
  match (if includes lowerSQL "order by" && includes lowerSQL "asc"
         then matchWord "order by " " asc" sql else None) with
  | Some column =>
      slice0 10 (sort (fun a b => (numberOrZero a column - numberOrZero b column)%float) data)
  | None => slice0 sample data
  end end end end.

(** The GROUP BY step needs a match of [/sum\((\w+)\)/i]; with such a
    match the SUM step before it has already returned.  The step is dead
    code in both copies of the executor. *)
Lemma group_by_step_unreachable sample sql data :
  executeQueryWith sample sql data = executeQueryNoGrouping sample sql data.
Proof.
  unfold executeQueryWith, executeQueryNoGrouping. cbv zeta.
  destruct (includes (toLowerCase sql) "select count(*)"); [reflexivity|].
  destruct (if includes (toLowerCase sql) "avg(" || includes (toLowerCase sql) "average"
            then matchWord "avg(" ")" sql else None); [reflexivity|].
  destruct (matchWord "sum(" ")" sql) as [c|] eqn:Esum.
  - rewrite (matchWord_includes _ _ _ _ Esum). reflexivity.
  - destruct (includes (toLowerCase sql) "sum("); 
      destruct (includes (toLowerCase sql) "group by");
      try reflexivity; destruct (matchWord "group by " EmptyString sql); reflexivity.
Qed.

(** ** C1 *)

Definition regionSales : list Row :=
  [ [("region", Str "A"); ("sales", Num 30)];
    [("region", Str "A"); ("sales", Num 20)];
    [("region", Str "B"); ("sales", Num 10)] ].

(** The plan text [simulateNLQResponse] writes for a breakdown question. *)
Definition groupByPlan : string :=
  "SELECT region, SUM(sales) as total FROM data GROUP BY region LIMIT 20".

(** C1: on the scenario of the claim both executors stop at the SUM step
    and return the grand total in a single row, not one row per region. *)
Theorem group_by_plan_returns_grand_total :
  executeQuery groupByPlan regionSales = [ [("total_sales", Num 60)] ] /\
  executeQueryBackend groupByPlan regionSales = [ [("total_sales", Num 60)] ].
Proof. split; vm_compute; reflexivity. Qed.

End NlqServiceFacts.


(** ** voiceService.ts *)

Module VoiceServiceFacts.

Import Js JsString VoiceService.
Local Open Scope string_scope.

(** *** Completions *)

Lemma mapM_ext_in {A B : Type} (f g : A -> Completion B) (l : list A) :
  (forall a, In a l -> f a = g a) -> mapM f l = mapM g l.
Proof.
  induction l as [|a t IH]; intros H; [reflexivity|].
  cbn [mapM]. rewrite (H a) by now left.
  rewrite IH by (intros; apply H; now right). reflexivity.
Qed.

Lemma mapM_length {A B : Type} (f : A -> Completion B) (l : list A) (r : list B) :
  mapM f l = Return r -> List.length r = List.length l.
Proof.
  revert r. induction l as [|a t IH]; intros r H; cbn [mapM] in H.
  - now inversion H.
  - destruct (f a); [|discriminate]. cbn [bind] in H.
    destruct (mapM f t) as [bs|]; [|discriminate]. cbn [bind] in H.
    inversion H. cbn [List.length]. f_equal. now apply IH.
Qed.

Lemma mapM_forall {A B : Type} (P : B -> Prop) (f : A -> Completion B) (l : list A) (r : list B) :
  (forall a b, In a l -> f a = Return b -> P b) ->
  mapM f l = Return r -> forall b, In b r -> P b.
Proof.
  revert r. induction l as [|a t IH]; intros r HP H b Hb; cbn [mapM] in H.
  - inversion H; subst. destruct Hb.
  - destruct (f a) as [b0|] eqn:Ea; [|discriminate]. cbn [bind] in H.
    destruct (mapM f t) as [bs|] eqn:Et; [|discriminate]. cbn [bind] in H.
    inversion H; subst. destruct Hb as [<-|Hb].
    + eapply HP; [now left | exact Ea].
    + eapply IH; [| reflexivity | exact Hb]. intros; eapply HP; [right|]; eassumption.
Qed.

Lemma indexed_row {A : Type} (l : list A) i a : In (i, a) (indexed l) -> In a l.
Proof. unfold indexed. apply in_combine_r. Qed.

Lemma indexed_length {A : Type} (l : list A) : List.length (indexed l) = List.length l.
Proof. unfold indexed. rewrite length_combine, length_seq. apply Nat.min_id. Qed.

(** *** [Number(row[metric]) || 0] is never NaN *)

Lemma orZero_not_NaN (x : float) : JsNumber.isNaN (JsNumber.orZero x) = false.
Proof.
  unfold JsNumber.orZero, JsNumber.truthy.
  destruct (x =? 0)%float; simpl; [reflexivity|].
  destruct (JsNumber.isNaN x) eqn:E; simpl; [reflexivity | exact E].
Qed.

Lemma orZero_NaN (x : float) : JsNumber.isNaN x = true -> JsNumber.orZero x = 0%float.
Proof.
  intros H. unfold JsNumber.orZero, JsNumber.truthy. rewrite H, orb_true_r. reflexivity.
Qed.

(** The filter [v => !isNaN(v.value)] removes nothing: the series has one
    point per row. *)
Lemma points_length clock data metric pts :
  points clock data metric = Return pts -> List.length pts = List.length data.
Proof.
  unfold points. intros H.
  destruct (mapM _ (indexed data)) as [mapped|] eqn:E; [|discriminate].
  cbn [bind] in H. inversion H; subst; clear H.
  assert (Hall : forall p, In p mapped -> JsNumber.isNaN (value p) = false).
  { eapply mapM_forall; [|exact E]. intros [i row] p _ Hp.
    destruct (stamp _ _ _ _); [|discriminate]. cbn [bind] in Hp.
    inversion Hp; subst. apply orZero_not_NaN. }
  rewrite forallb_filter_id.
  - apply mapM_length in E. now rewrite E, indexed_length.
  - apply forallb_forall. intros p Hp. now rewrite (Hall p Hp).
Qed.

(** ** C3 *)

Definition revenueWithGap : list Row :=
  [ [("date", Str "2024-01-01"); ("revenue", Str "n/a")];
    [("date", Str "2024-01-02"); ("revenue", Num 120)] ].

(** C3: the row whose [revenue] is the text [n/a] is not dropped.
    [Number("n/a") || 0] is [0], so the row enters the series of both
    [detectAnomalies] and [predictTimeSeries] as a point of value 0, and
    with it the series has the two points a forecast needs. *)
Theorem non_numeric_row_enters_series clock :
  points clock revenueWithGap "revenue" =
    Return [ {| date := Str "2024-01-01"; value := 0 |};
             {| date := Str "2024-01-02"; value := 120 |} ] /\
  timeSeries JsDate.utcHost clock revenueWithGap "revenue" =
    Return [ {| date := Str "2024-01-01"; value := 0 |};
             {| date := Str "2024-01-02"; value := 120 |} ] /\
  exists p, predictTimeSeries JsDate.utcHost clock revenueWithGap "revenue" 1 = Return p /\
            model_type p = "linear_regression_with_exponential_smoothing".
Proof.
  split; [vm_compute; reflexivity|].
  split; [vm_compute; reflexivity|].
  eexists. split; vm_compute; reflexivity.
Qed.

(** ** C4 *)

Definition decliningRevenue : list Row :=
  [ [("date", Str "2024-01-01"); ("revenue", Num 100)];
    [("date", Str "2024-01-02"); ("revenue", Num 0)] ].

(** C4: [value] and [confidence_lower] pass through [Math.max(0, ...)],
    [confidence_upper] does not.  On a falling series the fourth forecast
    has value 0, lower bound 0 and a negative upper bound. *)
Theorem upper_bound_not_floored clock :
  exists p q,
    predictTimeSeries JsDate.utcHost clock decliningRevenue "revenue" 30 = Return p /\
    nth_error (predictions p) 3 = Some q /\
    pr_date q = "2024-01-06" /\
    pr_value q = 0%float /\
    confidence_lower q = 0%float /\
    (confidence_upper q <? 0)%float = true /\
    JsNumber.toFixed2 (confidence_upper q) = "-23.40".
Proof.
  eexists. eexists. split; [vm_compute; reflexivity|].
  split; [vm_compute; reflexivity|].
  repeat split; vm_compute; reflexivity.
Qed.

(** ** C6 *)

(** A row carries its own date when [row.date || row.timestamp] is truthy. *)
Definition dated (row : Row) : bool :=
  ToBoolean (or (get row "date") (get row "timestamp")).

Lemma stamp_dated clock len index row :
  dated row = true ->
  stamp clock len index row = Return (or (get row "date") (get row "timestamp")).
Proof. unfold stamp, dated. now intros ->. Qed.

Lemma points_clock_independent clock1 clock2 data metric :
  (forall row, In row data -> dated row = true) ->
  points clock1 data metric = points clock2 data metric.
Proof.
  intros Hd. unfold points. f_equal.
  apply mapM_ext_in. intros [i row] Hin.
  apply indexed_row in Hin.
  now rewrite !stamp_dated by auto.
Qed.

(** C6, as the code has it.  [calculateKPIs] never reads the clock (it has
    no clock argument here).  [detectAnomalies] and [predictTimeSeries]
    return the same completion under any two clocks provided every row has
    a truthy [date] or [timestamp]; only then is [Date.now()] not called. *)
Theorem dated_rows_ignore_clock host clock1 clock2 data metric periods :
  (forall row, In row data -> dated row = true) ->
  detectAnomalies clock1 data metric = detectAnomalies clock2 data metric /\
  predictTimeSeries host clock1 data metric periods =
  predictTimeSeries host clock2 data metric periods.
Proof.
  intros Hd.
  pose proof (points_clock_independent clock1 clock2 data metric Hd) as Hp.
  unfold detectAnomalies, predictTimeSeries, timeSeries. now rewrite Hp.
Qed.

Definition dailyUnits : list Row :=
  [ [("date", Str "2024-03-01"); ("units", Num 1)];
    [("date", Str "2024-03-02"); ("units", Num 1)];
    [("date", Str "2024-03-03"); ("units", Num 1)];
    [("date", Str "2024-03-04"); ("units", Num 1)];
    [("date", Str "2024-03-05"); ("units", Num 1)];
    [("date", Str "2024-03-06"); ("units", Num 100)] ].

Lemma dated_rows_ignore_clock_witness :
  detectAnomalies (fun _ => 1730592000000%Z) dailyUnits "units" =
  detectAnomalies (fun _ => 1730678400000%Z) dailyUnits "units" /\
  predictTimeSeries JsDate.utcHost (fun _ => 1730592000000%Z) dailyUnits "units" 7 =
  predictTimeSeries JsDate.utcHost (fun _ => 1730678400000%Z) dailyUnits "units" 7.
Proof.
  apply (dated_rows_ignore_clock JsDate.utcHost _ _ dailyUnits "units" 7).
  intros row Hrow. cbn in Hrow.
  repeat (destruct Hrow as [<-|Hrow]; [vm_compute; reflexivity|]). destruct Hrow.
Defined.

(** The same measurements without a date column. *)
Definition undatedUnits : list Row :=
  [ [("units", Num 1)]; [("units", Num 1)]; [("units", Num 1)];
    [("units", Num 1)]; [("units", Num 1)]; [("units", Num 100)] ].

(** C6 fails as stated: without a date field the anomaly carries a
    timestamp made from [Date.now()], so two calls a day apart return
    different results for the same rows. *)
Lemma undated_rows_follow_clock :
  (exists r1 r2,
     detectAnomalies (fun _ => 1730592000000%Z) undatedUnits "units" = Return [r1] /\
     detectAnomalies (fun _ => 1730678400000%Z) undatedUnits "units" = Return [r2] /\
     timestamp r1 = Str "2024-11-02T00:00:00.000Z" /\
     timestamp r2 = Str "2024-11-03T00:00:00.000Z") /\
  detectAnomalies (fun _ => 1730592000000%Z) undatedUnits "units" <>
  detectAnomalies (fun _ => 1730678400000%Z) undatedUnits "units".
Proof.
  split.
  - do 2 eexists. split; [vm_compute; reflexivity|].
    split; [vm_compute; reflexivity|]. split; reflexivity.
  - vm_compute. intros H. discriminate H.
Qed.

(** ** C7 *)

(** C7: whatever [detectAnomalies] returns, every element of it is flagged:
    it is the assessment of a point of the series whose z-score against
    the mean and standard deviation of the series is above 2. *)
Theorem detectAnomalies_only_anomalies clock data metric results r :
  detectAnomalies clock data metric = Return results ->
  In r results ->
  is_anomaly r = true /\
  exists values point,
    points clock data metric = Return values /\
    In point values /\
    let mean := seriesMean values in
    let stdDev := sqrt (seriesVariance values mean) in
    r = assess metric mean stdDev point /\
    (2 <? abs ((value point - mean) / stdDev))%float = true.
Proof.
  unfold detectAnomalies. intros H Hr.
  destruct (points clock data metric) as [values|]; [|discriminate].
  cbn [bind] in H.
  destruct (List.length values <? 3)%nat.
  - inversion H; subst. destruct Hr.
  - inversion H; subst; clear H.
    apply filter_In in Hr as [Hin Hflag]. split; [exact Hflag|].
    apply in_map_iff in Hin as [point [<- Hpoint]].
    exists values, point. cbv zeta. repeat split; [exact Hpoint | exact Hflag].
Qed.

Definition unitsAnomaly : AnomalyResult :=
  {| timestamp := Str "2024-03-06";
     an_metric := "units";
     an_value := 100;
     expected_value := 17.5;
     deviation := JsNumber.round2 ((100 - 17.5) / 17.5 * 100);
     is_anomaly := true;
     severity := low |}.

Lemma detectAnomalies_only_anomalies_witness :
  detectAnomalies (fun _ => 0%Z) dailyUnits "units" = Return [unitsAnomaly] /\
  is_anomaly unitsAnomaly = true.
Proof.
  assert (H : detectAnomalies (fun _ => 0%Z) dailyUnits "units" = Return [unitsAnomaly])
    by (vm_compute; reflexivity).
  split; [exact H|].
  exact (proj1 (detectAnomalies_only_anomalies _ _ _ _ unitsAnomaly H (or_introl eq_refl))).
Defined.

(** ** C8 *)

(** The test of the source, on the series the code builds: when that
    series has fewer than two points, the call returns the degenerate
    result, without accuracy score, for every number of periods. *)
Lemma short_series_insufficient_data host clock data metric periods series :
  timeSeries host clock data metric = Return series ->
  (List.length series < 2)%nat ->
  predictTimeSeries host clock data metric periods =
  Return {| metric := metric;
            predictions := [];
            accuracy_score := None;
            model_type := "insufficient_data" |}.
Proof.
  intros Hs Hlen. unfold predictTimeSeries. rewrite Hs. cbn [bind].
  apply Nat.ltb_lt in Hlen. now rewrite Hlen.
Qed.

(** With a clock reading inside the range of [Date] and fewer than two
    rows the series is built, so the call above does return. *)
Lemma short_data_builds_series host clock data metric :
  (List.length data < 2)%nat ->
  (forall i, 0 <= clock i <= 8640000000000000)%Z ->
  exists series, timeSeries host clock data metric = Return series /\
                 (List.length series < 2)%nat.
Proof.
  intros Hlen Hclock.
  assert (Hpts : exists pts, points clock data metric = Return pts).
  { destruct data as [|row [|row' rest]]; [eexists; reflexivity | | simpl in Hlen; lia].
    unfold points, indexed. cbn [List.length seq combine mapM].
    unfold stamp. destruct (ToBoolean _); [eexists; reflexivity|].
    unfold JsDate.TimeClip.
    destruct (Z.leb_spec (Z.abs (clock 0%nat - (Z.of_nat 1 - Z.of_nat 0) * JsDate.msPerDay))
                         8640000000000000) as [_|Hout].
    - eexists. reflexivity.
    - exfalso. specialize (Hclock 0%nat). unfold JsDate.msPerDay in Hout. lia. }
  destruct Hpts as [pts Hpts]. unfold timeSeries. rewrite Hpts. cbn [bind].
  eexists. split; [reflexivity|].
  rewrite SortFacts.sort_length, (points_length _ _ _ _ Hpts). exact Hlen.
Qed.

(** The usable points in the words of the specification ("coerce metric
    to number, drop non-numeric"): the rows whose metric cell converts to a
    number. *)
Definition specUsablePoints (data : list Row) (metric : string) : list Row :=
  filter (fun row => negb (JsNumber.isNaN (ToNumber (get row metric)))) data.

Definition oneReading : list Row :=
  [ [("date", Str "2024-01-01"); ("revenue", Str "n/a")];
    [("date", Str "2024-01-02"); ("revenue", Num 120)] ].

(** C8: an input with a single usable point does not get the degenerate
    result.  Of the two rows of [oneReading] only the second has a number
    in [revenue], but [Number("n/a") || 0] puts the first into the series
    as the point 0, the test [timeSeriesData.length < 2] sees two points,
    and the call returns a regression forecast with an accuracy score and
    one prediction per period. *)
Theorem one_usable_point_gets_forecast clock :
  List.length (specUsablePoints oneReading "revenue") = 1%nat /\
  exists p,
    predictTimeSeries JsDate.utcHost clock oneReading "revenue" 30 = Return p /\
    model_type p = "linear_regression_with_exponential_smoothing" /\
    List.length (predictions p) = 30%nat /\
    accuracy_score p <> None /\
    p <> {| metric := "revenue";
            predictions := [];
            accuracy_score := None;
            model_type := "insufficient_data" |}.
Proof.
  split; [vm_compute; reflexivity|].
  eexists. split; [vm_compute; reflexivity|].
  split; [vm_compute; reflexivity|].
  split; [vm_compute; reflexivity|].
  split; discriminate.
Qed.

(** ** C10 *)

Lemma filter_none {A : Type} (f : A -> bool) (l : list A) :
  (forall a, In a l -> f a = false) -> filter f l = [].
Proof.
  induction l as [|a t IH]; intros H; [reflexivity|].
  cbn [filter]. rewrite (H a) by now left. apply IH. intros; apply H; now right.
Qed.

Lemma variance_of_exact_mean (values : list Point) (c : float) :
  (forall p, In p values -> value p = c) ->
  (c - c = 0)%float ->
  fold_left (fun sum v => (sum + JsNumber.square (value v - c))%float) values 0%float
  = 0%float.
Proof.
  intros Hc Hd. induction values as [|p t IH]; [reflexivity|].
  cbn [fold_left]. rewrite (Hc p) by now left. rewrite Hd.
  change (0 + JsNumber.square 0)%float with 0%float.
  apply IH. intros; apply Hc; now right.
Qed.

(** The z-score of a point that sits on the mean, whatever the variance
    sum was divided by: [0 / stdDev] with a zero or NaN [stdDev]. *)
Lemma zscore_on_exact_mean (d n : float) :
  d = 0%float \/ d = nan ->
  (2 <? abs (d / sqrt (0 / n)))%float = false.
Proof.
  intros [-> | ->].
  - destruct (FloatFacts.zero_div n) as [-> | [-> | ->]]; reflexivity.
  - now rewrite FloatFacts.nan_div.
Qed.

(** C10, as the code has it.  When all points have the same value [c] and
    the floating-point mean [sum / n] is exactly [c], every deviation is 0,
    the standard deviation is 0 and each z-score is [0 / 0 = NaN], which is
    not above 2: [detectAnomalies] returns the empty list. *)
Theorem constant_series_exact_mean clock data metric (series : list Point) (c : float) :
  points clock data metric = Return series ->
  (forall p, In p series -> value p = c) ->
  seriesMean series = c ->
  detectAnomalies clock data metric = Return [].
Proof.
  intros Hpts Hc Hmean. unfold detectAnomalies. rewrite Hpts. cbn [bind].
  destruct (List.length series <? 3)%nat; [reflexivity|].
  f_equal. rewrite Hmean.
  apply filter_none.
  intros r Hr. apply in_map_iff in Hr as [p [<- Hp]].
  cbn [assess is_anomaly]. rewrite (Hc p Hp).
  unfold threshold, seriesVariance.
  destruct (FloatFacts.sub_diag c) as [Hd | Hd].
  - rewrite (variance_of_exact_mean series c Hc Hd).
    apply zscore_on_exact_mean. left. exact Hd.
  - rewrite Hd. now rewrite FloatFacts.nan_div.
Qed.

Definition steadyLoad : list Row :=
  [ [("date", Str "2024-05-01"); ("load", Num 42)];
    [("date", Str "2024-05-02"); ("load", Num 42)];
    [("date", Str "2024-05-03"); ("load", Num 42)];
    [("date", Str "2024-05-04"); ("load", Num 42)] ].

Lemma constant_series_exact_mean_witness :
  detectAnomalies (fun _ => 0%Z) steadyLoad "load" = Return [].
Proof.
  apply (constant_series_exact_mean _ steadyLoad "load"
           [ {| date := Str "2024-05-01"; value := 42 |};
             {| date := Str "2024-05-02"; value := 42 |};
             {| date := Str "2024-05-03"; value := 42 |};
             {| date := Str "2024-05-04"; value := 42 |} ] 42%float).
  - vm_compute. reflexivity.
  - intros p Hp. cbn in Hp.
    repeat (destruct Hp as [<-|Hp]; [reflexivity|]). destruct Hp.
  - vm_compute. reflexivity.
Defined.

(** A constant reading of about 3e-152 (the binary64 value
    0x1.999999999999ap-504). *)
Definition faintSignal : list Row :=
  [ [("date", Str "2024-05-01"); ("level", Num 3.054936363499605e-152)];
    [("date", Str "2024-05-02"); ("level", Num 3.054936363499605e-152)];
    [("date", Str "2024-05-03"); ("level", Num 3.054936363499605e-152)] ].

(** C10 fails as stated: the sum of the three equal values is rounded, the
    mean comes out one unit in the last place above them, the squared
    deviations underflow to 0, and the z-score of every point is
    [|d / 0| = Infinity].  All three points are returned, with severity
    [high]. *)
Lemma constant_series_flagged :
  exists r1 r2 r3,
    detectAnomalies (fun _ => 0%Z) faintSignal "level" = Return [r1; r2; r3] /\
    an_value r1 = 3.054936363499605e-152%float /\
    (an_value r1 <? expected_value r1)%float = true /\
    is_anomaly r1 = true /\ severity r1 = high /\
    severity r2 = high /\ severity r3 = high.
Proof.
  do 3 eexists. split; [vm_compute; reflexivity|].
  repeat split; vm_compute; reflexivity.
Qed.

End VoiceServiceFacts.

(** * Further properties

    The functions of the three files that the sections above leave out,
    and how the functions work together. *)

(** ** More on binary64 order *)

Module FloatLaws.

Import FloatFacts JsNumber.
Local Open Scope float_scope.

Lemma eqb_val (x y : float) :
  isNaN x = false -> isNaN y = false -> (x =? y) = (fval x =? fval y)%Z.
Proof.
  intros Hx Hy. rewrite FloatAxioms.eqb_spec. unfold SFeqb, fval.
  rewrite (SFcompare_val _ _ (Prim2SF_valid x) (Prim2SF_valid y) (not_nan x Hx) (not_nan y Hy)).
  destruct (Z.compare_spec (val (Prim2SF x)) (val (Prim2SF y)));
    destruct (Z.eqb_spec (val (Prim2SF x)) (val (Prim2SF y))); try reflexivity; lia.
Qed.

(** Every value lies between the infinities. *)
Lemma fval_bounds (x : float) : (- huge <= fval x <= huge)%Z.
Proof.
  pose proof huge_positive as Hh. pose proof (Prim2SF_valid x) as V.
  unfold fval. destruct (Prim2SF x) as [s|s| |s m e]; cbn [val SpecFloat.valid_binary] in *.
  - lia.
  - destruct s; cbn [cond_Zopp]; lia.
  - lia.
  - pose proof (finite_below_huge m e V).
    pose proof (finite_positive m e (proj1 (proj1 (bounded_facts _ _ V)))).
    destruct s; cbn [cond_Zopp]; lia.
Qed.

Lemma fval_infinity : fval infinity = huge.
Proof. reflexivity. Qed.

Lemma fval_neg_infinity : fval neg_infinity = (- huge)%Z.
Proof. reflexivity. Qed.

Lemma min2_choice (a b : float) :
  isNaN a = false -> isNaN b = false -> min2 a b = a \/ min2 a b = b.
Proof.
  intros Ha Hb. unfold min2. rewrite Ha, Hb. cbn [orb].
  destruct (a <? b); [now left|]. destruct (b <? a); [now right|].
  destruct (get_sign a); auto.
Qed.

Lemma max2_choice (a b : float) :
  isNaN a = false -> isNaN b = false -> max2 a b = a \/ max2 a b = b.
Proof.
  intros Ha Hb. unfold max2. rewrite Ha, Hb. cbn [orb].
  destruct (a <? b); [now right|]. destruct (b <? a); [now left|].
  destruct (get_sign a); auto.
Qed.

Lemma fold_min2_choice (l : list float) : forall acc,
  numeric l -> isNaN acc = false ->
  fold_left min2 l acc = acc \/ In (fold_left min2 l acc) l.
Proof.
  induction l as [|y t IH]; intros acc Hl Ha; cbn [fold_left]; [now left|].
  assert (Hy : isNaN y = false) by (apply Hl; now left).
  destruct (min2_spec acc y Ha Hy) as [Hm _].
  destruct (IH (min2 acc y) (fun z Hz => Hl z (or_intror Hz)) Hm) as [E|Hin].
  - rewrite E. destruct (min2_choice acc y Ha Hy) as [-> | ->]; [now left | right; now left].
  - right. now right.
Qed.

Lemma fold_max2_choice (l : list float) : forall acc,
  numeric l -> isNaN acc = false ->
  fold_left max2 l acc = acc \/ In (fold_left max2 l acc) l.
Proof.
  induction l as [|y t IH]; intros acc Hl Ha; cbn [fold_left]; [now left|].
  assert (Hy : isNaN y = false) by (apply Hl; now left).
  destruct (max2_spec acc y Ha Hy) as [Hm _].
  destruct (IH (max2 acc y) (fun z Hz => Hl z (or_intror Hz)) Hm) as [E|Hin].
  - rewrite E. destruct (max2_choice acc y Ha Hy) as [-> | ->]; [now left | right; now left].
  - right. now right.
Qed.

(** Without two different values there is no spread: [Math.max] of the
    list is not above [Math.min]. *)
Lemma no_spread (l : list float) :
  numeric l ->
  (forall x y, In x l -> In y l -> (x =? y) = true) ->
  (minOf l <? maxOf l) = false.
Proof.
  intros Hl Heq. unfold minOf, maxOf.
  destruct (fold_min2 l infinity Hl eq_refl) as [Hn1 _].
  destruct (fold_max2 l neg_infinity Hl eq_refl) as [Hn2 _].
  rewrite (ltb_val _ _ Hn1 Hn2). apply Z.ltb_ge.
  destruct (fold_min2_choice l infinity Hl eq_refl) as [E1|H1];
    destruct (fold_max2_choice l neg_infinity Hl eq_refl) as [E2|H2].
  - rewrite E1, E2. pose proof huge_positive. rewrite fval_infinity, fval_neg_infinity. lia.
  - rewrite E1, fval_infinity. apply fval_bounds.
  - rewrite E2, fval_neg_infinity. apply fval_bounds.
  - specialize (Heq _ _ H1 H2). rewrite (eqb_val _ _ Hn1 Hn2) in Heq.
    apply Z.eqb_eq in Heq. lia.
Qed.

End FloatLaws.

(** ** Strings: literal parts and identifiers *)

Module StringLaws.

Import JsString NlqService NlqServiceFacts.
Local Open Scope string_scope.

(** [/^\w+$/.test(s)] *)
Fixpoint everyChar (p : ascii -> bool) (s : string) : bool :=
  match s with
  | EmptyString => true
  | String c t => p c && everyChar p t
  end.

Definition isWord (s : string) : bool :=
  negb (String.eqb s EmptyString) && everyChar isWordChar s.

(** [c] does not occur in [s]. *)
Definition lacks (c : ascii) (s : string) : bool :=
  everyChar (fun x => negb (Ascii.eqb x c)) s.

Lemma toLowerCase_app s t : toLowerCase (s ++ t) = toLowerCase s ++ toLowerCase t.
Proof. induction s as [|c s IH]; simpl; [reflexivity | now rewrite IH]. Qed.

Lemma everyChar_app p s t : everyChar p (s ++ t) = everyChar p s && everyChar p t.
Proof. induction s as [|c s IH]; simpl; [reflexivity | now rewrite IH, andb_assoc]. Qed.

Lemma lowerChar_word c : isWordChar c = true -> isWordChar (lowerChar c) = true.
Proof.
  destruct c as [[] [] [] [] [] [] [] []]; vm_compute; intros H; try reflexivity; discriminate H.
Qed.

Lemma toLowerCase_word s : everyChar isWordChar s = true -> everyChar isWordChar (toLowerCase s) = true.
Proof.
  induction s as [|c s IH]; simpl; [reflexivity|]. intros H.
  apply andb_prop in H as [Hc Hs]. now rewrite (lowerChar_word c Hc), IH.
Qed.

(** A word has none of the characters outside [\w]. *)
Lemma word_lacks c s : isWordChar c = false -> everyChar isWordChar s = true -> lacks c s = true.
Proof.
  intros Hc. unfold lacks. induction s as [|x s IH]; simpl; [reflexivity|]. intros H.
  apply andb_prop in H as [Hx Hs]. rewrite (IH Hs), andb_true_r.
  destruct (Ascii.eqb x c) eqn:E; [|reflexivity].
  apply Ascii.eqb_eq in E. congruence.
Qed.

Lemma stripPrefix_lacks c sub : forall s r,
  lacks c sub = false -> stripPrefix sub s = Some r -> lacks c s = false.
Proof.
  unfold lacks. induction sub as [|a p IH]; intros s r Hsub H; [discriminate|].
  destruct s as [|b t]; simpl in *; [discriminate|].
  destruct (Ascii.eqb a b) eqn:E; [|discriminate].
  apply Ascii.eqb_eq in E. subst b.
  destruct (Ascii.eqb a c); simpl in *; [reflexivity|].
  eapply IH; eassumption.
Qed.

(** A text that lacks a character of [sub] does not include [sub]. *)
Lemma includes_lacks c sub s :
  lacks c sub = false -> lacks c s = true -> includes s sub = false.
Proof.
  intros Hsub. induction s as [|b t IH]; intros Hs.
  - simpl. destruct (stripPrefix sub EmptyString) eqn:E; [|reflexivity].
    now rewrite (stripPrefix_lacks c sub _ _ Hsub E) in Hs.
  - cbn [includes]. destruct (stripPrefix sub (String b t)) eqn:E.
    + now rewrite (stripPrefix_lacks c sub _ _ Hsub E) in Hs.
    + apply IH. unfold lacks in *. simpl in Hs. apply andb_prop in Hs. tauto.
Qed.

Lemma matchWord_lacks c pre post sql :
  lacks c pre = false -> lacks c (toLowerCase sql) = true -> matchWord pre post sql = None.
Proof.
  intros Hpre Hs. destruct (matchWord pre post sql) as [w|] eqn:E; [|reflexivity].
  apply matchWord_includes in E. now rewrite (includes_lacks c pre _ Hpre Hs) in E.
Qed.

Lemma includes_app_r s1 s2 sub : includes s2 sub = true -> includes (s1 ++ s2) sub = true.
Proof.
  intros H. induction s1 as [|c s1 IH]; [exact H|]. simpl append. now apply includes_tail.
Qed.

(** The run of word characters at the start of [w ++ rest] is [w] when
    [rest] starts with another character. *)
Lemma span_word w rest :
  everyChar isWordChar w = true ->
  match rest with EmptyString => true | String c _ => negb (isWordChar c) end = true ->
  span isWordChar (w ++ rest) = (w, rest).
Proof.
  intros Hw Hr. induction w as [|c w IH]; simpl in *.
  - destruct rest as [|c t]; [reflexivity|]. simpl.
    now destruct (isWordChar c).
  - apply andb_prop in Hw as [Hc Hw]. now rewrite Hc, (IH Hw).
Qed.

End StringLaws.

(** ** Array.prototype.sort by a key *)

Module SortLaws.

Import FloatFacts SortFacts.

Lemma insertSorted_permutation {A} (cmp : A -> A -> float) (x : A) (l : list A) :
  Permutation (Js.insertSorted cmp x l) (x :: l).
Proof.
  induction l as [|y t IH]; cbn [Js.insertSorted]; [reflexivity|].
  destruct (cmp x y <? 0)%float; [reflexivity|].
  rewrite IH. apply perm_swap.
Qed.

(** The sorted array holds the elements of the array, each as often. *)
Lemma sort_permutation {A} (cmp : A -> A -> float) (l : list A) :
  Permutation (Js.sort cmp l) l.
Proof.
  unfold Js.sort.
  assert (G : forall acc, Permutation (fold_left (fun acc x => Js.insertSorted cmp x acc) l acc)
                                      (l ++ acc)).
  { induction l as [|x t IH]; intros acc; cbn [fold_left]; [reflexivity|].
    rewrite IH, insertSorted_permutation. simpl. symmetry. apply Permutation_middle. }
  rewrite G. now rewrite app_nil_r.
Qed.

Section Ranked.

Context {A : Type} (rank : A -> Z) (cmp : A -> A -> float).
Hypothesis cmp_rank : forall a b, (cmp a b <? 0)%float = (rank a <? rank b)%Z.

Definition ranked (l : list A) : Prop :=
  StronglySorted (fun a b => rank a <= rank b) l.

Lemma insertSorted_ranked (x : A) (l : list A) :
  ranked l -> ranked (Js.insertSorted cmp x l).
Proof.
  unfold ranked. induction l as [|y t IH]; intros Hs; cbn [Js.insertSorted].
  - repeat constructor.
  - rewrite cmp_rank. inversion Hs as [|? ? Hst Hall]; subst.
    destruct (Z.ltb_spec (rank x) (rank y)).
    + constructor; [assumption|]. constructor; [lia|].
      eapply Forall_impl; [|exact Hall]. cbn beta. intros; lia.
    + constructor; [now apply IH|].
      apply Forall_forall. intros z Hz. apply insertSorted_In in Hz as [->|Hz]; [lia|].
      rewrite Forall_forall in Hall. now apply Hall.
Qed.

(** A comparator that compares ranks sorts by rank. *)
Lemma sort_ranked (l : list A) : ranked (Js.sort cmp l).
Proof.
  unfold Js.sort.
  assert (G : forall acc, ranked acc ->
                          ranked (fold_left (fun acc x => Js.insertSorted cmp x acc) l acc)).
  { induction l as [|x t IH]; intros acc Ha; cbn [fold_left]; [assumption|].
    apply IH. now apply insertSorted_ranked. }
  apply G. constructor.
Qed.

End Ranked.

End SortLaws.

(** ** Objects: which properties an assignment leaves *)

Section ObjectLaws.

Context {A : Type}.
Implicit Types (o : Js.Obj A) (k : string) (a : A).

Lemma replace_In o k a x :
  In x (Js.replace o k a) -> x = (k, a) \/ In x o.
Proof.
  induction o as [|[k0 a0] t IH]; simpl; [tauto|].
  destruct (String.eqb k0 k) eqn:E; simpl.
  - apply String.eqb_eq in E. subst k0. intros [<-|H]; auto.
  - intros [<-|H]; auto. destruct (IH H); auto.
Qed.

Lemma insertIndex_In o i k a x :
  In x (Js.insertIndex o i k a) -> x = (k, a) \/ In x o.
Proof.
  induction o as [|[k0 a0] t IH]; simpl; [intuition|].
  destruct (Js.arrayIndex k0) as [j|]; [destruct (j <? i)|]; simpl; intuition.
Qed.

(** After [o[k] = a] every property is the new one or an old one. *)
Lemma set_In o k a x :
  In x (Js.set o k a) -> x = (k, a) \/ In x o.
Proof.
  unfold Js.set. destruct (Js.has o k).
  - apply replace_In.
  - destruct (Js.arrayIndex k).
    + apply insertIndex_In.
    + rewrite in_app_iff. simpl. intuition.
Qed.

Lemma has_keys o o' k : Js.keys o = Js.keys o' -> Js.has o k = Js.has o' k.
Proof.
  unfold Js.has, Js.keys. revert o'.
  induction o as [|[k0 a0] t IH]; intros [|[k1 a1] t']; simpl; try discriminate; [reflexivity|].
  intros H. injection H as -> Ht. destruct (String.eqb k1 k); [reflexivity | now apply IH].
Qed.

Lemma replace_keys o k a : Js.keys (Js.replace o k a) = Js.keys o.
Proof.
  unfold Js.keys. induction o as [|[k0 a0] t IH]; simpl; [reflexivity|].
  destruct (String.eqb k0 k); simpl; [reflexivity | now rewrite IH].
Qed.

Lemma insertIndex_keys o o' i k a a' :
  Js.keys o = Js.keys o' ->
  Js.keys (Js.insertIndex o i k a) = Js.keys (Js.insertIndex o' i k a').
Proof.
  unfold Js.keys. revert o'.
  induction o as [|[k0 a0] t IH]; intros [|[k1 a1] t']; simpl; try discriminate; [reflexivity|].
  intros H. injection H as -> Ht.
  destruct (Js.arrayIndex k1) as [j|]; [destruct (j <? i)|]; simpl; try (now rewrite Ht).
  f_equal. now apply IH.
Qed.

(** The keys after [o[k] = a], and their order, depend on the keys of [o]
    and on [k] only. *)
Lemma set_keys o o' k a a' :
  Js.keys o = Js.keys o' -> Js.keys (Js.set o k a) = Js.keys (Js.set o' k a').
Proof.
  intros H. unfold Js.set. rewrite (has_keys o o' k H).
  destruct (Js.has o' k).
  - now rewrite !replace_keys.
  - destruct (Js.arrayIndex k).
    + now apply insertIndex_keys.
    + unfold Js.keys in *. rewrite !map_app. now rewrite H.
Qed.

End ObjectLaws.

Lemma get_set (row : Js.Row) k a k' :
  Js.get (Js.set row k a) k' = if String.eqb k k' then a else Js.get row k'.
Proof. unfold Js.get. rewrite lookup_set. now destruct (String.eqb k k'). Qed.

Module DataProcessorLaws.

Import Js DataProcessor DataProcessorFacts.
Local Open Scope string_scope.

#[local] Arguments stringify : simpl never.
#[local] Arguments isBlank : simpl never.

(** *** parseCSV *)

(** A cell of a parsed file: [null] or a non-empty text. *)
Definition textOrNull (v : value) : Prop :=
  v = Null \/ exists s, v = Str s /\ s <> EmptyString.

Lemma cell_textOrNull (values : list string) (index : nat) :
  textOrNull (or (nth index (map Str values) Undefined) Null).
Proof.
  destruct (nth_in_or_default index (map Str values) Undefined) as [H|H].
  - apply in_map_iff in H as [s [<- _]]. unfold or. simpl.
    destruct (String.eqb s EmptyString) eqn:E; simpl; [now left|].
    right. exists s. split; [reflexivity|]. intros ->. discriminate.
  - rewrite H. now left.
Qed.

Lemma csvRow_cells headers values k v :
  In (k, v) (csvRow headers values) -> textOrNull v.
Proof.
  unfold csvRow.
  assert (G : forall l (acc : Row),
             (forall k v, In (k, v) acc -> textOrNull v) ->
             forall k v,
             In (k, v) (fold_left (fun row '(index, header) =>
                                     set row header (or (nth index (map Str values) Undefined) Null))
                                  l acc) -> textOrNull v).
  { induction l as [|[i h] t IH]; intros acc Hacc; cbn [fold_left]; [exact Hacc|].
    apply IH. intros k0 v0 Hin. apply set_In in Hin as [E|Hin].
    - injection E as _ ->. apply cell_textOrNull.
    - eapply Hacc, Hin. }
  apply G. intros ? ? [].
Qed.

Lemma csvRow_keys headers values values' :
  keys (csvRow headers values) = keys (csvRow headers values').
Proof.
  unfold csvRow.
  generalize (combine (seq 0 (List.length headers)) headers).
  assert (G : forall l (acc acc' : Row), keys acc = keys acc' ->
             keys (fold_left (fun row '(index, header) =>
                                set row header (or (nth index (map Str values) Undefined) Null))
                             l acc) =
             keys (fold_left (fun row '(index, header) =>
                                set row header (or (nth index (map Str values') Undefined) Null))
                             l acc')).
  { induction l as [|[i h] t IH]; intros acc acc' H; cbn [fold_left]; [exact H|].
    apply IH. now apply set_keys. }
  intros l. now apply G.
Qed.

Lemma parseCSV_rows content row :
  In row (parseCSV content) ->
  exists headers values, row = csvRow headers values.
Proof.
  unfold parseCSV. destruct (filter _ _) as [|first rest]; [intros []|].
  intros H. apply in_map_iff in H as [line [<- _]]. eauto.
Qed.

(** *** cleanData *)

Lemma cleanRow_text row :
  (forall k v, In (k, v) row -> textOrNull v) -> cleanRow row = row.
Proof.
  intros H. unfold cleanRow. rewrite <- (map_id row) at 2.
  apply map_ext_in. intros [k v] Hin.
  destruct (H k v Hin) as [->|[s [-> Hs]]]; [reflexivity|].
  unfold isBlank. simpl. destruct (String.eqb s EmptyString) eqn:E; [|reflexivity].
  apply String.eqb_eq in E. contradiction.
Qed.

(** *** removeDuplicates *)

Lemma removeDuplicatesFrom_covers data : forall seen row,
  In row data ->
  In (stringify row) seen \/
  In (stringify row) (map stringify (removeDuplicatesFrom seen data)).
Proof.
  induction data as [|r rest IH]; intros seen row Hin; [destruct Hin|].
  rewrite removeDuplicatesFrom_cons.
  destruct (existsb (String.eqb (stringify r)) seen) eqn:E.
  - destruct Hin as [->|Hin]; [left; now apply seen_spec | now apply IH].
  - cbn [map]. destruct Hin as [->|Hin]; [right; now left|].
    destruct (IH (stringify r :: seen) row Hin) as [[<-|H]|H]; [right; now left | now left | right; now right].
Qed.

(** *** fillMissingValues *)

(** [row'] is [row] with some gaps filled: the cells that hold a value are
    the same. *)
Definition fillsOnly (row row' : Row) : Prop :=
  forall k, isMissing (get row k) = false -> get row' k = get row k.

Lemma fillsOnly_refl row : fillsOnly row row.
Proof. now intros k _. Qed.

Lemma fillsOnly_trans r1 r2 r3 : fillsOnly r1 r2 -> fillsOnly r2 r3 -> fillsOnly r1 r3.
Proof.
  intros H12 H23 k Hk. rewrite <- (H12 k Hk). apply H23. now rewrite (H12 k Hk).
Qed.

Lemma fillsOnly_gap row c a :
  fillsOnly row (if isMissing (get row c) then set row c a else row).
Proof.
  destruct (isMissing (get row c)) eqn:E; [|apply fillsOnly_refl].
  intros k Hk. rewrite get_set.
  destruct (String.eqb c k) eqn:Ek; [|reflexivity].
  apply String.eqb_eq in Ek. subst k. congruence.
Qed.

(** One round of the loop, row by row. *)
Lemma fillColumn_map filled column :
  exists a, fillColumn filled column = filled \/
            fillColumn filled column =
            map (fun row => if isMissing (get row (name column))
                            then set row (name column) a else row) filled.
Proof.
  unfold fillColumn. destruct (filter _ _) as [|v vs]; [exists Null; now left|].
  destruct (type column);
    [eexists; right; reflexivity | eexists; right; reflexivity
     | exists Null; now left | exists Null; now left].
Qed.

Lemma fillColumn_nth filled column i row :
  nth_error filled i = Some row ->
  exists row', nth_error (fillColumn filled column) i = Some row' /\ fillsOnly row row'.
Proof.
  intros H. destruct (fillColumn_map filled column) as [a [-> | ->]].
  - exists row. split; [assumption | apply fillsOnly_refl].
  - rewrite nth_error_map, H. simpl. eexists. split; [reflexivity | apply fillsOnly_gap].
Qed.

Lemma fillColumn_In filled column row' :
  In row' (fillColumn filled column) ->
  exists row, In row filled /\ fillsOnly row row'.
Proof.
  intros H. apply In_nth_error in H as [i Hi].
  destruct (fillColumn_map filled column) as [a [E | E]]; rewrite E in Hi.
  - exists row'. split; [eapply nth_error_In, Hi | apply fillsOnly_refl].
  - rewrite nth_error_map in Hi. destruct (nth_error filled i) as [row|] eqn:Er; [|discriminate].
    injection Hi as <-. exists row. split; [eapply nth_error_In, Er | apply fillsOnly_gap].
Qed.

Lemma fillColumn_length filled column :
  List.length (fillColumn filled column) = List.length filled.
Proof.
  destruct (fillColumn_map filled column) as [a [-> | ->]]; [reflexivity | apply length_map].
Qed.

Lemma fillMissingValues_length columns : forall data,
  List.length (fillMissingValues data columns) = List.length data.
Proof.
  unfold fillMissingValues.
  induction columns as [|c cs IH]; intros data; cbn [fold_left]; [reflexivity|].
  now rewrite IH, fillColumn_length.
Qed.

Lemma fillMissingValues_nth columns : forall data i row,
  nth_error data i = Some row ->
  exists row', nth_error (fillMissingValues data columns) i = Some row' /\ fillsOnly row row'.
Proof.
  unfold fillMissingValues.
  induction columns as [|c cs IH]; intros data i row H; cbn [fold_left].
  - exists row. split; [assumption | apply fillsOnly_refl].
  - destruct (fillColumn_nth data c i row H) as [r1 [H1 F1]].
    destruct (IH _ i r1 H1) as [r2 [H2 F2]].
    exists r2. split; [assumption | eapply fillsOnly_trans; eassumption].
Qed.

Lemma fillMissingValues_In columns : forall data row',
  In row' (fillMissingValues data columns) ->
  exists row, In row data /\ fillsOnly row row'.
Proof.
  unfold fillMissingValues.
  induction columns as [|c cs IH]; intros data row' H; cbn [fold_left] in H.
  - exists row'. split; [assumption | apply fillsOnly_refl].
  - destruct (IH _ _ H) as [r1 [H1 F1]].
    destruct (fillColumn_In _ _ _ H1) as [r0 [H0 F0]].
    exists r0. split; [assumption | eapply fillsOnly_trans; eassumption].
Qed.

Lemma or_not_missing m s : isMissing (or m (Str s)) = false.
Proof.
  unfold or. destruct (ToBoolean m) eqn:E; [|reflexivity].
  destruct m; simpl in *; congruence.
Qed.

(** A number or string column that holds a value somewhere has no gap
    after its round. *)
Lemma fillColumn_fills filled column :
  type column = TNumber \/ type column = TString ->
  (exists row, In row filled /\ isMissing (get row (name column)) = false) ->
  forall row', In row' (fillColumn filled column) ->
               isMissing (get row' (name column)) = false.
Proof.
  intros Ht [row [Hin Hrow]] row' H'.
  unfold fillColumn in H'.
  destruct (filter (fun v => negb (isMissing v)) (map (fun row => get row (name column)) filled))
    as [|v vs] eqn:Ev.
  - exfalso.
    assert (Hv : In (get row (name column))
                    (filter (fun v => negb (isMissing v))
                            (map (fun row => get row (name column)) filled))).
    { apply filter_In. split; [apply in_map_iff; eauto | now rewrite Hrow]. }
    rewrite Ev in Hv. destruct Hv.
  - destruct Ht as [Ht|Ht]; rewrite Ht in H';
      apply in_map_iff in H' as [r [<- Hr]];
      destruct (isMissing (get r (name column))) eqn:Em; try assumption;
      rewrite get_set, String.eqb_refl; [reflexivity | apply or_not_missing].
Qed.

Lemma fillMissingValues_keeps columns data k :
  (forall row, In row data -> isMissing (get row k) = false) ->
  forall row', In row' (fillMissingValues data columns) -> isMissing (get row' k) = false.
Proof.
  intros H row' H'. destruct (fillMissingValues_In _ _ _ H') as [row [Hin F]].
  rewrite (F k (H row Hin)). now apply H.
Qed.

Lemma fillMissingValues_fills columns : forall data column,
  In column columns ->
  type column = TNumber \/ type column = TString ->
  (exists row, In row data /\ isMissing (get row (name column)) = false) ->
  forall row', In row' (fillMissingValues data columns) ->
               isMissing (get row' (name column)) = false.
Proof.
  induction columns as [|c cs IH]; intros data column Hin Ht Hex; [destruct Hin|].
  change (fillMissingValues data (c :: cs)) with (fillMissingValues (fillColumn data c) cs).
  destruct Hin as [->|Hin].
  - apply fillMissingValues_keeps. now apply fillColumn_fills.
  - apply IH; try assumption.
    destruct Hex as [row [Hr Hm]].
    apply In_nth_error in Hr as [i Hi].
    destruct (fillColumn_nth data c i row Hi) as [r1 [H1 F1]].
    exists r1. split; [eapply nth_error_In, H1 | now rewrite (F1 _ Hm)].
Qed.

Lemma setSize_le values : (setSize values <= List.length values)%nat.
Proof.
  induction values as [|v t IH]; simpl; [lia|].
  destruct (existsb _ t); lia.
Qed.


(** *** Uploaded files *)

Lemma parseCSV_textOrNull content row k v :
  In row (parseCSV content) -> In (k, v) row -> textOrNull v.
Proof.
  intros Hrow Hin. apply parseCSV_rows in Hrow as [headers [values ->]].
  exact (csvRow_cells _ _ _ _ Hin).
Qed.

Definition fruitFile : string :=
  "name, price ,qty" ++ String (JsString.ofCode 10)
  ("apple,1.5" ++ String (JsString.ofCode 10)
  ("pear,,3,9" ++ String (JsString.ofCode 10) EmptyString)).

Definition appleRow : Row := [("name", Str "apple"); ("price", Str "1.5"); ("qty", Null)].
Definition pearRow : Row := [("name", Str "pear"); ("price", Null); ("qty", Str "3")].

Example parseCSV_fruitFile : parseCSV fruitFile = [appleRow; pearRow].
Proof. vm_compute. reflexivity. Qed.

Example parseCSV_without_rows :
  parseCSV EmptyString = [] /\ parseCSV "name,price" = [].
Proof. split; reflexivity. Qed.

(** X1.  A cell of a row returned by [parseCSV] is [null] or a non-empty string:
    a cell that is empty after trimming and unquoting, and a cell the line
    is too short for, both become [null]; no cell is [undefined] or the
    empty string. *)
Theorem parseCSV_cells_text_or_null content row k v :
  In row (parseCSV content) -> In (k, v) row ->
  v = Null \/ exists s, v = Str s /\ s <> EmptyString.
Proof.
  intros Hrow Hin. apply parseCSV_rows in Hrow as [headers [values ->]].
  exact (csvRow_cells headers values k v Hin).
Qed.

Lemma parseCSV_cells_text_or_null_witness :
  In pearRow (parseCSV fruitFile) /\ In ("price", Null) pearRow /\
  (Null = Null \/ exists s, Null = Str s /\ s <> EmptyString).
Proof.
  assert (H1 : In pearRow (parseCSV fruitFile)) by (vm_compute; auto).
  assert (H2 : In ("price", Null) pearRow) by (vm_compute; auto).
  exact (conj H1 (conj H2 (parseCSV_cells_text_or_null fruitFile pearRow "price" Null H1 H2))).
Defined.

(** X2.  [cleanData] has nothing to do on the rows of [parseCSV]: the blank
    cells are [null] already. *)
Theorem cleanData_parseCSV content : cleanData (parseCSV content) = parseCSV content.
Proof.
  rewrite cleanData_rows. rewrite <- (map_id (parseCSV content)) at 2.
  apply map_ext_in. intros row Hrow. apply cleanRow_text.
  intros k v Hin. exact (parseCSV_textOrNull content row k v Hrow Hin).
Qed.


(** X3.  All rows returned by [parseCSV] have the same keys, in the same
    order: every row is built by assigning the headers in turn, whatever
    the number of cells on its line. *)
Theorem parseCSV_rows_share_keys content row1 row2 :
  In row1 (parseCSV content) -> In row2 (parseCSV content) -> keys row1 = keys row2.
Proof.
  unfold parseCSV. destruct (filter _ _) as [|first rest]; [intros []|].
  intros H1 H2.
  apply in_map_iff in H1 as [line1 [<- _]]. apply in_map_iff in H2 as [line2 [<- _]].
  apply csvRow_keys.
Qed.

Lemma parseCSV_rows_share_keys_witness :
  In appleRow (parseCSV fruitFile) /\ In pearRow (parseCSV fruitFile) /\
  keys appleRow = keys pearRow.
Proof.
  assert (H1 : In appleRow (parseCSV fruitFile)) by (vm_compute; auto).
  assert (H2 : In pearRow (parseCSV fruitFile)) by (vm_compute; auto).
  exact (conj H1 (conj H2 (parseCSV_rows_share_keys fruitFile appleRow pearRow H1 H2))).
Defined.

(** *** Cleaning and deduplication *)

(** X4.  Cleaning and deduplication are idempotent: [cleanData] keeps the
    rows, their keys and the order of both, and a second [cleanData] or a
    second [removeDuplicates] changes nothing. *)
Theorem cleaning_steps_idempotent data :
  map keys (cleanData data) = map keys data /\
  cleanData (cleanData data) = cleanData data /\
  removeDuplicates (removeDuplicates data) = removeDuplicates data.
Proof.
  split; [|split].
  - rewrite cleanData_rows, map_map. apply map_ext. intros row. apply cleanRow_keys.
  - change (map cleanRow (map cleanRow data) = map cleanRow data). rewrite map_map.
    apply map_ext. intros row. apply cleanRow_idempotent.
  - apply removeDuplicates_idempotent.
Qed.

(** X5.  [removeDuplicates] returns rows of its input, no two of them with the
    same JSON text, and for every input row a row with that text. *)
Theorem removeDuplicates_one_row_per_text data :
  NoDup (map stringify (removeDuplicates data)) /\
  incl (removeDuplicates data) data /\
  (forall row, In row data ->
               In (stringify row) (map stringify (removeDuplicates data))).
Proof.
  unfold removeDuplicates. split; [apply removeDuplicatesFrom_keys|]. split.
  - intros row. apply removeDuplicatesFrom_incl.
  - intros row Hin. destruct (removeDuplicatesFrom_covers data [] row Hin) as [[]|H]. exact H.
Qed.

(** *** Imputation *)

Definition stock : list Row :=
  [ [("item", Str "bolt"); ("price", Num 2)];
    [("item", Null); ("price", Null)];
    [("item", Str "bolt"); ("price", Num 4)] ].

Definition stockColumns : list DataColumn :=
  [ {| name := "item"; type := TString; nullable := true; unique_count := 1 |};
    {| name := "price"; type := TNumber; nullable := true; unique_count := 2 |} ].

(** X6.  [fillMissingValues] fills gaps only: row [i] of the result is row [i]
    of the input with the same value in every cell that was not [null] or
    [undefined]. *)
Theorem fillMissingValues_keeps_present_cells data columns i row k :
  nth_error data i = Some row -> isMissing (get row k) = false ->
  exists row', nth_error (fillMissingValues data columns) i = Some row' /\
               get row' k = get row k.
Proof.
  intros Hrow Hk. destruct (fillMissingValues_nth columns data i row Hrow) as [row' [H' F]].
  exists row'. split; [assumption | now apply F].
Qed.

Lemma fillMissingValues_keeps_present_cells_witness :
  nth_error stock 2 = Some [("item", Str "bolt"); ("price", Num 4)] /\
  isMissing (get [("item", Str "bolt"); ("price", Num 4)] "price") = false /\
  exists row', nth_error (fillMissingValues stock stockColumns) 2 = Some row' /\
               get row' "price" = get [("item", Str "bolt"); ("price", Num 4)] "price".
Proof.
  assert (H1 : nth_error stock 2 = Some [("item", Str "bolt"); ("price", Num 4)])
    by reflexivity.
  assert (H2 : isMissing (get [("item", Str "bolt"); ("price", Num 4)] "price") = false)
    by reflexivity.
  exact (conj H1 (conj H2
           (fillMissingValues_keeps_present_cells stock stockColumns 2 _ "price" H1 H2))).
Defined.

(** *** processDataset *)

Lemma processDataset_parts host rawData p :
  processDataset host rawData = Return p ->
  let unique := removeDuplicates (cleanData rawData) in
  columns p = map (describeColumn host unique) (keys (hd [] unique)) /\
  rows p = fillMissingValues unique (columns p) /\
  total_rows (summary p) = List.length (rows p) /\
  total_columns (summary p) = List.length (columns p) /\
  duplicates (summary p) = (List.length rawData - List.length unique)%nat.
Proof.
  intros H. pose proof (processDataset_nonempty _ _ _ H) as Hne.
  rewrite (processDataset_returns _ _ Hne) in H. cbv zeta in H.
  injection H as <-. cbn [columns rows summary total_rows total_columns duplicates].
  repeat split.
Qed.

Definition orders : list Row :=
  [ [("id", Num 1); ("note", Null); ("qty", Str "4")];
    [("id", Num 1); ("note", Null); ("qty", Str "4")];
    [("id", Num 2); ("note", Str "rush"); ("qty", Str EmptyString)] ].

Definition ordersResult : ProcessedData :=
  {| columns := [ {| name := "id"; type := TNumber; nullable := false; unique_count := 2 |};
                  {| name := "note"; type := TString; nullable := true; unique_count := 1 |};
                  {| name := "qty"; type := TNumber; nullable := true; unique_count := 1 |} ];
     rows := [ [("id", Num 1); ("note", Str "rush"); ("qty", Str "4")];
               [("id", Num 2); ("note", Str "rush"); ("qty", Num 4)] ];
     summary := {| total_rows := 2;
                   total_columns := 3;
                   missing_values := [("note", 2%nat); ("qty", 1%nat)];
                   duplicates := 1 |} |}.

Lemma orders_processed : processDataset JsDate.utcHost orders = Return ordersResult.
Proof. vm_compute. reflexivity. Qed.

(** X8.  The summary adds up: the duplicates and the rows that are returned
    make up the raw rows, [total_rows] counts the returned rows and
    [total_columns] the returned columns. *)
Theorem processDataset_accounting host rawData p :
  processDataset host rawData = Return p ->
  (duplicates (summary p) + total_rows (summary p) = List.length rawData)%nat /\
  total_rows (summary p) = List.length (rows p) /\
  total_columns (summary p) = List.length (columns p).
Proof.
  intros H. destruct (processDataset_parts _ _ _ H) as (Hc & Hr & Ht & Hn & Hd).
  repeat split; try assumption.
  rewrite Hd, Ht, Hr, fillMissingValues_length.
  assert (Hle : (List.length (removeDuplicates (cleanData rawData)) <= List.length rawData)%nat).
  { etransitivity; [apply removeDuplicatesFrom_length|].
    unfold cleanData. rewrite length_map. apply le_n. }
  lia.
Qed.

Lemma processDataset_accounting_witness :
  processDataset JsDate.utcHost orders = Return ordersResult /\
  (duplicates (summary ordersResult) + total_rows (summary ordersResult)
   = List.length orders)%nat /\
  total_rows (summary ordersResult) = List.length (rows ordersResult) /\
  total_columns (summary ordersResult) = List.length (columns ordersResult).
Proof.
  exact (conj orders_processed
              (processDataset_accounting JsDate.utcHost orders ordersResult orders_processed)).
Defined.

(** X9.  The columns are the keys of the first raw row, in its order; a key
    that only later rows have is not a column. *)
Theorem processDataset_columns_of_first_row host rawData p :
  processDataset host rawData = Return p ->
  map name (columns p) = keys (hd [] rawData).
Proof.
  intros H. destruct (processDataset_parts _ _ _ H) as (Hc & _).
  rewrite Hc, map_map. cbn [name describeColumn]. rewrite map_id.
  rewrite unique_head. apply cleanRow_keys.
Qed.

Lemma processDataset_columns_of_first_row_witness :
  processDataset JsDate.utcHost orders = Return ordersResult /\
  map name (columns ordersResult) = keys (hd [] orders).
Proof.
  exact (conj orders_processed
              (processDataset_columns_of_first_row JsDate.utcHost orders ordersResult
                 orders_processed)).
Defined.

Lemma setSize_positive values : (0 < setSize values)%nat -> values <> [].
Proof. intros H ->. simpl in H. lia. Qed.

(** X10.  Imputation leaves no gap in a number or string column that has a
    value at all: when such a column has [unique_count > 0], no returned
    row has [null] or [undefined] in it. *)
Theorem processDataset_fills_gaps host rawData p c row :
  processDataset host rawData = Return p ->
  In c (columns p) ->
  type c = TNumber \/ type c = TString ->
  (0 < unique_count c)%nat ->
  In row (rows p) ->
  isMissing (get row (name c)) = false.
Proof.
  intros H Hc Ht Hu Hrow.
  destruct (processDataset_parts _ _ _ H) as (Ecols & Erows & _).
  rewrite Erows in Hrow. revert Hrow. apply fillMissingValues_fills; try assumption.
  rewrite Ecols in Hc. apply in_map_iff in Hc as [n [<- _]].
  cbn [describeColumn unique_count name] in *.
  apply setSize_positive in Hu.
  destruct (filter _ _) as [|v vs] eqn:Ev; [congruence|].
  assert (Hv : In v (v :: vs)) by now left.
  rewrite <- Ev in Hv. apply filter_In in Hv as [Hv Hm].
  apply in_map_iff in Hv as [r [<- Hr]].
  exists r. split; [assumption|]. now destruct (isMissing (get r n)).
Qed.

Lemma processDataset_fills_gaps_witness :
  processDataset JsDate.utcHost orders = Return ordersResult /\
  isMissing (get [("id", Num 2); ("note", Str "rush"); ("qty", Num 4)] "qty") = false.
Proof.
  split; [exact orders_processed|].
  apply (processDataset_fills_gaps JsDate.utcHost orders ordersResult
           {| name := "qty"; type := TNumber; nullable := true; unique_count := 1 |}).
  - exact orders_processed.
  - simpl. auto.
  - now left.
  - simpl. lia.
  - simpl. auto.
Defined.

(** X11.  [unique_count] never exceeds [total_rows]. *)
Theorem processDataset_unique_count_bounded host rawData p c :
  processDataset host rawData = Return p ->
  In c (columns p) ->
  (unique_count c <= total_rows (summary p))%nat.
Proof.
  intros H Hc.
  destruct (processDataset_parts _ _ _ H) as (Ecols & Erows & Et & _).
  rewrite Et, Erows, fillMissingValues_length.
  rewrite Ecols in Hc. apply in_map_iff in Hc as [n [<- _]].
  cbn [describeColumn unique_count].
  etransitivity; [apply setSize_le|].
  etransitivity; [apply filter_length_le|].
  now rewrite length_map.
Qed.

Lemma processDataset_unique_count_bounded_witness :
  processDataset JsDate.utcHost orders = Return ordersResult /\
  (1 <= total_rows (summary ordersResult))%nat.
Proof.
  split; [exact orders_processed|].
  apply (processDataset_unique_count_bounded JsDate.utcHost orders ordersResult
           {| name := "note"; type := TString; nullable := true; unique_count := 1 |}).
  - exact orders_processed.
  - simpl. auto.
Defined.

(** *** detectColumnType *)

Lemma isBooleanLike_cases v :
  isBooleanLike v = true ->
  v = Bool true \/ v = Bool false \/ v = Str "true" \/ v = Str "false"
  \/ v = Str "0" \/ v = Str "1".
Proof.
  unfold isBooleanLike. intros H.
  repeat (apply orb_prop in H as [H|H]);
    destruct v as [| |b|x|s]; try discriminate; cbn [strictEq] in H.
  - destruct b; [auto | discriminate].
  - destruct b; [discriminate | auto].
  - apply String.eqb_eq in H. subst. auto.
  - apply String.eqb_eq in H. subst. auto.
  - apply String.eqb_eq in H. subst. auto 6.
  - apply String.eqb_eq in H. subst. auto 6.
Qed.

(** X12.  A column is typed [boolean] only when it holds the text [true] or
    [false]: the number test comes first, and the Booleans themselves and
    the texts [0] and [1] all convert to numbers. *)
Theorem boolean_column_holds_true_or_false host values :
  detectColumnType host values = TBoolean ->
  exists v, In v values /\ (v = Str "true" \/ v = Str "false").
Proof.
  unfold detectColumnType.
  set (nonNull := filter (fun v => negb (isBlank v)) values).
  assert (Hsub : forall v, In v nonNull -> In v values)
    by (intros v Hv; apply filter_In in Hv; tauto).
  destruct nonNull as [|v0 vs] eqn:E; [discriminate|]. rewrite <- E in *. clear E v0 vs.
  destruct (forallb (fun v => negb (JsNumber.isNaN (ToNumber v))) nonNull) eqn:En; [discriminate|].
  destruct (forallb isBooleanLike nonNull) eqn:Eb.
  - intros _.
    assert (Hex : exists v, In v nonNull /\ JsNumber.isNaN (ToNumber v) = true).
    { clear -En. induction nonNull as [|v t IH]; [discriminate|]. simpl in En.
      destruct (JsNumber.isNaN (ToNumber v)) eqn:Ev.
      - exists v. split; [now left | assumption].
      - destruct (IH En) as [w [Hw Hn]]. exists w. split; [now right | assumption]. }
    destruct Hex as [v [Hv Hn]]. exists v. split; [now apply Hsub|].
    rewrite forallb_forall in Eb. specialize (Eb v Hv).
    destruct (isBooleanLike_cases v Eb) as [-> | [-> | [-> | [-> | [-> | ->]]]]]; auto;
      vm_compute in Hn; discriminate.
  - intros H. match type of H with (if ?c then _ else _) = _ => destruct c end; discriminate H.
Qed.

Lemma boolean_column_holds_true_or_false_witness :
  detectColumnType JsDate.utcHost [Str "true"; Null; Str "0"] = TBoolean /\
  exists v, In v [Str "true"; Null; Str "0"] /\ (v = Str "true" \/ v = Str "false").
Proof.
  assert (H : detectColumnType JsDate.utcHost [Str "true"; Null; Str "0"] = TBoolean)
    by (vm_compute; reflexivity).
  exact (conj H (boolean_column_holds_true_or_false JsDate.utcHost _ H)).
Defined.


(** *** normalizeData *)

Import FloatFacts FloatLaws.

Lemma normalizeColumn_flat data column :
  (type column = TNumber ->
   forall x y, In x (numericValues data (name column)) ->
               In y (numericValues data (name column)) -> (x =? y)%float = true) ->
  normalizeColumn data column = data.
Proof.
  intros H. unfold normalizeColumn. destruct (type column); try reflexivity.
  now rewrite (no_spread _ (numericValues_numeric data (name column)) (H eq_refl)).
Qed.

(** X13.  Without a spread nothing is normalized: when the numeric values of
    every number column are all equal (or there is none), the guard
    [max > min] fails and [normalizeData] returns the rows as they are. *)
Theorem normalizeData_needs_spread data columns :
  (forall column x y, In column columns -> type column = TNumber ->
     In x (numericValues data (name column)) ->
     In y (numericValues data (name column)) -> (x =? y)%float = true) ->
  normalizeData data columns = data.
Proof.
  unfold normalizeData. induction columns as [|c cs IH]; intros H; cbn [fold_left]; [reflexivity|].
  rewrite normalizeColumn_flat by (intros Ht x y; apply H; [now left | assumption]).
  apply IH. intros column x y Hc. apply H. now right.
Qed.

Definition flatPrices : list Row :=
  [ [("price", Num 5)]; [("price", Str "5.0")]; [("price", Str "n/a")] ].

Definition priceColumn : DataColumn :=
  {| name := "price"; type := TNumber; nullable := false; unique_count := 3 |}.

Lemma normalizeData_needs_spread_witness :
  normalizeData flatPrices [priceColumn] = flatPrices.
Proof.
  apply (normalizeData_needs_spread flatPrices [priceColumn]).
  intros column x y [<-|[]] _ Hx Hy.
  vm_compute in Hx, Hy.
  destruct Hx as [<-|[<-|[]]]; destruct Hy as [<-|[<-|[]]]; vm_compute; reflexivity.
Defined.

Lemma normalizeColumn_nth data column i row :
  nth_error data i = Some row ->
  exists row', nth_error (normalizeColumn data column) i = Some row' /\
               forall k, k <> name column ++ "_normalized" -> get row' k = get row k.
Proof.
  intros H. unfold normalizeColumn.
  destruct (type column); try (exists row; split; [assumption | reflexivity]).
  destruct (_ <? _)%float; [|exists row; split; [assumption | reflexivity]].
  rewrite nth_error_map, H. cbn [option_map]. eexists. split; [reflexivity|].
  intros k Hk. cbv zeta. destruct (negb _); [|reflexivity].
  rewrite get_set. destruct (String.eqb _ k) eqn:E; [|reflexivity].
  apply String.eqb_eq in E. congruence.
Qed.

(** X14.  [normalizeData] only writes keys of the form [<column>_normalized]:
    row [i] of the result has the cells of row [i] of the input under
    every other key. *)
Theorem normalizeData_keeps_cells data columns i row k :
  nth_error data i = Some row ->
  (forall c, In c columns -> k <> name c ++ "_normalized") ->
  exists row', nth_error (normalizeData data columns) i = Some row' /\
               get row' k = get row k.
Proof.
  unfold normalizeData. revert data row.
  induction columns as [|c cs IH]; intros data row H Hk; cbn [fold_left].
  - exists row. split; [assumption | reflexivity].
  - destruct (normalizeColumn_nth data c i row H) as [r1 [H1 E1]].
    destruct (IH _ r1 H1) as [r2 [H2 E2]]; [intros c' Hc'; apply Hk; now right|].
    exists r2. split; [assumption|]. rewrite E2. apply E1. apply Hk. now left.
Qed.

Definition spreadPrices : list Row :=
  [ [("price", Num 5)]; [("price", Str "7.5")]; [("price", Num 10)] ].

Lemma normalizeData_keeps_cells_witness :
  nth_error spreadPrices 1 = Some [("price", Str "7.5")] /\
  normalizeData spreadPrices [priceColumn] =
    [ [("price", Num 5); ("price_normalized", Num 0)];
      [("price", Str "7.5"); ("price_normalized", Num 0.5)];
      [("price", Num 10); ("price_normalized", Num 1)] ] /\
  exists row', nth_error (normalizeData spreadPrices [priceColumn]) 1 = Some row' /\
               get row' "price" = get [("price", Str "7.5")] "price".
Proof.
  split; [reflexivity|]. split; [vm_compute; reflexivity|].
  apply (normalizeData_keeps_cells spreadPrices [priceColumn] 1 [("price", Str "7.5")] "price").
  - reflexivity.
  - intros c [<-|[]]. vm_compute. discriminate.
Defined.

End DataProcessorLaws.

(** ** nlqService.ts: the planner and the executor together *)

Module NlqServiceLaws.

Import Js JsString NlqService NlqServiceFacts.
Import FloatFacts FloatLaws SortFacts SortLaws StringLaws.
Local Open Scope string_scope.

(** *** Matching, position by position *)

(** The attempt of [matchWord] at the start of the text. *)
Definition matchHere (pre post sql : string) : option string :=
  match stripPrefixCI pre sql with
  | Some t =>
      let '(w, r) := span isWordChar t in
      match w with
      | EmptyString => None
      | _ => match stripPrefixCI post r with
             | Some _ => Some w
             | None => None
             end
      end
  | None => None
  end.

Lemma matchWord_unfold pre post sql :
  matchWord pre post sql =
  match matchHere pre post sql with
  | Some w => Some w
  | None => match sql with
            | EmptyString => None
            | String _ t => matchWord pre post t
            end
  end.
Proof. destruct sql; reflexivity. Qed.

Lemma matchWord_skip pre post c t :
  stripPrefixCI pre (String c t) = None ->
  matchWord pre post (String c t) = matchWord pre post t.
Proof. intros H. rewrite matchWord_unfold. unfold matchHere. now rewrite H. Qed.

Lemma matchWord_here pre post sql w rest r :
  stripPrefixCI pre sql = Some (w ++ rest) ->
  isWord w = true ->
  match rest with EmptyString => true | String c _ => negb (isWordChar c) end = true ->
  stripPrefixCI post rest = Some r ->
  matchWord pre post sql = Some w.
Proof.
  intros Hpre Hw Hrest Hpost. rewrite matchWord_unfold. unfold matchHere.
  unfold isWord in Hw. apply andb_prop in Hw as [Hne Hw].
  rewrite Hpre, (span_word w rest Hw Hrest), Hpost.
  destruct w; [discriminate | reflexivity].
Qed.

Lemma matchWord_miss pre post sql w rest c t :
  sql = String c t ->
  stripPrefixCI pre sql = Some (w ++ rest) ->
  isWord w = true ->
  match rest with EmptyString => true | String c _ => negb (isWordChar c) end = true ->
  stripPrefixCI post rest = None ->
  matchWord pre post sql = matchWord pre post t.
Proof.
  intros -> Hpre Hw Hrest Hpost. rewrite matchWord_unfold. unfold matchHere.
  unfold isWord in Hw. apply andb_prop in Hw as [Hne Hw].
  rewrite Hpre, (span_word w rest Hw Hrest), Hpost.
  destruct w; reflexivity.
Qed.

Lemma stripPrefix_app sub : forall s1 s2 r,
  stripPrefix sub s1 = Some r -> stripPrefix sub (s1 ++ s2) = Some (r ++ s2).
Proof.
  induction sub as [|a p IH]; intros s1 s2 r H.
  - simpl in *. destruct s1; injection H as <-; reflexivity.
  - destruct s1 as [|b t]; simpl in *; [discriminate|].
    destruct (Ascii.eqb a b); [now apply IH | discriminate].
Qed.

Lemma includes_app_l s1 s2 sub : includes s1 sub = true -> includes (s1 ++ s2) sub = true.
Proof.
  induction s1 as [|c s1 IH]; intros H.
  - simpl in H. destruct (stripPrefix sub EmptyString) as [r|] eqn:E; [|discriminate].
    destruct sub; [|discriminate]. destruct s2; reflexivity.
  - cbn [includes] in H. simpl append. cbn [includes].
    destruct (stripPrefix sub (String c s1)) as [r|] eqn:E.
    + change (String c (s1 ++ s2)) with (String c s1 ++ s2).
      now rewrite (stripPrefix_app _ _ s2 _ E).
    + destruct (stripPrefix sub (String c (s1 ++ s2))); [reflexivity | now apply IH].
Qed.

Lemma word_not_space c : isWordChar c = true -> Ascii.eqb " " (lowerChar c) = false.
Proof.
  destruct c as [[] [] [] [] [] [] [] []]; vm_compute; intros H; try reflexivity; discriminate H.
Qed.

Lemma isWord_chars w : isWord w = true -> everyChar isWordChar w = true.
Proof. unfold isWord. intros H. apply andb_prop in H. tauto. Qed.

(** No [order by ] starts inside an identifier that is followed by
    [ ASC]. *)
Lemma no_order_by_at_word u :
  everyChar isWordChar u = true ->
  stripPrefixCI "order by " (u ++ " ASC LIMIT 10") = None.
Proof.
  intros H.
  do 5 (destruct u as [|? u]; [reflexivity|];
        cbn [append stripPrefixCI]; destruct (_ && _); [|reflexivity];
        simpl in H; apply andb_prop in H as [_ H]).
  destruct u as [|c u]; [reflexivity|].
  simpl in H. apply andb_prop in H as [Hc _].
  cbn [append stripPrefixCI]. now rewrite (word_not_space c Hc).
Qed.

Lemma no_order_by_in_word post u :
  everyChar isWordChar u = true ->
  matchWord "order by " post (u ++ " ASC LIMIT 10") = None.
Proof.
  induction u as [|c u IH]; intros H.
  - vm_compute. reflexivity.
  - simpl append. rewrite matchWord_skip.
    + apply IH. simpl in H. apply andb_prop in H. tauto.
    + change (String c (u ++ " ASC LIMIT 10")) with (String c u ++ " ASC LIMIT 10").
      now apply no_order_by_at_word.
Qed.


(** *** The plan texts of [simulateNLQResponse] for the table [data] *)

Definition topPlan (column : string) : string :=
  "SELECT * FROM data ORDER BY " ++ column ++ " DESC LIMIT 10".

Definition bottomPlan (column : string) : string :=
  "SELECT * FROM data ORDER BY " ++ column ++ " ASC LIMIT 10".

Definition averagePlan (column : string) : string :=
  "SELECT AVG(" ++ column ++ ") as average_" ++ column ++ " FROM data".

Definition sumPlan (column : string) : string :=
  "SELECT SUM(" ++ column ++ ") as total_" ++ column ++ " FROM data".

Definition salesSchema : list DataProcessor.DataColumn :=
  [ {| DataProcessor.name := "region"; DataProcessor.type := DataProcessor.TString;
       DataProcessor.nullable := false; DataProcessor.unique_count := 2 |};
    {| DataProcessor.name := "sales"; DataProcessor.type := DataProcessor.TNumber;
       DataProcessor.nullable := false; DataProcessor.unique_count := 3 |} ].

Example planner_writes_plans :
  option_map nlq_sql (match simulateNLQResponse "Top regions" salesSchema "data" with
                  | Plan r => Some r | TypeError => None end) = Some (topPlan "sales") /\
  option_map nlq_sql (match simulateNLQResponse "worst regions" salesSchema "data" with
                  | Plan r => Some r | TypeError => None end) = Some (bottomPlan "sales") /\
  option_map nlq_sql (match simulateNLQResponse "Average sale" salesSchema "data" with
                  | Plan r => Some r | TypeError => None end) = Some (averagePlan "sales") /\
  option_map nlq_sql (match simulateNLQResponse "total sales" salesSchema "data" with
                  | Plan r => Some r | TypeError => None end) = Some (sumPlan "sales").
Proof. repeat split; vm_compute; reflexivity. Qed.

Lemma lacks_word c w :
  isWordChar c = false -> isWord w = true -> lacks c (toLowerCase w) = true.
Proof.
  intros Hc Hw. apply word_lacks; [assumption|]. apply toLowerCase_word, isWord_chars, Hw.
Qed.

Lemma lacks_app c s t : lacks c (s ++ t) = lacks c s && lacks c t.
Proof. apply everyChar_app. Qed.

(** Which steps of the executor a plan text passes. *)
Lemma order_plan_passes_aggregates sample sql data :
  lacks "("%char (toLowerCase sql) = true ->
  executeQueryWith sample sql data =
  match (if includes (toLowerCase sql) "order by" && includes (toLowerCase sql) "desc"
         then matchWord "order by " " desc" sql else None) with
  | Some column =>
      slice0 10 (sort (fun a b => (numberOrZero b column - numberOrZero a column)%float) data)
  | None =>
  match (if includes (toLowerCase sql) "order by" && includes (toLowerCase sql) "asc"
         then matchWord "order by " " asc" sql else None) with
  | Some column =>
      slice0 10 (sort (fun a b => (numberOrZero a column - numberOrZero b column)%float) data)
  | None => slice0 sample data
  end end.
Proof.
  intros H. rewrite group_by_step_unreachable. unfold executeQueryNoGrouping. cbv zeta.
  rewrite (includes_lacks "("%char "select count(*)" _ eq_refl H).
  rewrite (matchWord_lacks "("%char "avg(" ")" sql eq_refl H).
  rewrite (includes_lacks "("%char "sum(" _ eq_refl H).
  destruct (_ || _); reflexivity.
Qed.

Lemma topPlan_lacks_paren column :
  isWord column = true -> lacks "("%char (toLowerCase (topPlan column)) = true.
Proof.
  intros Hw. unfold topPlan. rewrite !toLowerCase_app, !lacks_app.
  now rewrite (lacks_word "("%char column eq_refl Hw).
Qed.

Lemma bottomPlan_lacks_paren column :
  isWord column = true -> lacks "("%char (toLowerCase (bottomPlan column)) = true.
Proof.
  intros Hw. unfold bottomPlan. rewrite !toLowerCase_app, !lacks_app.
  now rewrite (lacks_word "("%char column eq_refl Hw).
Qed.

Lemma topPlan_match column :
  isWord column = true -> matchWord "order by " " desc" (topPlan column) = Some column.
Proof.
  intros Hw. unfold topPlan. simpl append.
  do 19 (rewrite matchWord_skip by reflexivity).
  apply (matchWord_here _ _ _ column " DESC LIMIT 10" " LIMIT 10"); auto.
Qed.

Lemma bottomPlan_no_desc column :
  isWord column = true -> matchWord "order by " " desc" (bottomPlan column) = None.
Proof.
  intros Hw. unfold bottomPlan. simpl append.
  do 19 (rewrite matchWord_skip by reflexivity).
  rewrite (matchWord_miss "order by " " desc" _ column " ASC LIMIT 10" _ _ eq_refl) by auto.
  do 8 (rewrite matchWord_skip by reflexivity).
  apply no_order_by_in_word, isWord_chars, Hw.
Qed.

Lemma bottomPlan_match column :
  isWord column = true -> matchWord "order by " " asc" (bottomPlan column) = Some column.
Proof.
  intros Hw. unfold bottomPlan. simpl append.
  do 19 (rewrite matchWord_skip by reflexivity).
  apply (matchWord_here _ _ _ column " ASC LIMIT 10" " LIMIT 10"); auto.
Qed.

Lemma topPlan_runs sample column data :
  isWord column = true ->
  executeQueryWith sample (topPlan column) data =
  slice0 10 (sort (fun a b => (numberOrZero b column - numberOrZero a column)%float) data).
Proof.
  intros Hw. rewrite (order_plan_passes_aggregates _ _ _ (topPlan_lacks_paren _ Hw)).
  rewrite (topPlan_match _ Hw).
  replace (includes (toLowerCase (topPlan column)) "order by") with true.
  - replace (includes (toLowerCase (topPlan column)) "desc") with true; [reflexivity|].
    symmetry. unfold topPlan. rewrite !toLowerCase_app.
    apply includes_app_r, includes_app_r. reflexivity.
  - symmetry. unfold topPlan. rewrite !toLowerCase_app. apply includes_app_l. reflexivity.
Qed.

Lemma bottomPlan_runs sample column data :
  isWord column = true ->
  executeQueryWith sample (bottomPlan column) data =
  slice0 10 (sort (fun a b => (numberOrZero a column - numberOrZero b column)%float) data).
Proof.
  intros Hw. rewrite (order_plan_passes_aggregates _ _ _ (bottomPlan_lacks_paren _ Hw)).
  rewrite (bottomPlan_no_desc _ Hw), (bottomPlan_match _ Hw).
  replace (includes (toLowerCase (bottomPlan column)) "order by") with true.
  - replace (includes (toLowerCase (bottomPlan column)) "asc") with true.
    + destruct (_ && _); reflexivity.
    + symmetry. unfold bottomPlan. rewrite !toLowerCase_app.
      apply includes_app_r, includes_app_r. reflexivity.
  - symmetry. unfold bottomPlan. rewrite !toLowerCase_app. apply includes_app_l. reflexivity.
Qed.


(** *** Ordered plans *)

Lemma numberOrZero_numeric row column : JsNumber.isNaN (numberOrZero row column) = false.
Proof. apply VoiceServiceFacts.orZero_not_NaN. Qed.

Lemma StronglySorted_weaken {A} (P Q : A -> A -> Prop) (l : list A) :
  (forall a b, P a b -> Q a b) -> StronglySorted P l -> StronglySorted Q l.
Proof.
  intros H. induction 1 as [|a t Hs IH Hall]; constructor; [assumption|].
  eapply Forall_impl; [|exact Hall]. auto.
Qed.

Lemma descending_sort column (data : list Row) :
  StronglySorted (fun a b => (numberOrZero b column <=? numberOrZero a column)%float = true)
                 (sort (fun a b => (numberOrZero b column - numberOrZero a column)%float) data).
Proof.
  apply (StronglySorted_weaken (fun a b => - fval (numberOrZero a column)
                                           <= - fval (numberOrZero b column))).
  - intros a b H. apply leb_of_val; try apply numberOrZero_numeric. lia.
  - apply (sort_ranked (fun a => - fval (numberOrZero a column))).
    intros a b.
    rewrite (sub_ltb_zero _ _ (numberOrZero_numeric b column) (numberOrZero_numeric a column)).
    rewrite (ltb_val _ _ (numberOrZero_numeric b column) (numberOrZero_numeric a column)).
    destruct (Z.ltb_spec (fval (numberOrZero b column)) (fval (numberOrZero a column)));
      symmetry; [apply Z.ltb_lt | apply Z.ltb_ge]; lia.
Qed.

Lemma ascending_sort column (data : list Row) :
  StronglySorted (fun a b => (numberOrZero a column <=? numberOrZero b column)%float = true)
                 (sort (fun a b => (numberOrZero a column - numberOrZero b column)%float) data).
Proof.
  apply (StronglySorted_weaken (fun a b => fval (numberOrZero a column)
                                           <= fval (numberOrZero b column))).
  - intros a b H. apply leb_of_val; try apply numberOrZero_numeric. lia.
  - apply (sort_ranked (fun a => fval (numberOrZero a column))).
    intros a b.
    rewrite (sub_ltb_zero _ _ (numberOrZero_numeric a column) (numberOrZero_numeric b column)).
    apply ltb_val; apply numberOrZero_numeric.
Qed.

Definition regionTotals : list Row :=
  [ [("region", Str "north"); ("sales", Num 30)];
    [("region", Str "south"); ("sales", Str "n/a")];
    [("region", Str "east"); ("sales", Str "45.5")] ].

(** X16.  A top-10 plan returns the ten rows with the largest
    [Number(row[column]) || 0], largest first: the result is the first ten
    rows of a rearrangement of the data in which no row has a larger key
    than a row before it.  Both executors agree on it. *)
Theorem top_plan_returns_largest_rows column data :
  isWord column = true ->
  exists sorted,
    Permutation sorted data /\
    StronglySorted (fun a b => (numberOrZero b column <=? numberOrZero a column)%float = true)
                   sorted /\
    executeQuery (topPlan column) data = firstn 10 sorted /\
    executeQueryBackend (topPlan column) data = firstn 10 sorted.
Proof.
  intros Hw.
  exists (sort (fun a b => (numberOrZero b column - numberOrZero a column)%float) data).
  split; [apply sort_permutation|]. split; [apply descending_sort|].
  split; apply (topPlan_runs _ _ _ Hw).
Qed.

Lemma top_plan_returns_largest_rows_witness :
  isWord "sales" = true /\
  executeQuery (topPlan "sales") regionTotals =
    [ [("region", Str "east"); ("sales", Str "45.5")];
      [("region", Str "north"); ("sales", Num 30)];
      [("region", Str "south"); ("sales", Str "n/a")] ] /\
  exists sorted,
    Permutation sorted regionTotals /\
    StronglySorted (fun a b => (numberOrZero b "sales" <=? numberOrZero a "sales")%float = true)
                   sorted /\
    executeQuery (topPlan "sales") regionTotals = firstn 10 sorted /\
    executeQueryBackend (topPlan "sales") regionTotals = firstn 10 sorted.
Proof.
  split; [reflexivity|]. split; [vm_compute; reflexivity|].
  apply (top_plan_returns_largest_rows "sales" regionTotals). reflexivity.
Defined.

(** X17.  A bottom-10 plan returns the ten rows with the smallest
    [Number(row[column]) || 0], smallest first; a row without a number in
    the column counts as 0. *)
Theorem bottom_plan_returns_smallest_rows column data :
  isWord column = true ->
  exists sorted,
    Permutation sorted data /\
    StronglySorted (fun a b => (numberOrZero a column <=? numberOrZero b column)%float = true)
                   sorted /\
    executeQuery (bottomPlan column) data = firstn 10 sorted /\
    executeQueryBackend (bottomPlan column) data = firstn 10 sorted.
Proof.
  intros Hw.
  exists (sort (fun a b => (numberOrZero a column - numberOrZero b column)%float) data).
  split; [apply sort_permutation|]. split; [apply ascending_sort|].
  split; apply (bottomPlan_runs _ _ _ Hw).
Qed.

Lemma bottom_plan_returns_smallest_rows_witness :
  isWord "sales" = true /\
  executeQuery (bottomPlan "sales") regionTotals =
    [ [("region", Str "south"); ("sales", Str "n/a")];
      [("region", Str "north"); ("sales", Num 30)];
      [("region", Str "east"); ("sales", Str "45.5")] ] /\
  exists sorted,
    Permutation sorted regionTotals /\
    StronglySorted (fun a b => (numberOrZero a "sales" <=? numberOrZero b "sales")%float = true)
                   sorted /\
    executeQuery (bottomPlan "sales") regionTotals = firstn 10 sorted /\
    executeQueryBackend (bottomPlan "sales") regionTotals = firstn 10 sorted.
Proof.
  split; [reflexivity|]. split; [vm_compute; reflexivity|].
  apply (bottom_plan_returns_smallest_rows "sales" regionTotals). reflexivity.
Defined.

(** *** The size of a result *)

(** X15.  Whatever the plan text, the client executor returns at most 100 rows
    and the backend executor at most 10. *)
Theorem executeQuery_result_size sql data :
  (List.length (executeQuery sql data) <= 100)%nat /\
  (List.length (executeQueryBackend sql data) <= 10)%nat.
Proof.
  unfold executeQuery, executeQueryBackend.
  rewrite !group_by_step_unreachable. unfold executeQueryNoGrouping. cbv zeta.
  destruct (includes _ "select count(*)"); [simpl; lia|].
  destruct (if _ || _ then _ else _); [simpl; lia|].
  destruct (if includes _ "sum(" then _ else _); [simpl; lia|].
  destruct (if _ && _ then matchWord "order by " " desc" sql else None) as [column|];
    [unfold slice0; split; etransitivity; try apply firstn_le_length; lia|].
  destruct (if _ && _ then matchWord "order by " " asc" sql else None) as [column|];
    [unfold slice0; split; etransitivity; try apply firstn_le_length; lia|].
  unfold slice0. split; apply firstn_le_length.
Qed.


(** *** Aggregates over a column without numbers *)

Lemma set_first {A} k (a : A) : set [] k a = [(k, a)].
Proof. unfold set. simpl. now destruct (arrayIndex k). Qed.

Lemma averagePlan_runs sample column data :
  isWord column = true ->
  executeQueryWith sample (averagePlan column) data =
  let values := DataProcessor.numericValues data column in
  [ [("average_" ++ column,
      Str (JsNumber.toFixed2 (JsNumber.sum values / JsNumber.ofNat (List.length values))%float))] ].
Proof.
  intros Hw. unfold executeQueryWith. cbv zeta.
  assert (Hstar : lacks "*"%char (toLowerCase (averagePlan column)) = true).
  { unfold averagePlan. rewrite !toLowerCase_app, !lacks_app.
    now rewrite (lacks_word "*"%char column eq_refl Hw). }
  rewrite (includes_lacks "*"%char "select count(*)" _ eq_refl Hstar).
  replace (includes (toLowerCase (averagePlan column)) "avg(") with true
    by (symmetry; unfold averagePlan; rewrite !toLowerCase_app; apply includes_app_l; reflexivity).
  cbn [orb].
  replace (matchWord "avg(" ")" (averagePlan column)) with (Some column).
  - now rewrite set_first.
  - symmetry. unfold averagePlan. simpl append.
    do 7 (rewrite matchWord_skip by reflexivity).
    apply (matchWord_here _ _ _ column (")" ++ " as average_" ++ column ++ " FROM data")
                          (" as average_" ++ column ++ " FROM data")); auto.
Qed.

Lemma sumPlan_runs sample column data :
  isWord column = true ->
  executeQueryWith sample (sumPlan column) data =
  [ [("total_" ++ column,
      Num (fold_left (fun total row => (total + numberOrZero row column)%float) data 0%float))] ].
Proof.
  intros Hw. unfold executeQueryWith. cbv zeta.
  assert (Hstar : lacks "*"%char (toLowerCase (sumPlan column)) = true).
  { unfold sumPlan. rewrite !toLowerCase_app, !lacks_app.
    now rewrite (lacks_word "*"%char column eq_refl Hw). }
  rewrite (includes_lacks "*"%char "select count(*)" _ eq_refl Hstar).
  replace (matchWord "avg(" ")" (sumPlan column)) with (@None string).
  - replace (includes (toLowerCase (sumPlan column)) "sum(") with true
      by (symmetry; unfold sumPlan; rewrite !toLowerCase_app; apply includes_app_l; reflexivity).
    replace (matchWord "sum(" ")" (sumPlan column)) with (Some column).
    + rewrite set_first. destruct (_ || _); reflexivity.
    + symmetry. unfold sumPlan. simpl append.
      do 7 (rewrite matchWord_skip by reflexivity).
      apply (matchWord_here _ _ _ column (")" ++ " as total_" ++ column ++ " FROM data")
                            (" as total_" ++ column ++ " FROM data")); auto.
  - symmetry. unfold sumPlan.
    set (rest := column ++ ") as total_" ++ column ++ " FROM data"). simpl append.
    do 11 (rewrite matchWord_skip by reflexivity).
    apply (matchWord_lacks "("%char); [reflexivity|].
    subst rest. rewrite !toLowerCase_app, !lacks_app.
    rewrite (lacks_word "("%char column eq_refl Hw). reflexivity.
Qed.

Lemma numericValues_none data column :
  (forall row, In row data -> JsNumber.isNaN (ToNumber (get row column)) = true) ->
  DataProcessor.numericValues data column = [].
Proof.
  intros H. unfold DataProcessor.numericValues.
  induction data as [|row rest IH]; [reflexivity|]. simpl.
  rewrite (H row (or_introl eq_refl)). simpl. apply IH. intros r Hr. apply H. now right.
Qed.

Lemma total_none data column :
  (forall row, In row data -> JsNumber.isNaN (ToNumber (get row column)) = true) ->
  fold_left (fun total row => (total + numberOrZero row column)%float) data 0%float = 0%float.
Proof.
  intros H. induction data as [|row rest IH]; [reflexivity|]. cbn [fold_left].
  unfold numberOrZero at 2.
  rewrite (VoiceServiceFacts.orZero_NaN _ (H row (or_introl eq_refl))).
  change (0 + 0)%float with 0%float. apply IH. intros r Hr. apply H. now right.
Qed.

Definition visitors : list Row :=
  [ [("page", Str "home"); ("visits", Str "n/a")];
    [("page", Str "about")] ].

(** X18.  Aggregates over a column in which no row holds a number (an empty
    dataset, a missing key, text cells): the average plan reports the
    string [NaN], the sum plan the number 0. *)
Theorem aggregates_without_numbers column data :
  isWord column = true ->
  (forall row, In row data -> JsNumber.isNaN (ToNumber (get row column)) = true) ->
  executeQuery (averagePlan column) data = [ [("average_" ++ column, Str "NaN")] ] /\
  executeQuery (sumPlan column) data = [ [("total_" ++ column, Num 0)] ].
Proof.
  intros Hw H. unfold executeQuery. split.
  - rewrite (averagePlan_runs _ _ _ Hw). cbv zeta. now rewrite (numericValues_none _ _ H).
  - rewrite (sumPlan_runs _ _ _ Hw). now rewrite (total_none _ _ H).
Qed.

Lemma aggregates_without_numbers_witness :
  isWord "visits" = true /\
  executeQuery (averagePlan "visits") visitors = [ [("average_visits", Str "NaN")] ] /\
  executeQuery (sumPlan "visits") visitors = [ [("total_visits", Num 0)] ].
Proof.
  split; [reflexivity|].
  apply (aggregates_without_numbers "visits" visitors); [reflexivity|].
  intros row [<-|[<-|[]]]; vm_compute; reflexivity.
Defined.

(** *** Questions, planned and executed *)

Lemma countPlan_runs sample tableName data :
  executeQueryWith sample ("SELECT COUNT(*) as total_count FROM " ++ tableName) data =
  [ [("total_count", Num (JsNumber.ofNat (List.length data)))] ].
Proof.
  unfold executeQueryWith. cbv zeta.
  replace (includes (toLowerCase ("SELECT COUNT(*) as total_count FROM " ++ tableName))
                    "select count(*)") with true; [reflexivity|].
  symmetry. rewrite toLowerCase_app. apply includes_app_l. reflexivity.
Qed.

(** The three groups of keywords that are looked for before [count]. *)
Definition asksForAverage (query : string) : bool :=
  includes (toLowerCase query) "average" || includes (toLowerCase query) "avg"
  || includes (toLowerCase query) "mean".

Definition asksForSum (query : string) : bool :=
  includes (toLowerCase query) "sum" || includes (toLowerCase query) "total".

Definition asksForCount (query : string) : bool :=
  includes (toLowerCase query) "count" || includes (toLowerCase query) "how many".

(** X19.  A question that asks for a count (and has no keyword of an average or
    a sum) is answered with the number of rows, whatever the schema and
    the table name: the planner writes a COUNT plan and each executor
    returns [[{total_count: data.length}]]. *)
Theorem count_question_counts_rows query columns tableName data :
  asksForAverage query = false -> asksForSum query = false -> asksForCount query = true ->
  exists r r',
    simulateNLQResponse query columns tableName = Plan r /\
    simulateNLQResponseBackend query columns tableName = Plan r' /\
    executeQuery (nlq_sql r) data = [ [("total_count", Num (JsNumber.ofNat (List.length data)))] ] /\
    executeQueryBackend (nlq_sql r') data
      = [ [("total_count", Num (JsNumber.ofNat (List.length data)))] ].
Proof.
  unfold asksForAverage, asksForSum, asksForCount. intros Ha Hs Hc.
  unfold simulateNLQResponse, simulateNLQResponseBackend. cbv zeta.
  rewrite Ha, Hs, Hc. unfold plan. do 2 eexists.
  split; [reflexivity|]. split; [reflexivity|]. cbn [nlq_sql].
  split; apply countPlan_runs.
Qed.

Lemma count_question_counts_rows_witness :
  asksForAverage "How many visitors?" = false /\
  asksForSum "How many visitors?" = false /\
  asksForCount "How many visitors?" = true /\
  exists r r',
    simulateNLQResponse "How many visitors?" [] "data" = Plan r /\
    simulateNLQResponseBackend "How many visitors?" [] "data" = Plan r' /\
    executeQuery (nlq_sql r) visitors = [ [("total_count", Num 2)] ] /\
    executeQueryBackend (nlq_sql r') visitors = [ [("total_count", Num 2)] ].
Proof.
  split; [reflexivity|]. split; [reflexivity|]. split; [reflexivity|].
  apply (count_question_counts_rows "How many visitors?" [] "data" visitors); reflexivity.
Defined.


(** The keywords of the two planners. *)
Definition backendKeywords : list string :=
  [ "average"; "avg"; "mean"; "sum"; "total"; "count"; "how many"; "trend"; "over time" ].

Definition clientKeywords : list string :=
  (backendKeywords ++
   [ "group by"; "breakdown"; "by category"; "top"; "highest"; "best";
     "bottom"; "lowest"; "worst" ])%list.

Lemma samplePlan_runs sample data :
  executeQueryWith sample "SELECT * FROM data LIMIT 100" data = firstn sample data.
Proof. reflexivity. Qed.

(** X20.  A question without any keyword gets a sample of the table [data]:
    both planners write [SELECT * FROM data LIMIT 100]; the client
    executor returns the first 100 rows and the backend executor the first
    10, whatever the plan text says. *)
Theorem plain_question_gets_sample query columns data :
  existsb (includes (toLowerCase query)) clientKeywords = false ->
  exists r r',
    simulateNLQResponse query columns "data" = Plan r /\
    simulateNLQResponseBackend query columns "data" = Plan r' /\
    nlq_sql r = "SELECT * FROM data LIMIT 100" /\
    nlq_sql r' = "SELECT * FROM data LIMIT 100" /\
    executeQuery (nlq_sql r) data = firstn 100 data /\
    executeQueryBackend (nlq_sql r') data = firstn 10 data.
Proof.
  intros H. cbn [existsb clientKeywords backendKeywords app] in H.
  repeat (apply orb_false_elim in H as [? H]).
  unfold simulateNLQResponse, simulateNLQResponseBackend. cbv zeta.
  repeat match goal with
         | Hx : includes (toLowerCase query) _ = false |- _ => rewrite Hx; clear Hx
         end.
  cbn [orb]. unfold plan. do 2 eexists.
  split; [reflexivity|]. split; [reflexivity|]. cbn [nlq_sql].
  split; [reflexivity|]. split; [reflexivity|].
  split; apply samplePlan_runs.
Qed.

Lemma plain_question_gets_sample_witness :
  existsb (includes (toLowerCase "Show me everything")) clientKeywords = false /\
  exists r r',
    simulateNLQResponse "Show me everything" salesSchema "data" = Plan r /\
    simulateNLQResponseBackend "Show me everything" salesSchema "data" = Plan r' /\
    nlq_sql r = "SELECT * FROM data LIMIT 100" /\
    nlq_sql r' = "SELECT * FROM data LIMIT 100" /\
    executeQuery (nlq_sql r) regionTotals = firstn 100 regionTotals /\
    executeQueryBackend (nlq_sql r') regionTotals = firstn 10 regionTotals.
Proof.
  split; [reflexivity|].
  apply (plain_question_gets_sample "Show me everything" salesSchema regionTotals).
  reflexivity.
Defined.

Lemma orElse_Plan cand s : exists s', orElse cand (Plan s) Plan = Plan s'.
Proof.
  unfold orElse. destruct cand as [x|]; [destruct (String.eqb x EmptyString)|]; eauto.
Qed.

Lemma orFirstName_cons cand c cs : exists s, orFirstName cand (c :: cs) = Plan s.
Proof. apply orElse_Plan. Qed.

Lemma orSecondName_cons cand c cs : exists s, orSecondName cand (c :: cs) = Plan s.
Proof.
  unfold orSecondName. destruct (orFirstName_cons (option_map DataProcessor.name (nth_error (c :: cs) 1)) c cs) as [s ->].
  apply orElse_Plan.
Qed.

(** X21.  The planners throw only on an empty schema: with at least one column
    [columns[0].name] is defined and a plan is returned for every
    question. *)
Theorem planner_throws_on_empty_schema_only query columns tableName :
  simulateNLQResponse query columns tableName = TypeError \/
  simulateNLQResponseBackend query columns tableName = TypeError ->
  columns = [].
Proof.
  destruct columns as [|c cs]; [reflexivity|].
  unfold simulateNLQResponse, simulateNLQResponseBackend, plan.
  cbv zeta. intros [H|H]; exfalso;
    repeat match type of H with
           | context [orFirstName ?x (c :: cs)] =>
               let E := fresh in
               destruct (orFirstName_cons x c cs) as [? E]; rewrite E in H; clear E;
               cbn [withColumn] in H
           | context [orSecondName ?x (c :: cs)] =>
               let E := fresh in
               destruct (orSecondName_cons x c cs) as [? E]; rewrite E in H; clear E;
               cbn [withColumn] in H
           | context [orElse ?x (Plan ?s) Plan] =>
               let E := fresh in
               destruct (orElse_Plan x s) as [? E]; rewrite E in H; clear E;
               cbn [withColumn] in H
           | context [if ?b then _ else _] => destruct b
           end; discriminate H.
Qed.

Lemma planner_throws_on_empty_schema_only_witness :
  simulateNLQResponse "average price" [] "data" = TypeError /\
  simulateNLQResponseBackend "average price" [] "data" = TypeError /\
  @nil DataProcessor.DataColumn = [].
Proof.
  assert (H : simulateNLQResponse "average price" [] "data" = TypeError) by reflexivity.
  assert (H' : simulateNLQResponseBackend "average price" [] "data" = TypeError) by reflexivity.
  exact (conj H (conj H' (planner_throws_on_empty_schema_only "average price" [] "data"
                            (or_introl H)))).
Defined.

End NlqServiceLaws.

(** ** voiceService.ts: smoothing, KPIs and recommendations *)

Module VoiceServiceLaws.

Import Js JsString VoiceService VoiceServiceFacts.
Import FloatFacts FloatLaws SortFacts.
Local Open Scope string_scope.

(** *** Smoothing *)

Lemma nth_map_seq {A} (g : nat -> A) (n i : nat) (d : A) :
  (i < n)%nat -> nth i (map g (seq 0 n)) d = g i.
Proof.
  intros H. rewrite (nth_indep _ d (g 0%nat)) by now rewrite length_map, length_seq.
  rewrite (map_nth g (seq 0 n) 0%nat i). now rewrite seq_nth.
Qed.

Lemma smoothFrom_length alpha rest : forall previous,
  List.length (smoothFrom alpha previous rest) = List.length rest.
Proof. induction rest as [|v t IH]; intros previous; simpl; [reflexivity | now rewrite IH]. Qed.

(** X22.  Each smoothing helper returns one value per input value (for
    [exponentialSmoothing] on a non-empty input), and the moving average
    copies the values before index [window - 1]. *)
Theorem smoothing_keeps_length values window period alpha :
  List.length (simpleMovingAverage values window) = List.length values /\
  List.length (calculateSeasonality values period) = List.length values /\
  (values <> [] -> List.length (exponentialSmoothing values alpha) = List.length values) /\
  (forall i, (i < window - 1)%nat -> (i < List.length values)%nat ->
             nth i (simpleMovingAverage values window) JsNumber.NaN
             = nth i values JsNumber.NaN).
Proof.
  unfold simpleMovingAverage, calculateSeasonality.
  rewrite !length_map, !length_seq. repeat split.
  - intros Hne. destruct values as [|v0 rest]; [congruence|].
    simpl. now rewrite smoothFrom_length.
  - intros i Hw Hi. rewrite nth_map_seq by assumption.
    apply Nat.ltb_lt in Hw. now rewrite Hw.
Qed.

Lemma sameSeason_shift period idx i :
  sameSeason period idx (i + period) = sameSeason period idx i.
Proof.
  destruct period as [|p]; [reflexivity|]. unfold sameSeason.
  replace (i + S p)%nat with (i + 1 * S p)%nat by lia.
  now rewrite Nat.Div0.mod_add.
Qed.

(** X23.  The seasonal averages repeat with the period: the entries at [i] and
    at [i + period] are the same. *)
Theorem seasonality_repeats values period i :
  (i + period < List.length values)%nat ->
  nth (i + period) (calculateSeasonality values period) JsNumber.NaN
  = nth i (calculateSeasonality values period) JsNumber.NaN.
Proof.
  intros H. unfold calculateSeasonality.
  rewrite !nth_map_seq by lia.
  rewrite (filter_ext (fun '(idx, _) => sameSeason period idx (i + period))
                      (fun '(idx, _) => sameSeason period idx i)); [reflexivity|].
  intros [idx v]. apply sameSeason_shift.
Qed.

Lemma seasonality_repeats_witness :
  (1 + 3 < List.length [1; 2; 3; 4; 5; 6; 7; 8]%float)%nat /\
  calculateSeasonality [1; 2; 3; 4; 5; 6; 7; 8]%float 3
    = [4; 5; 4.5; 4; 5; 4.5; 4; 5]%float /\
  nth (1 + 3) (calculateSeasonality [1; 2; 3; 4; 5; 6; 7; 8]%float 3) JsNumber.NaN
  = nth 1 (calculateSeasonality [1; 2; 3; 4; 5; 6; 7; 8]%float 3) JsNumber.NaN.
Proof.
  split; [simpl; lia|]. split; [vm_compute; reflexivity|].
  apply (seasonality_repeats [1; 2; 3; 4; 5; 6; 7; 8]%float 3 1). simpl. lia.
Defined.

(** *** KPIs *)

(** X24.  There is one KPI for every column that has a numeric value, in the
    order of the columns; a column without any is skipped. *)
Theorem calculateKPIs_columns data columns :
  map id (calculateKPIs data columns)
  = filter (fun column => (0 <? List.length (DataProcessor.numericValues data column))%nat)
           columns.
Proof.
  unfold calculateKPIs. induction columns as [|c cs IH]; [reflexivity|].
  cbn [flat_map filter]. rewrite map_app, IH. unfold kpiOf.
  destruct (DataProcessor.numericValues data c); reflexivity.
Qed.

Lemma finite_cases (c : float) :
  (abs c <? infinity)%float = true ->
  (exists s, Prim2SF c = S754_zero s) \/ (exists s m e, Prim2SF c = S754_finite s m e).
Proof.
  rewrite ltb_spec, abs_spec. change (Prim2SF infinity) with (S754_infinity false).
  destruct (Prim2SF c) as [s|s| |s m e]; intros H; try discriminate H; eauto.
Qed.

Lemma finite_sub_diag (c : float) : (abs c <? infinity)%float = true -> (c - c = 0)%float.
Proof.
  intros H. apply of_SF_zero. rewrite sub_spec. unfold SF64sub, SFsub.
  destruct (finite_cases c H) as [[s ->] | [s [m [e ->]]]].
  - now destruct s.
  - now rewrite Z.sub_diag.
Qed.

Lemma zero_div_finite (c : float) s m e :
  Prim2SF c = S754_finite s m e -> (0 / c = 0 \/ 0 / c = neg_zero)%float.
Proof.
  intros H. pose proof (div_spec 0 c) as D. rewrite SF_zero, H in D.
  unfold SF64div, SFdiv in D.
  destruct s; [right; now apply of_SF_neg_zero | left; now apply of_SF_zero].
Qed.

Definition visits : list Row :=
  [ [("day", Str "mon"); ("visits", Str "n/a")];
    [("day", Str "tue"); ("visits", Str "12.5")] ].

(** X25.  A column with a single numeric value, a finite one, gives a KPI with
    that value (to two decimals), change 0 and a stable trend. *)
Theorem single_value_kpi data column c :
  DataProcessor.numericValues data column = [c] ->
  (abs c <? infinity)%float = true ->
  exists k, calculateKPIs data [column] = [k] /\
            id k = column /\
            kpi_value k = JsNumber.round2 c /\
            change k = 0%float /\
            trend k = stable.
Proof.
  intros Hv Hfin. unfold calculateKPIs, kpiOf. cbn [flat_map]. rewrite Hv.
  eexists. split; [reflexivity|]. cbn [id kpi_value change trend last List.length Nat.ltb Nat.leb].
  repeat split.
  destruct (c =? 0)%float eqn:E0; cbn [negb]; [reflexivity|].
  rewrite (finite_sub_diag c Hfin).
  destruct (finite_cases c Hfin) as [[s Hz] | [s [m [e Hf]]]].
  - rewrite FloatAxioms.eqb_spec, Hz in E0. destruct s; discriminate E0.
  - destruct (zero_div_finite c s m e Hf) as [-> | ->]; reflexivity.
Qed.

Lemma single_value_kpi_witness :
  DataProcessor.numericValues visits "visits" = [12.5%float] /\
  (abs 12.5 <? infinity)%float = true /\
  exists k, calculateKPIs visits ["visits"] = [k] /\
            id k = "visits" /\
            kpi_value k = JsNumber.round2 12.5 /\
            change k = 0%float /\
            trend k = stable.
Proof.
  assert (H1 : DataProcessor.numericValues visits "visits" = [12.5%float])
    by (vm_compute; reflexivity).
  assert (H2 : (abs 12.5 <? infinity)%float = true) by reflexivity.
  exact (conj H1 (conj H2 (single_value_kpi visits "visits" 12.5%float H1 H2))).
Defined.


(** *** Recommendations *)

Example toFixed1_examples :
  JsNumber.toFixed1 25.25 = "25.3" /\ JsNumber.toFixed1 (-133.35) = "-133.3" /\
  JsNumber.toFixed1 99.95 = "100.0" /\ JsNumber.toFixed1 0.04 = "0.0" /\
  JsNumber.toFixed1 infinity = "Infinity".
Proof. repeat split; vm_compute; reflexivity. Qed.

Definition allClear : string :=
  "All metrics within normal ranges. Continue monitoring key performance indicators.".

Lemma forecastMessage_short predictions : (List.length (forecastMessage predictions) <= 1)%nat.
Proof.
  unfold forecastMessage. destruct (VoiceService.predictions predictions); [simpl; lia|].
  cbv zeta. destruct (_ <? _)%float; [simpl; lia|]. destruct (_ <? _)%float; simpl; lia.
Qed.

Lemma forecastMessage_not_allClear predictions : ~ In allClear (forecastMessage predictions).
Proof.
  unfold forecastMessage. destruct (VoiceService.predictions predictions); [intros []|].
  cbv zeta. destruct (_ <? _)%float; [intros [H|[]]; discriminate H|].
  destruct (_ <? _)%float; [intros [H|[]]; discriminate H | intros []].
Qed.

(** X26.  [generateRecommendations] returns between one and four messages, and
    the all-clear message only when it is the only one. *)
Theorem recommendations_never_empty anomalies predictions :
  (1 <= List.length (generateRecommendations anomalies predictions) <= 4)%nat /\
  (In allClear (generateRecommendations anomalies predictions) ->
   generateRecommendations anomalies predictions = [allClear]).
Proof.
  unfold generateRecommendations. cbv zeta.
  set (critical := if (0 <? _)%nat then _ else _).
  set (monitor := if (2 <? _)%nat then _ else _).
  set (note := match accuracy_score predictions with Some _ => _ | None => _ end).
  assert (Hc : (List.length critical <= 1)%nat /\ ~ In allClear critical).
  { subst critical. destruct (0 <? _)%nat; simpl; split; try lia; try tauto.
    intros [H|[]]; discriminate H. }
  assert (Hm : (List.length monitor <= 1)%nat /\ ~ In allClear monitor).
  { subst monitor. destruct (2 <? _)%nat; simpl; split; try lia; try tauto.
    intros [H|[]]; discriminate H. }
  assert (Hn : (List.length note <= 1)%nat /\ ~ In allClear note).
  { subst note. destruct (accuracy_score predictions) as [score|]; [|simpl; split; [lia | tauto]].
    destruct (_ && _); simpl; split; try lia; try tauto.
    intros [H|[]]; discriminate H. }
  pose proof (forecastMessage_short predictions) as Hf.
  pose proof (forecastMessage_not_allClear predictions) as Hf'.
  destruct (critical ++ forecastMessage predictions ++ monitor ++ note)%list as [|m ms] eqn:E.
  - split; [simpl; lia | reflexivity].
  - rewrite <- E. rewrite !length_app. split.
    + assert (Hpos : (0 < List.length (critical ++ forecastMessage predictions ++ monitor ++ note)%list)%nat)
        by (rewrite E; simpl; lia).
      rewrite !length_app in Hpos. lia.
    + intros Hin. exfalso. rewrite !in_app_iff in Hin. tauto.
Qed.


Lemma positive_over_zero (x : float) :
  (0 <? x)%float = true -> ((x - 0) / 0 * 100 = infinity)%float.
Proof.
  intros H. rewrite ltb_spec, SF_zero in H.
  assert (Hx : (x - 0 = x)%float).
  { apply Prim2SF_inj. rewrite sub_spec, SF_zero. unfold SF64sub, SFsub.
    destruct (Prim2SF x) as [s|s| |s m e]; try discriminate H; reflexivity. }
  rewrite Hx.
  assert (Hd : (x / 0 = infinity)%float).
  { apply Prim2SF_inj. rewrite div_spec, SF_zero. unfold SF64div, SFdiv.
    destruct (Prim2SF x) as [s|s| |s m e]; try discriminate H;
      destruct s; try discriminate H; reflexivity. }
  rewrite Hd. reflexivity.
Qed.

Definition fromZero : PredictionResult :=
  {| metric := "signups";
     predictions := [ {| pr_date := "2024-03-01"; pr_value := 0;
                         confidence_lower := 0; confidence_upper := 4 |};
                      {| pr_date := "2024-03-02"; pr_value := 1.5;
                         confidence_lower := 0; confidence_upper := 5.5 |} ];
     accuracy_score := Some 0.9%float;
     model_type := "linear_regression_with_exponential_smoothing" |}.

(** X27.  The change of the forecast is divided by the first predicted value
    without a guard: when that value is 0 and the last one is positive, the
    opportunity message announces an increase by [Infinity%]. *)
Theorem forecast_from_zero_reads_infinity anomalies p first rest :
  predictions p = first :: rest ->
  pr_value first = 0%float ->
  (0 <? pr_value (last (first :: rest) first))%float = true ->
  In ("Opportunity: " ++ VoiceService.metric p
      ++ " projected to increase by Infinity% over the next period.")
     (generateRecommendations anomalies p).
Proof.
  intros Hp H0 Hlast.
  assert (Hf : forecastMessage p =
               [ "Opportunity: " ++ VoiceService.metric p
                 ++ " projected to increase by Infinity% over the next period." ]).
  { unfold forecastMessage. rewrite Hp. cbv zeta. rewrite H0.
    rewrite (positive_over_zero _ Hlast). reflexivity. }
  unfold generateRecommendations. cbv zeta. rewrite Hf.
  match goal with |- In ?m (match ?l with [] => _ | _ => _ end) =>
    assert (Hin : In m l) by (rewrite !in_app_iff; right; left; now left);
    destruct l; [destruct Hin | exact Hin]
  end.
Qed.

Lemma forecast_from_zero_reads_infinity_witness :
  (0 <? 1.5)%float = true /\
  In "Opportunity: signups projected to increase by Infinity% over the next period."
     (generateRecommendations [] fromZero).
Proof.
  split; [reflexivity|].
  apply (forecast_from_zero_reads_infinity [] fromZero
           {| pr_date := "2024-03-01"; pr_value := 0;
              confidence_lower := 0; confidence_upper := 4 |}
           [ {| pr_date := "2024-03-02"; pr_value := 1.5;
                confidence_lower := 0; confidence_upper := 5.5 |} ]); reflexivity.
Defined.

(** *** The analysis of a dataset *)

Lemma timeSeries_points host clock data metric series :
  timeSeries host clock data metric = Return series ->
  exists pts, points clock data metric = Return pts /\
              List.length series = List.length data /\
              (forall p, In p series -> In p pts).
Proof.
  unfold timeSeries. destruct (points clock data metric) as [pts|] eqn:E; [|discriminate].
  cbn [bind]. intros H. injection H as <-. exists pts. split; [reflexivity|].
  split; [now rewrite sort_length, (points_length _ _ _ _ E) | intros p; apply sort_In].
Qed.

(** X28.  With fewer than two rows there is nothing to report: the forecast is
    the degenerate one, no anomaly is found, and the recommendations are
    the all-clear message alone. *)
Theorem small_dataset_is_all_clear host clock clock' data metric periods :
  (List.length data < 2)%nat ->
  (forall i, 0 <= clock i <= 8640000000000000)%Z ->
  (forall i, 0 <= clock' i <= 8640000000000000)%Z ->
  exists p a,
    predictTimeSeries host clock data metric periods = Return p /\
    detectAnomalies clock' data metric = Return a /\
    generateRecommendations a p = [allClear].
Proof.
  intros Hlen Hc Hc'.
  destruct (short_data_builds_series host clock data metric Hlen Hc) as [series [Hs Hl]].
  destruct (short_data_builds_series host clock' data metric Hlen Hc') as [series' [Hs' _]].
  destruct (timeSeries_points _ _ _ _ _ Hs') as [pts [Hpts _]].
  do 2 eexists. split; [|split].
  - unfold predictTimeSeries. rewrite Hs. cbn [bind].
    apply Nat.ltb_lt in Hl. rewrite Hl. reflexivity.
  - unfold detectAnomalies. rewrite Hpts. cbn [bind].
    replace (List.length pts <? 3)%nat with true; [reflexivity|].
    symmetry. apply Nat.ltb_lt. rewrite (points_length _ _ _ _ Hpts). lia.
  - reflexivity.
Qed.

Lemma small_dataset_is_all_clear_witness :
  exists p a,
    predictTimeSeries JsDate.utcHost (fun _ => 1730592000000%Z)
                      [ [("visits", Num 12)] ] "visits" 30 = Return p /\
    detectAnomalies (fun _ => 1730592000500%Z) [ [("visits", Num 12)] ] "visits" = Return a /\
    generateRecommendations a p = [allClear].
Proof.
  apply (small_dataset_is_all_clear JsDate.utcHost (fun _ => 1730592000000%Z)
           (fun _ => 1730592000500%Z) [ [("visits", Num 12)] ] "visits" 30).
  - simpl. lia.
  - intros i. lia.
  - intros i. lia.
Defined.

(** X29.  With two rows or more a forecast that is returned has one prediction
    for each period, the regression model type and an accuracy score. *)
Theorem forecast_covers_every_period host clock data metric periods r :
  (2 <= List.length data)%nat ->
  predictTimeSeries host clock data metric periods = Return r ->
  List.length (predictions r) = periods /\
  model_type r = "linear_regression_with_exponential_smoothing" /\
  accuracy_score r <> None.
Proof.
  intros Hlen H. unfold predictTimeSeries in H.
  destruct (timeSeries host clock data metric) as [series|] eqn:Es; [|discriminate].
  cbn [bind] in H.
  destruct (timeSeries_points _ _ _ _ _ Es) as [pts [_ [Hl _]]].
  replace (List.length series <? 2)%nat with false in H
    by (symmetry; apply Nat.ltb_ge; lia).
  destruct (linearRegression _ _) as [slope intercept].
  destruct (mapM _ (seq 1 periods)) as [ps|] eqn:Em; [|discriminate].
  cbn [bind] in H. injection H as <-. cbn [predictions model_type accuracy_score].
  split; [|split; [reflexivity | discriminate]].
  apply mapM_length in Em. now rewrite Em, length_seq.
Qed.

Definition weekOfSales : list Row :=
  [ [("date", Str "2024-01-01"); ("sales", Num 100)];
    [("date", Str "2024-01-02"); ("sales", Num 120)];
    [("date", Str "2024-01-03"); ("sales", Num 90)] ].

Definition weekForecast : PredictionResult :=
  Eval vm_compute in
    match predictTimeSeries JsDate.utcHost (fun _ => 0%Z) weekOfSales "sales" 2 with
    | Return r => r
    | Throw _ => {| metric := EmptyString; predictions := [];
                    accuracy_score := None; model_type := EmptyString |}
    end.

Lemma forecast_covers_every_period_witness :
  (2 <= List.length weekOfSales)%nat /\
  predictTimeSeries JsDate.utcHost (fun _ => 0%Z) weekOfSales "sales" 2 = Return weekForecast /\
  map pr_date (predictions weekForecast) = ["2024-01-04"; "2024-01-05"] /\
  List.length (predictions weekForecast) = 2%nat /\
  model_type weekForecast = "linear_regression_with_exponential_smoothing" /\
  accuracy_score weekForecast <> None.
Proof.
  assert (H1 : (2 <= List.length weekOfSales)%nat) by (simpl; lia).
  assert (H2 : predictTimeSeries JsDate.utcHost (fun _ => 0%Z) weekOfSales "sales" 2
               = Return weekForecast) by (vm_compute; reflexivity).
  split; [exact H1|]. split; [exact H2|]. split; [vm_compute; reflexivity|].
  exact (forecast_covers_every_period JsDate.utcHost (fun _ => 0%Z) weekOfSales "sales" 2
           weekForecast H1 H2).
Defined.

Lemma mapM_returns {A B : Type} (f : A -> Completion B) (l : list A) :
  (forall a, In a l -> exists b, f a = Return b) -> exists r, mapM f l = Return r.
Proof.
  induction l as [|a t IH]; intros H; [eexists; reflexivity|].
  destruct (H a (or_introl eq_refl)) as [b Hb].
  destruct IH as [r Hr]; [intros; apply H; now right|].
  exists (b :: r). cbn [mapM]. rewrite Hb. cbn [bind]. rewrite Hr. reflexivity.
Qed.

(** X30.  A forecast needs the date of the last point.  When every row carries
    a [date] (or [timestamp]) that does not parse, the series is built but
    [toISOString] throws a RangeError on the first predicted date. *)
Theorem unparseable_dates_throw host clock data metric periods :
  (2 <= List.length data)%nat ->
  (1 <= periods)%nat ->
  (forall row, In row data ->
     ToBoolean (or (get row "date") (get row "timestamp")) = true /\
     toDate host (or (get row "date") (get row "timestamp")) = None) ->
  predictTimeSeries host clock data metric periods = Throw RangeError.
Proof.
  intros Hlen Hper Hrows.
  assert (Hstamp : forall i row, In row data ->
            stamp clock (List.length data) i row
            = Return (or (get row "date") (get row "timestamp"))).
  { intros i row Hin. unfold stamp. now rewrite (proj1 (Hrows row Hin)). }
  destruct (mapM_returns
              (fun '(index, row) =>
                 d <- stamp clock (List.length data) index row ;;
                 Return {| date := d;
                           value := JsNumber.orZero (ToNumber (get row metric)) |})
              (indexed data)) as [mapped Hm].
  { intros [i row] Hin. apply indexed_row in Hin. rewrite (Hstamp i row Hin).
    eexists. reflexivity. }
  assert (Hdates : forall p, In p mapped -> toDate host (date p) = None).
  { eapply mapM_forall; [|exact Hm]. intros [i row] p Hin Hp.
    apply indexed_row in Hin. rewrite (Hstamp i row Hin) in Hp. cbn [bind] in Hp.
    injection Hp as <-. cbn [date]. apply Hrows, Hin. }
  assert (Hpts : points clock data metric
                 = Return (filter (fun v => negb (JsNumber.isNaN (value v))) mapped)).
  { unfold points. rewrite Hm. reflexivity. }
  unfold predictTimeSeries, timeSeries. rewrite Hpts. cbn [bind].
  set (series := sort _ _).
  assert (Hl : List.length series = List.length data).
  { subst series. now rewrite sort_length, (points_length _ _ _ _ Hpts). }
  replace (List.length series <? 2)%nat with false by (symmetry; apply Nat.ltb_ge; lia).
  destruct (linearRegression _ _) as [slope intercept].
  assert (Hlast : toDate host (date (last series {| date := Undefined; value := 0 |})) = None).
  { apply Hdates.
    assert (Hin : In (last series {| date := Undefined; value := 0 |}) series).
    { destruct (@exists_last _ series) as [l' [a Ea]].
      - intros E. rewrite E in Hl. simpl in Hl. lia.
      - rewrite Ea, last_last. apply in_elt. }
    subst series. apply sort_In in Hin. apply filter_In in Hin. tauto. }
  rewrite Hlast.
  destruct periods as [|k]; [lia|]. cbn [seq mapM]. reflexivity.
Qed.

Definition undatedLog : list Row :=
  [ [("date", Str "soon"); ("sales", Num 100)];
    [("date", Str "later"); ("sales", Num 120)] ].

Lemma unparseable_dates_throw_witness :
  predictTimeSeries JsDate.utcHost (fun _ => 0%Z) undatedLog "sales" 30 = Throw RangeError.
Proof.
  apply (unparseable_dates_throw JsDate.utcHost (fun _ => 0%Z) undatedLog "sales" 30).
  - simpl. lia.
  - lia.
  - intros row [<-|[<-|[]]]; split; vm_compute; reflexivity.
Defined.

End VoiceServiceLaws.
